(** * SmartWaterBottle: the hydration-reminder backend, embedded in Rocq

    Source: [src/api.js], which holds the successive versions of the one
    serverless endpoint, separated by document markers:

    - lines 1-168    [V1]  rule-based handler, profile carried by the request;
    - lines 169-357  [V2]  rule-based handler, profile read from the process
                           environment;
    - lines 358-614  [V3]  planner backed by a text-generation service, with
                           the rule-based [fallbackPlan];
    - lines 615-827  [V4]  a re-edition of [V3] whose [fallbackPlan] takes the
                           wake and sleep strings from the configuration and
                           whose [TG] returns the status and text of the
                           reply; its [getConfig], [parseHM], [aiPlan] and
                           [normalizeActivity] are those of [V3] word for
                           word and are taken from there.

    [streamToString], which every version carries, is embedded once, in
    [Stream].

    Numbers.  A JavaScript number is an IEEE-754 double.  The embedding takes
    the finite ones at their exact rational value ([Q]), so [+], [-], [*], [/]
    are exact and [Math.round] is the floor of [x + 1/2]; timestamps (the
    value of a [Date]) are integers ([Z], milliseconds since the epoch).
    [NaN] and the infinities have no counterpart: every field that the source
    passes through [Number(...)] is typed as an optional rational, a property
    that holds a string is typed as an optional string.  Strings are ASCII.

    Time.  The local time zone is a fixed offset [tz] from UTC, in
    milliseconds (no daylight saving).

    Effects.  A handler reads the wall clock several times, reads and writes
    the process-wide [lastNotified] map and calls the messaging service.  Each
    clock reading and each outcome of an outbound call is an explicit input (a
    field of the module's [World] record); the map is passed in and out; the
    outbound calls and the map writes are recorded, in order, in a list of
    [Event]s. *)

From Stdlib Require Import ZArith QArith Qround Lqa Lia Bool List Ascii String.
From stdpp Require Import gmap strings.
Import ListNotations.

Local Open Scope Z_scope.
Local Open Scope Q_scope.

(** ** JavaScript primitives used by the source *)

Module Js.

(** [Math.round]: the nearest integer, ties towards +infinity. *)
Definition Math_round (x : Q) : Q := inject_Z (Qfloor (x + (1 # 2))).

Definition Math_max (a b : Q) : Q := if Qle_bool a b then b else a.
Definition Math_min (a b : Q) : Q := if Qle_bool a b then a else b.

(** [const clamp = (v, lo, hi) => Math.max(lo, Math.min(v, hi))]
    (lines 167, 176, 363, 619). *)
Definition clamp (v lo hi : Q) : Q := Math_max lo (Math_min v hi).

(** [x < y], [x <= y], [x >= y] on numbers. *)
Definition ltb (x y : Q) : bool := negb (Qle_bool y x).
Definition leb (x y : Q) : bool := Qle_bool x y.
Definition geb (x y : Q) : bool := Qle_bool y x.

(** [Number(x) || d]: [undefined] gives [NaN], and [NaN] and [0] are falsy. *)
Definition number_or (x : option Q) (d : Q) : Q :=
  match x with
  | Some q => if Qeq_bool q 0 then d else q
  | None => d
  end.

(** [Number(x || d)] for an environment variable holding a number: unset
    and the empty string are falsy, every other string (also ["0"]) is
    truthy. *)
Definition number_of_env (x : option Q) (d : Q) : Q :=
  match x with Some q => q | None => d end.

(** [s || d] on strings: [undefined] and [''] are falsy. *)
Definition string_or (x : option string) (d : string) : string :=
  match x with
  | Some s => if String.eqb s "" then d else s
  | None => d
  end.

(** [!x] on an optional string. *)
Definition falsy (x : option string) : bool :=
  match x with
  | Some s => String.eqb s ""
  | None => true
  end.

(** *** Dates

    A [Date] is its time value.  [new Date(x)] clips a number to an integer
    by truncation towards zero. *)
Definition TimeClip (x : Q) : Z := Z.quot (Qnum x) (Zpos (Qden x)).

Definition msPerMinute : Z := 60000.
Definition msPerHour : Z := 3600000.
Definition msPerDay : Z := 86400000.

Section LocalTime.
(** The local time zone, as a fixed offset from UTC in milliseconds. *)
Variable tz : Z.

Definition getHours (t : Z) : Z := (((t + tz) mod msPerDay) / msPerHour)%Z.

(** [d.setHours(h, m, 0, 0)]: same local calendar day, the given time of
      day (hours and minutes beyond 23 and 59 carry over). *)
Definition setHours (t h m : Z) : Z :=
    ((t + tz) - ((t + tz) mod msPerDay) + h * msPerHour + m * msPerMinute - tz)%Z.

(** [d.getDay()]: 0 = Sunday ... 6 = Saturday; the epoch was a Thursday. *)
Definition getDay (t : Z) : Z := ((((t + tz) / msPerDay) + 4) mod 7)%Z.
End LocalTime.

(** *** Strings *)

Definition is_digit (c : ascii) : bool :=
  let n := nat_of_ascii c in (48 <=? n)%nat && (n <=? 57)%nat.

Definition digit_val (c : ascii) : Z := (Z.of_nat (nat_of_ascii c) - 48)%Z.

(** [String.prototype.toLowerCase], on ASCII text. *)
Definition lower_char (c : ascii) : ascii :=
  let n := nat_of_ascii c in
  if (65 <=? n)%nat && (n <=? 90)%nat then ascii_of_nat (n + 32) else c.

Fixpoint toLowerCase (s : string) : string :=
  match s with
  | EmptyString => EmptyString
  | String c r => String (lower_char c) (toLowerCase r)
  end.

(** [t.includes(w)]: [w] occurs in [t] as a contiguous substring. *)
Fixpoint includes (t w : string) : bool :=
  String.prefix w t ||
  match t with
  | EmptyString => false
  | String _ r => includes r w
  end.

(** [s.slice(0, n)]. *)
Fixpoint slice0 (n : nat) (s : string) : string :=
  match n, s with
  | O, _ => EmptyString
  | S _, EmptyString => EmptyString
  | S k, String c r => String c (slice0 k r)
  end.

End Js.

(** ** Types shared by the handlers *)

(** The three [skipped] reasons of a 200 response. *)
Inductive SkipReason : Set := quiet_hours | interval | on_track_or_done.

(** What a handler does to the outside, in program order: the request to the
    text-generation service, the POST to the messaging service and the write
    to the [lastNotified] map. *)
Inductive Event (T : Type) : Type :=
| OpenAiRequest (key : string)
| TelegramSend (botToken chatId : string) (text : T)
| LastNotifiedSet (chatId : string) (t : Z).
Arguments OpenAiRequest {T} _.
Arguments TelegramSend {T} _ _ _.
Arguments LastNotifiedSet {T} _ _.

Definition is_send {T} (e : Event T) : bool :=
  match e with TelegramSend _ _ _ => true | _ => false end.

Definition is_set {T} (e : Event T) : bool :=
  match e with LastNotifiedSet _ _ => true | _ => false end.

(** The activity levels named by the source, and their spelling. *)
Inductive Activity : Set := Sedentary | Light | Moderate | Heavy.

Definition activity_name (a : Activity) : string :=
  match a with
  | Sedentary => "Sedentary"
  | Light => "Light"
  | Moderate => "Moderate"
  | Heavy => "Heavy"
  end.

(** ** V1: the rule-based handler with the profile in the request
    (lines 1-168) *)

Module V1.

Definition QUIET_START : Z := 23.
Definition QUIET_END : Z := 7.
Definition MIN_INTERVAL_MIN : Z := 30.

(** The [profile] object of the request body; [None] is an absent property. *)
Record Profile : Type := {
  p_name : option string;
  p_age : option Q;
  p_weight_kg : option Q;
  p_activity_level : option string;
  p_daily_activity_minutes : option Q;
  p_medical_conditions : option (list string);
  p_clinician_limit_ml : option Q;
  p_temp_c : option Q;
  p_humidity_pct : option Q;
  p_wake_time : option string;
  p_sleep_time : option string
}.

(** The default [p={}]. *)
Definition empty_profile : Profile :=
  {| p_name := None; p_age := None; p_weight_kg := None;
     p_activity_level := None; p_daily_activity_minutes := None;
     p_medical_conditions := None; p_clinician_limit_ml := None;
     p_temp_c := None; p_humidity_pct := None;
     p_wake_time := None; p_sleep_time := None |}.

(** The object returned by [computeContext]. *)
Record Context : Type := {
  name : string;
  age : option Q;
  weight_kg : Q;
  activity_level : string;
  daily_activity_minutes : Q;
  medical_conditions : list string;
  clinician_limit_ml : option Q;
  temp_c : option Q;
  humidity_pct : option Q;
  wake : Z;
  sleep : Z
}.

(** The object returned by [computeSchedule]. *)
Record Schedule : Type := { fractionAt : Z -> Q }.

(** The arguments of the message template of [buildRuleMessage]. *)
Record RuleMessage : Type := {
  msg_name : string;
  msg_behind : Q;
  msg_current_ml : Q;
  msg_goal_ml : Q;
  msg_next_sip_ml : Q;
  msg_remaining_ml : Q
}.

Record Body : Type := {
  pct : option Q;
  ml : option Q;
  cm : option Q;
  ts : option Q;
  profile : option Profile
}.

(** [body = None]: the body is not an object and [JSON.parse] throws. *)
Record Request : Type := { method : string; body : option Body }.

Record Env : Type := { CHAT_ID : option string; BOT_TOKEN : option string }.

(** What one invocation observes: the clock at [new Date()] of line 24, at
    the [new Date()] inside the sleep default of line 96, at [Date.now()] of
    lines 39 and 84, and whether the [fetch] of [telegramSend] resolves. *)
Record World : Type := {
  clk_now : Z;
  clk_sleep_default : Z;
  clk_rate : Z;
  clk_set : Z;
  send_resolves : bool
}.

Inductive Response : Type :=
| Error405
| Error400
| Error500_missing_env
| Error500_server_error
| Skipped (reason : SkipReason)
| Notified (goal_ml next_sip_ml target_ml_now : Q).

Record Result : Type := {
  response : Response;
  lastNotified_after : gmap string Z;
  events : list (Event RuleMessage)
}.

(** [/^\d{2}:\d{2}$/.test(s||'')], then [s.split(':').map(Number)]. *)
Definition matchHM (s : option string) : option (Z * Z) :=
  match s with
  | Some (String a (String b (String ":" (String c (String d EmptyString))))) =>
      if Js.is_digit a && Js.is_digit b && Js.is_digit c && Js.is_digit d
      then Some ((10 * Js.digit_val a + Js.digit_val b)%Z,
                 (10 * Js.digit_val c + Js.digit_val d)%Z)
      else None
  | _ => None
  end.

Section Handler.
Variable tz : Z.

(** The closure [parseHM] of line 94: it copies the current value of [now]. *)
Definition parseHM (now : Z) (s : option string) : option Z :=
  match matchHM s with
  | Some (a, b) => Some (Js.setHours tz now a b)
  | None => None
  end.

(** [computeContext(p, now)], lines 93-109.  [now] is a [Date] object shared
    with the caller and [now.setHours(7,0,0,0)] updates it in place: the
    second component is the value of that object on return.  [fresh] is the
    clock at the [new Date()] of line 96. *)
Definition computeContext (p : Profile) (now : Z) (fresh : Z) : Context * Z :=
  let '(wake, now1) :=
    match parseHM now (p_wake_time p) with
    | Some d => (d, now)
    | None => let n := Js.setHours tz now 7 0 in (n, n)
    end in
  let sleep :=
    match parseHM now1 (p_sleep_time p) with
    | Some d => d
    | None => Js.setHours tz fresh 23 0
    end in
  ({| name := Js.string_or (p_name p) "friend";
      age := match p_age p with
             | Some q => if Qeq_bool q 0 then None else Some q
             | None => None
             end;
      weight_kg := Js.number_or (p_weight_kg p) 60;
      activity_level := Js.string_or (p_activity_level p) "Light";
      daily_activity_minutes := Js.number_or (p_daily_activity_minutes p) 30;
      medical_conditions := match p_medical_conditions p with
                            | Some l => l
                            | None => []
                            end;
      clinician_limit_ml := p_clinician_limit_ml p;
      temp_c := p_temp_c p;
      humidity_pct := p_humidity_pct p;
      wake := wake;
      sleep := sleep |}, now1).

End Handler.

(** [{Sedentary:0, Light:200, Moderate:400, Heavy:600}[level] ?? 200]. *)
Definition addPer (level : string) : Q :=
  if String.eqb level "Sedentary" then 0
  else if String.eqb level "Light" then 200
  else if String.eqb level "Moderate" then 400
  else if String.eqb level "Heavy" then 600
  else 200.

(** [l.includes(x)] on an array of strings. *)
Definition array_includes (l : list string) (x : string) : bool :=
  existsb (String.eqb x) l.

(** [x == null]. *)
Definition is_null (x : option Q) : bool :=
  match x with Some _ => false | None => true end.

(** [x != null && x >= bound]. *)
Definition present_geb (x : option Q) (bound : Q) : bool :=
  match x with
  | Some v => Js.geb v bound
  | None => false
  end.

(** [computeGoalMl(ctx)], lines 111-124. *)
Definition computeGoalMl (ctx : Context) : Q :=
  let goal := Js.Math_round (35 * weight_kg ctx) in
  let blocks := Js.Math_max 0 (Js.Math_round (daily_activity_minutes ctx / 30)) in
  let goal := goal + blocks * addPer (activity_level ctx) in
  let goal :=
    if present_geb (temp_c ctx) 30 || present_geb (humidity_pct ctx) 70
    then goal + 300 else goal in
  let hasCKD := array_includes (medical_conditions ctx) "ckd" in
  let hasHF := array_includes (medical_conditions ctx) "hf" in
  let goal :=
    match clinician_limit_ml ctx with
    | Some limit => Js.Math_min goal limit
    | None => goal
    end in
  let goal :=
    if (hasCKD || hasHF) && is_null (clinician_limit_ml ctx)
    then Js.Math_min goal 2000 else goal in
  Js.clamp goal 1200 4000.

(** [computeSchedule(ctx)], lines 126-153. *)
Definition computeSchedule (ctx : Context) : Schedule :=
  let level := activity_level ctx in
  let morning :=
    if String.eqb level "Heavy" then 0.25
    else if String.eqb level "Moderate" then 0.30 else 0.35 in
  let afternoon :=
    if String.eqb level "Heavy" then 0.55
    else if String.eqb level "Moderate" then 0.50 else 0.45 in
  let evening := 1 - (morning + afternoon) in
  let wake := wake ctx in
  let sleep := sleep ctx in
  let durMs := Js.Math_max 1 (inject_Z (sleep - wake)) in
  let tMorningEnd := Js.TimeClip (inject_Z wake + durMs * 0.33) in
  let tAfternoonEnd := Js.TimeClip (inject_Z wake + durMs * 0.80) in
  {| fractionAt := fun now =>
       if (now <=? wake)%Z then 0
       else if (sleep <=? now)%Z then 1
       else if (now <=? tMorningEnd)%Z then
         let f := inject_Z (now - wake) / inject_Z (tMorningEnd - wake) in
         f * morning
       else if (now <=? tAfternoonEnd)%Z then
         let f := inject_Z (now - tMorningEnd)
                  / inject_Z (tAfternoonEnd - tMorningEnd) in
         morning + f * afternoon
       else
         let f := inject_Z (now - tAfternoonEnd)
                  / inject_Z (sleep - tAfternoonEnd) in
         morning + afternoon + f * evening |}.

(** [buildRuleMessage], lines 155-159. *)
Definition buildRuleMessage (ctx : Context)
    (goal_ml current_ml remaining_ml target_ml_now next_sip_ml : Q) : RuleMessage :=
  {| msg_name := name ctx;
     msg_behind := target_ml_now - current_ml;
     msg_current_ml := current_ml;
     msg_goal_ml := goal_ml;
     msg_next_sip_ml := next_sip_ml;
     msg_remaining_ml := remaining_ml |}.

(** Lines 55-56 of the handler. *)
Definition baseMin (act : string) : Q :=
  if String.eqb act "Heavy" then 200
  else if String.eqb act "Moderate" then 180 else 150.

Definition baseMax (act : string) : Q :=
  if String.eqb act "Heavy" then 300
  else if String.eqb act "Moderate" then 250 else 220.

Section Endpoint.
Variable tz : Z.

(** A response that leaves the map alone and does nothing outside. *)
Definition reply (r : Response) (lastNotified : gmap string Z) : Result :=
  {| response := r; lastNotified_after := lastNotified; events := [] |}.

(** [handler(req, res)], lines 10-91.  An exception raised inside the [try]
    block ends in the [catch] of line 87, which answers 500. *)
Definition handler (w : World) (env : Env) (lastNotified : gmap string Z)
    (req : Request) : Result :=
  if negb (String.eqb (method req) "POST") then reply Error405 lastNotified
  else
    match body req with
    | None => reply Error500_server_error lastNotified
    | Some b =>
      match pct b, ml b with
      | Some pct, Some ml =>
        if Js.falsy (CHAT_ID env) || Js.falsy (BOT_TOKEN env)
        then reply Error500_missing_env lastNotified
        else
          let chatId := default "" (CHAT_ID env) in
          let botToken := default "" (BOT_TOKEN env) in
          let now := clk_now w in
          let hour := Js.getHours tz now in
          if (QUIET_START <=? hour)%Z || (hour <? QUIET_END)%Z
          then reply (Skipped quiet_hours) lastNotified
          else
            let '(ctx, now) :=
              computeContext tz (default empty_profile (profile b)) now
                             (clk_sleep_default w) in
            let goal_ml := computeGoalMl ctx in
            let sched := computeSchedule ctx in
            let target_ml_now := Js.Math_round (goal_ml * fractionAt sched now) in
            let remaining_ml := Js.Math_max 0 (goal_ml - ml) in
            let last := default 0%Z (lastNotified !! chatId) in
            if (clk_rate w - last <? MIN_INTERVAL_MIN * 60 * 1000)%Z
            then reply (Skipped interval) lastNotified
            else
              let behind := Js.ltb (ml + 50) target_ml_now in
              let veryLow := Js.ltb pct 40 in
              if negb (behind || veryLow) || Js.leb remaining_ml 0
              then reply (Skipped on_track_or_done) lastNotified
              else
                let gap := Js.Math_max 0 (target_ml_now - ml) in
                let act := activity_level ctx in
                let next_sip_ml :=
                  Js.clamp (Js.Math_round (gap / 3)) (baseMin act) (baseMax act) in
                let text :=
                  buildRuleMessage ctx goal_ml ml remaining_ml target_ml_now
                                   next_sip_ml in
                if send_resolves w then
                  {| response := Notified goal_ml next_sip_ml target_ml_now;
                     lastNotified_after := <[chatId := clk_set w]> lastNotified;
                     events := [TelegramSend botToken chatId text;
                                LastNotifiedSet chatId (clk_set w)] |}
                else
                  {| response := Error500_server_error;
                     lastNotified_after := lastNotified;
                     events := [TelegramSend botToken chatId text] |}
      | _, _ => reply Error400 lastNotified
      end
    end.

End Endpoint.

End V1.

(** ** V2: the rule-based handler configured from the environment
    (lines 169-357) *)

Module V2.

(** [process.env].  A variable read through [Number(...)] is given by its
    numeric value; [None] is an unset or empty variable. *)
Record Env : Type := {
  env_BOT_TOKEN : option string;
  env_CHAT_ID : option string;
  env_NAME : option string;
  env_WEIGHT_KG : option Q;
  env_ACTIVITY_LEVEL : option string;
  env_DAILY_ACTIVITY_MINUTES : option Q;
  env_WAKE_TIME : option string;
  env_SLEEP_TIME : option string;
  env_QUIET_START_HOUR : option Q;
  env_QUIET_END_HOUR : option Q;
  env_MIN_INTERVAL_MIN : option Q;
  env_OPENAI_API_KEY : option string
}.

Record Config : Type := {
  BOT_TOKEN : option string;
  CHAT_ID : option string;
  NAME : string;
  WEIGHT_KG : Q;
  ACTIVITY_LEVEL : string;
  DAILY_ACTIVITY_MINUTES : Q;
  WAKE_TIME : string;
  SLEEP_TIME : string;
  QUIET_START : Q;
  QUIET_END : Q;
  MIN_INTERVAL_MIN : Q
}.

(** [getConfig()], lines 188-210. *)
Definition getConfig (env : Env) : Config :=
  {| BOT_TOKEN := env_BOT_TOKEN env;
     CHAT_ID := env_CHAT_ID env;
     NAME := Js.string_or (env_NAME env) "friend";
     WEIGHT_KG := Js.number_of_env (env_WEIGHT_KG env) 70;
     ACTIVITY_LEVEL := Js.string_or (env_ACTIVITY_LEVEL env) "Moderate";
     DAILY_ACTIVITY_MINUTES := Js.number_of_env (env_DAILY_ACTIVITY_MINUTES env) 60;
     WAKE_TIME := Js.string_or (env_WAKE_TIME env) "07:00";
     SLEEP_TIME := Js.string_or (env_SLEEP_TIME env) "23:00";
     QUIET_START := Js.number_of_env (env_QUIET_START_HOUR env) 23;
     QUIET_END := Js.number_of_env (env_QUIET_END_HOUR env) 7;
     MIN_INTERVAL_MIN := Js.number_of_env (env_MIN_INTERVAL_MIN env) 30 |}.

(** [/^(\d{1,2}):(\d{2})$/.exec(s || '')], with the two groups as numbers. *)
Definition matchHM (s : string) : option (Z * Z) :=
  match s with
  | String a (String ":" (String c (String d EmptyString))) =>
      if Js.is_digit a && Js.is_digit c && Js.is_digit d
      then Some (Js.digit_val a, (10 * Js.digit_val c + Js.digit_val d)%Z)
      else None
  | String a (String b (String ":" (String c (String d EmptyString)))) =>
      if Js.is_digit a && Js.is_digit b && Js.is_digit c && Js.is_digit d
      then Some ((10 * Js.digit_val a + Js.digit_val b)%Z,
                 (10 * Js.digit_val c + Js.digit_val d)%Z)
      else None
  | _ => None
  end.

(** [clamp] at integer arguments. *)
Definition clampZ (v lo hi : Z) : Z := Z.max lo (Z.min v hi).

Record Schedule : Type := { fractionAt : Z -> Q }.

Record RuleMessage : Type := {
  msg_name : string;
  msg_behind : Q;
  msg_current_ml : Q;
  msg_goal_ml : Q;
  msg_next_sip_ml : Q;
  msg_remaining_ml : Q
}.

(** The text sent: the template of line 315, or its rephrasing. *)
Inductive Text : Type :=
| Template (m : RuleMessage)
| Rephrased (s : string).

Record Body : Type := { ml : option Q; pct : option Q; cm : option Q }.

Record Request : Type := { method : string; body : option Body }.

(** What one invocation observes: the clock at [new Date()] of line 282, at
    the [new Date()] of the two [parseHM] calls of [makeSchedule], at
    [Date.now()] of lines 296 and 342; the trimmed text returned by the
    rephrasing call ([None] when the call fails or returns nothing); whether
    the [fetch] of [TG] resolves. *)
Record World : Type := {
  clk_now : Z;
  clk_wake : Z;
  clk_sleep : Z;
  clk_rate : Z;
  clk_set : Z;
  rephrasing : option string;
  send_resolves : bool
}.

Inductive Response : Type :=
| Error405
| Error400
| Error500_missing_env
| Error500_server_error
| Skipped (reason : SkipReason) (goal_and_target : option (Q * Q))
| Notified (goal_ml target_ml_now next_sip_ml : Q).

Record Result : Type := {
  response : Response;
  lastNotified_after : gmap string Z;
  events : list (Event Text)
}.

(** [computeGoalMl(weight_kg, activity_level, daily_minutes)], lines 222-232. *)
Definition addPer (level : string) : Q :=
  if String.eqb level "Sedentary" then 0
  else if String.eqb level "Light" then 200
  else if String.eqb level "Moderate" then 400
  else if String.eqb level "Heavy" then 600
  else 200.

Definition computeGoalMl (weight_kg : Q) (activity_level : string)
    (daily_minutes : Q) : Q :=
  let goal := Js.Math_round (35 * weight_kg) in
  let blocks := Js.Math_max 0 (Js.Math_round (daily_minutes / 30)) in
  let goal := goal + blocks * addPer activity_level in
  Js.clamp goal 1200 4000.

(** Lines 310-311 of the handler. *)
Definition baseMin (act : string) : Q :=
  if String.eqb act "Heavy" then 200
  else if String.eqb act "Moderate" then 180 else 150.

Definition baseMax (act : string) : Q :=
  if String.eqb act "Heavy" then 300
  else if String.eqb act "Moderate" then 250 else 220.

Section Endpoint.
Variable tz : Z.

(** [parseHM(s, defH, defM)], lines 213-220; [fresh] is its [new Date()]. *)
Definition parseHM (fresh : Z) (s : string) (defH defM : Z) : Z :=
  match matchHM s with
  | None => Js.setHours tz fresh defH defM
  | Some (h, mm) => Js.setHours tz fresh (clampZ h 0 23) (clampZ mm 0 59)
  end.

(** [makeSchedule(activity_level, wakeStr, sleepStr)], lines 234-262. *)
Definition makeSchedule (fresh_wake fresh_sleep : Z)
    (activity_level wakeStr sleepStr : string) : Schedule :=
  let morning :=
    if String.eqb activity_level "Heavy" then 0.25
    else if String.eqb activity_level "Moderate" then 0.30 else 0.35 in
  let afternoon :=
    if String.eqb activity_level "Heavy" then 0.55
    else if String.eqb activity_level "Moderate" then 0.50 else 0.45 in
  let evening := 1 - (morning + afternoon) in
  let wake := parseHM fresh_wake wakeStr 7 0 in
  let sleep := parseHM fresh_sleep sleepStr 23 0 in
  let durMs := Js.Math_max 1 (inject_Z (sleep - wake)) in
  let tMorningEnd := Js.TimeClip (inject_Z wake + durMs * 0.33) in
  let tAfternoonEnd := Js.TimeClip (inject_Z wake + durMs * 0.80) in
  {| fractionAt := fun now =>
       if (now <=? wake)%Z then 0
       else if (sleep <=? now)%Z then 1
       else if (now <=? tMorningEnd)%Z then
         let f := inject_Z (now - wake) / inject_Z (tMorningEnd - wake) in
         f * morning
       else if (now <=? tAfternoonEnd)%Z then
         let f := inject_Z (now - tMorningEnd)
                  / inject_Z (tAfternoonEnd - tMorningEnd) in
         morning + f * afternoon
       else
         let f := inject_Z (now - tAfternoonEnd)
                  / inject_Z (sleep - tAfternoonEnd) in
         morning + afternoon + f * evening |}.

Definition reply (r : Response) (lastNotified : gmap string Z) : Result :=
  {| response := r; lastNotified_after := lastNotified; events := [] |}.

(** [handler(req, res)], lines 264-349. *)
Definition handler (w : World) (env : Env) (lastNotified : gmap string Z)
    (req : Request) : Result :=
  if negb (String.eqb (method req) "POST") then reply Error405 lastNotified
  else
    let cfg := getConfig env in
    if Js.falsy (BOT_TOKEN cfg) || Js.falsy (CHAT_ID cfg)
    then reply Error500_missing_env lastNotified
    else
      let botToken := default "" (BOT_TOKEN cfg) in
      let chatId := default "" (CHAT_ID cfg) in
      match body req with
      | None => reply Error500_server_error lastNotified
      | Some b =>
        match ml b, pct b with
        | Some ml, Some pct =>
          let now := clk_now w in
          let hour := inject_Z (Js.getHours tz now) in
          if Js.geb hour (QUIET_START cfg) || Js.ltb hour (QUIET_END cfg)
          then reply (Skipped quiet_hours None) lastNotified
          else
            let goal_ml :=
              computeGoalMl (WEIGHT_KG cfg) (ACTIVITY_LEVEL cfg)
                            (DAILY_ACTIVITY_MINUTES cfg) in
            let sched :=
              makeSchedule (clk_wake w) (clk_sleep w) (ACTIVITY_LEVEL cfg)
                           (WAKE_TIME cfg) (SLEEP_TIME cfg) in
            let target_ml_now := Js.Math_round (goal_ml * fractionAt sched now) in
            let remaining_ml := Js.Math_max 0 (goal_ml - ml) in
            let last := default 0%Z (lastNotified !! chatId) in
            if Js.ltb (inject_Z (clk_rate w - last)) (MIN_INTERVAL_MIN cfg * 60 * 1000)
            then reply (Skipped interval None) lastNotified
            else
              let behind := Js.ltb (ml + 50) target_ml_now in
              let veryLow := Js.ltb pct 40 in
              if negb (behind || veryLow) || Js.leb remaining_ml 0
              then reply (Skipped on_track_or_done (Some (goal_ml, target_ml_now)))
                         lastNotified
              else
                let gap := Js.Math_max 0 (target_ml_now - ml) in
                let next_sip_ml :=
                  Js.clamp (Js.Math_round (gap / 3))
                           (baseMin (ACTIVITY_LEVEL cfg))
                           (baseMax (ACTIVITY_LEVEL cfg)) in
                let text :=
                  Template {| msg_name := NAME cfg;
                              msg_behind := target_ml_now - ml;
                              msg_current_ml := ml;
                              msg_goal_ml := goal_ml;
                              msg_next_sip_ml := next_sip_ml;
                              msg_remaining_ml := remaining_ml |} in
                let '(text, asked) :=
                  if Js.falsy (env_OPENAI_API_KEY env) then (text, [])
                  else
                    (match rephrasing w with
                     | Some ai => if String.eqb ai "" then text else Rephrased ai
                     | None => text
                     end,
                     [OpenAiRequest (default "" (env_OPENAI_API_KEY env))]) in
                if send_resolves w then
                  {| response := Notified goal_ml target_ml_now next_sip_ml;
                     lastNotified_after := <[chatId := clk_set w]> lastNotified;
                     events := asked ++ [TelegramSend botToken chatId text;
                                         LastNotifiedSet chatId (clk_set w)] |}
                else
                  {| response := Error500_server_error;
                     lastNotified_after := lastNotified;
                     events := asked ++ [TelegramSend botToken chatId text] |}
        | _, _ => reply Error400 lastNotified
        end
      end.

End Endpoint.

End V2.

(** ** V3: the planner backed by a text-generation service, with its
    rule-based fallback (lines 358-614) *)

Module V3.

Record Env : Type := {
  env_BOT_TOKEN : option string;
  env_CHAT_ID : option string;
  env_NAME : option string;
  env_AGE : option Q;
  env_WEIGHT_KG : option Q;
  env_HEIGHT_CM : option Q;
  env_ACTIVITY_MON : option string;
  env_ACTIVITY_TUE : option string;
  env_ACTIVITY_WED : option string;
  env_ACTIVITY_THU : option string;
  env_ACTIVITY_FRI : option string;
  env_ACTIVITY_SAT : option string;
  env_ACTIVITY_SUN : option string;
  env_WAKE_TIME : option string;
  env_SLEEP_TIME : option string;
  env_QUIET_START_HOUR : option Q;
  env_QUIET_END_HOUR : option Q;
  env_MIN_INTERVAL_MIN : option Q;
  env_CLINICIAN_LIMIT_ML : option Q;
  env_OPENAI_API_KEY : option string
}.

Record Config : Type := {
  BOT_TOKEN : option string;
  CHAT_ID : option string;
  NAME : string;
  AGE : Q;
  WEIGHT_KG : Q;
  HEIGHT_CM : Q;
  ACT_MON : string;
  ACT_TUE : string;
  ACT_WED : string;
  ACT_THU : string;
  ACT_FRI : string;
  ACT_SAT : string;
  ACT_SUN : string;
  WAKE_TIME : string;
  SLEEP_TIME : string;
  QUIET_START : Q;
  QUIET_END : Q;
  MIN_INTERVAL_MIN : Q;
  CLINICIAN_LIMIT_ML : option Q
}.

(** [getConfig()], lines 375-415. *)
Definition getConfig (env : Env) : Config :=
  {| BOT_TOKEN := env_BOT_TOKEN env;
     CHAT_ID := env_CHAT_ID env;
     NAME := Js.string_or (env_NAME env) "friend";
     AGE := Js.number_of_env (env_AGE env) 22;
     WEIGHT_KG := Js.number_of_env (env_WEIGHT_KG env) 70;
     HEIGHT_CM := Js.number_of_env (env_HEIGHT_CM env) 170;
     ACT_MON := Js.string_or (env_ACTIVITY_MON env) "Moderate";
     ACT_TUE := Js.string_or (env_ACTIVITY_TUE env) "Moderate";
     ACT_WED := Js.string_or (env_ACTIVITY_WED env) "Moderate";
     ACT_THU := Js.string_or (env_ACTIVITY_THU env) "Moderate";
     ACT_FRI := Js.string_or (env_ACTIVITY_FRI env) "Moderate";
     ACT_SAT := Js.string_or (env_ACTIVITY_SAT env) "Light";
     ACT_SUN := Js.string_or (env_ACTIVITY_SUN env) "Light";
     WAKE_TIME := Js.string_or (env_WAKE_TIME env) "07:00";
     SLEEP_TIME := Js.string_or (env_SLEEP_TIME env) "23:00";
     QUIET_START := Js.number_of_env (env_QUIET_START_HOUR env) 23;
     QUIET_END := Js.number_of_env (env_QUIET_END_HOUR env) 7;
     MIN_INTERVAL_MIN := Js.number_of_env (env_MIN_INTERVAL_MIN env) 30;
     CLINICIAN_LIMIT_ML := env_CLINICIAN_LIMIT_ML env |}.

(** The object returned by [fallbackPlan] and by [aiPlan]; the latter has no
    [remaining_ml]. *)
Record Plan : Type := {
  goal_ml : Q;
  target_ml_now : Q;
  remaining_ml : option Q;
  next_sip_ml : Q;
  should_notify : bool;
  reason : string
}.

(** The object parsed from the text-generation output; [None] is a missing
    key. *)
Record AiData : Type := {
  daily_goal_ml : option Q;
  target_ml_by_now : option Q;
  ai_next_sip_ml : option Q;
  ai_should_notify : option bool;
  short_reason : option string
}.

(** How the call inside [aiPlan] ends: the [fetch] (or reading its JSON) is
    rejected; the reply has no message content, so line 504 throws;
    [JSON.parse] of the content throws (or gives [null], on which line 508
    throws); the content parses. *)
Inductive AiReply : Type :=
| FetchRejects
| NoContent
| NotJson
| Parsed (data : AiData).

(** The profile object handed to [aiPlan]. *)
Record AiContext : Type := {
  ctx_name : string;
  ctx_age : Q;
  ctx_weight_kg : Q;
  ctx_height_cm : Q;
  ctx_wake_time : string;
  ctx_sleep_time : string;
  ctx_today_activity : string;
  ctx_clinician_limit_ml : option Q
}.

(** The first argument of [fallbackPlan]. *)
Record FallbackProfile : Type := { weight_kg : Q; activity : string }.

Record PlanMessage : Type := {
  msg_name : string;
  msg_reason : string;
  msg_behind : Q;
  msg_current_ml : Q;
  msg_goal_ml : Q;
  msg_next_sip_ml : Q;
  msg_remaining_ml : Q
}.

Record Body : Type := { ml : option Q; pct : option Q; cm : option Q }.

Record Request : Type := { method : string; body : option Body }.

(** What one invocation observes: the clock at [new Date()] of line 531, at
    [Date.now()] of line 539, at [new Date()] of line 544, at the [new Date()]
    of the two [parseHM] calls of [fallbackPlan], at [Date.now()] of line 588;
    how the text-generation call ends; whether the [fetch] of [TG] resolves. *)
Record World : Type := {
  clk_now : Z;
  clk_rate : Z;
  clk_dow : Z;
  clk_wake : Z;
  clk_sleep : Z;
  clk_set : Z;
  ai_reply : AiReply;
  send_resolves : bool
}.

Inductive Response : Type :=
| Error405
| Error400
| Error500_missing_env
| Error500_server_error
| Skipped (reason : SkipReason) (plan : option Plan)
| Notified (plan : Plan).

Record Result : Type := {
  response : Response;
  lastNotified_after : gmap string Z;
  events : list (Event PlanMessage)
}.

(** [normalizeActivity(s)], lines 597-606. *)
Definition normalizeActivity (s : string) : string :=
  let t := Js.toLowerCase s in
  if Js.includes t "heavy" then "Heavy"
  else if Js.includes t "moderate" then "Moderate"
  else if Js.includes t "sedentary" then "Sedentary"
  else if Js.includes t "light" then "Light"
  else if Js.includes t "run" || Js.includes t "gym" || Js.includes t "match"
          || Js.includes t "intense" || Js.includes t "cycle" then "Heavy"
  else if Js.includes t "walk" || Js.includes t "jog" || Js.includes t "yoga"
          || Js.includes t "swim" then "Moderate"
  else "Light".

(** [{ Sedentary:0, Light:400, Moderate:800, Heavy:1200 }[activity] ?? 400]. *)
Definition flatAdd (activity : string) : Q :=
  if String.eqb activity "Sedentary" then 0
  else if String.eqb activity "Light" then 400
  else if String.eqb activity "Moderate" then 800
  else if String.eqb activity "Heavy" then 1200
  else 400.

(** [/^(\d{1,2}):(\d{2})$/.exec(s || '')], with the two groups as numbers. *)
Definition matchHM (s : string) : option (Z * Z) :=
  match s with
  | String a (String ":" (String c (String d EmptyString))) =>
      if Js.is_digit a && Js.is_digit c && Js.is_digit d
      then Some (Js.digit_val a, (10 * Js.digit_val c + Js.digit_val d)%Z)
      else None
  | String a (String b (String ":" (String c (String d EmptyString)))) =>
      if Js.is_digit a && Js.is_digit b && Js.is_digit c && Js.is_digit d
      then Some ((10 * Js.digit_val a + Js.digit_val b)%Z,
                 (10 * Js.digit_val c + Js.digit_val d)%Z)
      else None
  | _ => None
  end.

Definition clampZ (v lo hi : Z) : Z := Z.max lo (Z.min v hi).

(** The sanitising part of [aiPlan], lines 506-514. *)
Definition sanitize (data : AiData) : Plan :=
  let goal := Js.clamp (Js.Math_round (default 0 (daily_goal_ml data))) 800 6000 in
  let target := Js.clamp (Js.Math_round (default 0 (target_ml_by_now data))) 0 goal in
  let sip := Js.clamp (Js.Math_round (default 0 (ai_next_sip_ml data))) 120 300 in
  let should := default false (ai_should_notify data) in
  let reason := Js.slice0 140 (default "" (short_reason data)) in
  {| goal_ml := goal; target_ml_now := target; remaining_ml := None;
     next_sip_ml := sip; should_notify := should; reason := reason |}.

(** [aiPlan(openaiKey, ctx, reading)], lines 460-515: [None] when it throws.
    The request carries [ctx] and the reading; the reply is an input. *)
Definition aiPlan (r : AiReply) (ctx : AiContext) (ml_now pct_now : Q)
    (cm_now : option Q) : option Plan :=
  match r with
  | FetchRejects => None
  | NoContent => None
  | NotJson => None
  | Parsed data => Some (sanitize data)
  end.

Section Endpoint.
Variable tz : Z.

(** [parseHM(s, defH, defM)], lines 450-457; [fresh] is its [new Date()]. *)
Definition parseHM (fresh : Z) (s : string) (defH defM : Z) : Z :=
  match matchHM s with
  | None => Js.setHours tz fresh defH defM
  | Some (h, mm) => Js.setHours tz fresh (clampZ h 0 23) (clampZ mm 0 59)
  end.

(** The function applied to [now] at lines 429-435, given [wake] and
    [sleep]. *)
Definition frac (wake sleep : Z) (d : Z) : Q :=
  let dur := Js.Math_max 1 (inject_Z (sleep - wake)) in
  let t1 := Js.TimeClip (inject_Z wake + dur * 0.33) in
  let t2 := Js.TimeClip (inject_Z wake + dur * 0.80) in
  if (d <=? wake)%Z then 0
  else if (sleep <=? d)%Z then 1
  else if (d <=? t1)%Z then
    let f := inject_Z (d - wake) / inject_Z (t1 - wake) in f * 0.35
  else if (d <=? t2)%Z then
    let f := inject_Z (d - t1) / inject_Z (t2 - t1) in 0.35 + f * 0.45
  else
    let f := inject_Z (d - t2) / inject_Z (sleep - t2) in 0.35 + 0.45 + f * 0.20.

(** [fallbackPlan({weight_kg, activity}, mlNow, pctNow, now)], lines 418-448. *)
Definition fallbackPlan (fresh_wake fresh_sleep : Z) (p : FallbackProfile)
    (mlNow pctNow : Q) (now : Z) : Plan :=
  let goal := Js.Math_round (35 * weight_kg p) in
  let goal := goal + flatAdd (activity p) in
  let goal := Js.clamp goal 1200 4000 in
  let wake := parseHM fresh_wake "07:00" 7 0 in
  let sleep := parseHM fresh_sleep "23:00" 7 0 in
  let targetByNow := Js.Math_round (goal * frac wake sleep now) in
  let remaining := Js.Math_max 0 (goal - mlNow) in
  let behind := Js.ltb (mlNow + 50) targetByNow in
  let veryLow := Js.ltb pctNow 40 in
  let shouldNotify := (behind || veryLow) && Js.ltb 0 remaining in
  let gap := Js.Math_max 0 (targetByNow - mlNow) in
  let next_sip_ml := Js.clamp (Js.Math_round (gap / 3)) 150 250 in
  {| goal_ml := goal; target_ml_now := targetByNow;
     remaining_ml := Some remaining; next_sip_ml := next_sip_ml;
     should_notify := shouldNotify; reason := "fallback" |}.

(** The table of lines 545-547, [{1: MON, ..., 6: SAT, 0: SUN}[dow] || 'Light']. *)
Definition dayActivity (cfg : Config) (dow : Z) : string :=
  let pick :=
    if (dow =? 1)%Z then Some (ACT_MON cfg)
    else if (dow =? 2)%Z then Some (ACT_TUE cfg)
    else if (dow =? 3)%Z then Some (ACT_WED cfg)
    else if (dow =? 4)%Z then Some (ACT_THU cfg)
    else if (dow =? 5)%Z then Some (ACT_FRI cfg)
    else if (dow =? 6)%Z then Some (ACT_SAT cfg)
    else if (dow =? 0)%Z then Some (ACT_SUN cfg)
    else None in
  Js.string_or pick "Light".

Definition reply (r : Response) (lastNotified : gmap string Z) : Result :=
  {| response := r; lastNotified_after := lastNotified; events := [] |}.

(** Lines 562-573: the plan of the service when a key is configured and
    [aiPlan] returns, else the fallback plan; with the request made. *)
Definition choosePlan (w : World) (env : Env) (cfg : Config) (ctx : AiContext)
    (today : string) (ml pct : Q) (cm : option Q) (now : Z)
    : Plan * list (Event PlanMessage) :=
  let fallback :=
    fallbackPlan (clk_wake w) (clk_sleep w)
      {| weight_kg := WEIGHT_KG cfg; activity := normalizeActivity today |}
      ml pct now in
  if Js.falsy (env_OPENAI_API_KEY env) then (fallback, [])
  else
    (match aiPlan (ai_reply w) ctx ml pct cm with
     | Some plan => plan
     | None => fallback
     end,
     [OpenAiRequest (default "" (env_OPENAI_API_KEY env))]).

(** [handler(req, res)], lines 517-595. *)
Definition handler (w : World) (env : Env) (lastNotified : gmap string Z)
    (req : Request) : Result :=
  if negb (String.eqb (method req) "POST") then reply Error405 lastNotified
  else
    let cfg := getConfig env in
    if Js.falsy (BOT_TOKEN cfg) || Js.falsy (CHAT_ID cfg)
    then reply Error500_missing_env lastNotified
    else
      let botToken := default "" (BOT_TOKEN cfg) in
      let chatId := default "" (CHAT_ID cfg) in
      match body req with
      | None => reply Error500_server_error lastNotified
      | Some b =>
        match ml b, pct b with
        | Some ml, Some pct =>
          let now := clk_now w in
          let hour := inject_Z (Js.getHours tz now) in
          if Js.geb hour (QUIET_START cfg) || Js.ltb hour (QUIET_END cfg)
          then reply (Skipped quiet_hours None) lastNotified
          else
            let last := default 0%Z (lastNotified !! chatId) in
            if Js.ltb (inject_Z (clk_rate w - last)) (MIN_INTERVAL_MIN cfg * 60 * 1000)
            then reply (Skipped interval None) lastNotified
            else
              let dow := Js.getDay tz (clk_dow w) in
              let today := dayActivity cfg dow in
              let ctx :=
                {| ctx_name := NAME cfg; ctx_age := AGE cfg;
                   ctx_weight_kg := WEIGHT_KG cfg; ctx_height_cm := HEIGHT_CM cfg;
                   ctx_wake_time := WAKE_TIME cfg; ctx_sleep_time := SLEEP_TIME cfg;
                   ctx_today_activity := today;
                   ctx_clinician_limit_ml := CLINICIAN_LIMIT_ML cfg |} in
              let '(plan, asked) := choosePlan w env cfg ctx today ml pct (cm b) now in
              let remaining_ml := Js.Math_max 0 (goal_ml plan - ml) in
              if negb (should_notify plan) || Js.leb remaining_ml 0
              then {| response := Skipped on_track_or_done (Some plan);
                      lastNotified_after := lastNotified;
                      events := asked |}
              else
                let behind := Js.Math_max 0 (target_ml_now plan - ml) in
                let text :=
                  {| msg_name := NAME cfg;
                     msg_reason := if String.eqb (reason plan) ""
                                   then "Hydration check" else reason plan;
                     msg_behind := behind;
                     msg_current_ml := ml;
                     msg_goal_ml := goal_ml plan;
                     msg_next_sip_ml := next_sip_ml plan;
                     msg_remaining_ml := remaining_ml |} in
                if send_resolves w then
                  {| response := Notified plan;
                     lastNotified_after := <[chatId := clk_set w]> lastNotified;
                     events := asked ++ [TelegramSend botToken chatId text;
                                         LastNotifiedSet chatId (clk_set w)] |}
                else
                  {| response := Error500_server_error;
                     lastNotified_after := lastNotified;
                     events := asked ++ [TelegramSend botToken chatId text] |}
        | _, _ => reply Error400 lastNotified
        end
      end.

End Endpoint.

End V3.

(** ** V4: the planner, re-edited (lines 615-827)

    [getConfig] (lines 637-660), [normalizeActivity] (lines 662-671),
    [parseHM] (lines 673-680) and [aiPlan] (lines 713-752) have the text of
    their [V3] namesakes; they are taken from [V3]. *)

Module V4.

Definition getConfig : V3.Env -> V3.Config := V3.getConfig.
Definition normalizeActivity : string -> string := V3.normalizeActivity.
Definition aiPlan : V3.AiReply -> V3.AiContext -> Q -> Q -> option Q -> option V3.Plan :=
  V3.aiPlan.

(** The first argument of [fallbackPlan]; [None] is an absent property, for
    which the parameter default applies. *)
Record FallbackProfile : Type := {
  weight_kg : Q;
  activity : string;
  wakeStr : option string;
  sleepStr : option string
}.

(** What [TG] returns (lines 622-632): the status and the text of the reply
    of the messaging service. *)
Record TgReply : Type := { tg_status : Z; tg_text : string }.

(** What one invocation observes: the clock at [new Date()] of line 767, at
    [Date.now()] of line 775, at [new Date()] of line 779, at the [new Date()]
    of the two [parseHM] calls of [fallbackPlan], at [Date.now()] of line 813;
    how the text-generation call ends; the reply of the messaging service
    ([None] when the [fetch] of [TG], or reading its text, is rejected). *)
Record World : Type := {
  clk_now : Z;
  clk_rate : Z;
  clk_dow : Z;
  clk_wake : Z;
  clk_sleep : Z;
  clk_set : Z;
  ai_reply : V3.AiReply;
  tg_reply : option TgReply
}.

Section Endpoint.
Variable tz : Z.

Definition parseHM : Z -> string -> Z -> Z -> Z := V3.parseHM tz.

(** [fallbackPlan({weight_kg, activity, wakeStr, sleepStr}, mlNow, pctNow,
    now)], lines 683-710. *)
Definition fallbackPlan (fresh_wake fresh_sleep : Z) (p : FallbackProfile)
    (mlNow pctNow : Q) (now : Z) : V3.Plan :=
  let wakeStr := default "07:00" (wakeStr p) in
  let sleepStr := default "23:00" (sleepStr p) in
  let goal := Js.Math_round (35 * weight_kg p) in
  let goal := goal + V3.flatAdd (activity p) in
  let goal := Js.clamp goal 1200 4000 in
  let wake := parseHM fresh_wake wakeStr 7 0 in
  let sleep := parseHM fresh_sleep sleepStr 7 0 in
  let dur := Js.Math_max 1 (inject_Z (sleep - wake)) in
  let t1 := Js.TimeClip (inject_Z wake + dur * 0.33) in
  let t2 := Js.TimeClip (inject_Z wake + dur * 0.80) in
  let frac :=
    if (now <=? wake)%Z then 0
    else if (sleep <=? now)%Z then 1
    else if (now <=? t1)%Z then
      let f := inject_Z (now - wake) / inject_Z (t1 - wake) in f * 0.35
    else if (now <=? t2)%Z then
      let f := inject_Z (now - t1) / inject_Z (t2 - t1) in 0.35 + f * 0.45
    else
      let f := inject_Z (now - t2) / inject_Z (sleep - t2) in
      0.35 + 0.45 + f * 0.20 in
  let targetByNow := Js.Math_round (goal * frac) in
  let remaining := Js.Math_max 0 (goal - mlNow) in
  let behind := Js.ltb (mlNow + 50) targetByNow in
  let veryLow := Js.ltb pctNow 40 in
  let shouldNotify := (behind || veryLow) && Js.ltb 0 remaining in
  let gap := Js.Math_max 0 (targetByNow - mlNow) in
  let next_sip_ml := Js.clamp (Js.Math_round (gap / 3)) 150 250 in
  {| V3.goal_ml := goal; V3.target_ml_now := targetByNow;
     V3.remaining_ml := Some remaining; V3.next_sip_ml := next_sip_ml;
     V3.should_notify := shouldNotify; V3.reason := "fallback schedule" |}.

(** Lines 791-801. *)
Definition choosePlan (w : World) (env : V3.Env) (cfg : V3.Config)
    (ctx : V3.AiContext) (dayAct : string) (ml pct : Q) (cm : option Q) (now : Z)
    : V3.Plan * list (Event V3.PlanMessage) :=
  let fallback :=
    fallbackPlan (clk_wake w) (clk_sleep w)
      {| weight_kg := V3.WEIGHT_KG cfg; activity := normalizeActivity dayAct;
         wakeStr := Some (V3.WAKE_TIME cfg); sleepStr := Some (V3.SLEEP_TIME cfg) |}
      ml pct now in
  if Js.falsy (V3.env_OPENAI_API_KEY env) then (fallback, [])
  else
    (match aiPlan (ai_reply w) ctx ml pct cm with
     | Some plan => plan
     | None => fallback
     end,
     [OpenAiRequest (default "" (V3.env_OPENAI_API_KEY env))]).

(** [handler(req, res)], lines 754-820. *)
Definition handler (w : World) (env : V3.Env) (lastNotified : gmap string Z)
    (req : V3.Request) : V3.Result :=
  if negb (String.eqb (V3.method req) "POST") then V3.reply V3.Error405 lastNotified
  else
    let cfg := getConfig env in
    if Js.falsy (V3.BOT_TOKEN cfg) || Js.falsy (V3.CHAT_ID cfg)
    then V3.reply V3.Error500_missing_env lastNotified
    else
      let botToken := default "" (V3.BOT_TOKEN cfg) in
      let chatId := default "" (V3.CHAT_ID cfg) in
      match V3.body req with
      | None => V3.reply V3.Error500_server_error lastNotified
      | Some b =>
        match V3.ml b, V3.pct b with
        | Some ml, Some pct =>
          let now := clk_now w in
          let hour := inject_Z (Js.getHours tz now) in
          if Js.geb hour (V3.QUIET_START cfg) || Js.ltb hour (V3.QUIET_END cfg)
          then V3.reply (V3.Skipped quiet_hours None) lastNotified
          else
            let last := default 0%Z (lastNotified !! chatId) in
            if Js.ltb (inject_Z (clk_rate w - last))
                      (V3.MIN_INTERVAL_MIN cfg * 60 * 1000)
            then V3.reply (V3.Skipped interval None) lastNotified
            else
              let dow := Js.getDay tz (clk_dow w) in
              let dayAct := V3.dayActivity cfg dow in
              let ctx :=
                {| V3.ctx_name := V3.NAME cfg; V3.ctx_age := V3.AGE cfg;
                   V3.ctx_weight_kg := V3.WEIGHT_KG cfg;
                   V3.ctx_height_cm := V3.HEIGHT_CM cfg;
                   V3.ctx_wake_time := V3.WAKE_TIME cfg;
                   V3.ctx_sleep_time := V3.SLEEP_TIME cfg;
                   V3.ctx_today_activity := dayAct;
                   V3.ctx_clinician_limit_ml := V3.CLINICIAN_LIMIT_ML cfg |} in
              let '(plan, asked) :=
                choosePlan w env cfg ctx dayAct ml pct (V3.cm b) now in
              let remaining_ml := Js.Math_max 0 (V3.goal_ml plan - ml) in
              if negb (V3.should_notify plan) || Js.leb remaining_ml 0
              then {| V3.response := V3.Skipped on_track_or_done (Some plan);
                      V3.lastNotified_after := lastNotified;
                      V3.events := asked |}
              else
                let behind := Js.Math_max 0 (V3.target_ml_now plan - ml) in
                let text :=
                  {| V3.msg_name := V3.NAME cfg;
                     V3.msg_reason := if String.eqb (V3.reason plan) ""
                                      then "Hydration check." else V3.reason plan;
                     V3.msg_behind := behind;
                     V3.msg_current_ml := ml;
                     V3.msg_goal_ml := V3.goal_ml plan;
                     V3.msg_next_sip_ml := V3.next_sip_ml plan;
                     V3.msg_remaining_ml := remaining_ml |} in
                match tg_reply w with
                | Some _ =>
                  {| V3.response := V3.Notified plan;
                     V3.lastNotified_after := <[chatId := clk_set w]> lastNotified;
                     V3.events := asked ++ [TelegramSend botToken chatId text;
                                            LastNotifiedSet chatId (clk_set w)] |}
                | None =>
                  {| V3.response := V3.Error500_server_error;
                     V3.lastNotified_after := lastNotified;
                     V3.events := asked ++ [TelegramSend botToken chatId text] |}
                end
        | _, _ => V3.reply V3.Error400 lastNotified
        end
      end.

End Endpoint.

End V4.

(** ** [streamToString] (lines 168, 352-357, 608-614, 822-827)

    The request is an event emitter: it emits ['data'] with a chunk any
    number of times, then ['end'], or ['error'].  The three listeners share
    the variable [d]; the promise keeps the first of [resolve(d)] and
    [reject(e)] and ignores the later ones. *)

Module Stream.






End Stream.

(** ** Vocabulary of the properties *)

Module Props.

(** The common shape of the pacing curves of lines 138-151, 246-259 and
    429-435: three linear phases between [wake] and [sleep], ending at [t1],
    [t2] and [sleep], worth [morning], [afternoon] and [evening] of the goal. *)
Definition pacing (morning afternoon evening : Q) (wake sleep t1 t2 : Z)
    (now : Z) : Q :=
  if (now <=? wake)%Z then 0
  else if (sleep <=? now)%Z then 1
  else if (now <=? t1)%Z then
    inject_Z (now - wake) / inject_Z (t1 - wake) * morning
  else if (now <=? t2)%Z then
    morning + inject_Z (now - t1) / inject_Z (t2 - t1) * afternoon
  else
    morning + afternoon + inject_Z (now - t2) / inject_Z (sleep - t2) * evening.

(** Where a timestamp falls on a pacing curve, and what the curve is worth
    there. *)
Inductive phase (morning afternoon evening : Q) (wake sleep t1 t2 : Z)
    (now : Z) : Q -> Prop :=
| before_wake :
    (now <= wake)%Z -> phase morning afternoon evening wake sleep t1 t2 now 0
| after_sleep :
    (wake < now)%Z -> (sleep <= now)%Z ->
    phase morning afternoon evening wake sleep t1 t2 now 1
| in_morning :
    (wake < now < sleep)%Z -> (now <= t1)%Z ->
    phase morning afternoon evening wake sleep t1 t2 now
      (inject_Z (now - wake) / inject_Z (t1 - wake) * morning)
| in_afternoon :
    (wake < now < sleep)%Z -> (t1 < now <= t2)%Z ->
    phase morning afternoon evening wake sleep t1 t2 now
      (morning + inject_Z (now - t1) / inject_Z (t2 - t1) * afternoon)
| in_evening :
    (wake < now < sleep)%Z -> (t1 < now)%Z -> (t2 < now)%Z ->
    phase morning afternoon evening wake sleep t1 t2 now
      (morning + afternoon
       + inject_Z (now - t2) / inject_Z (sleep - t2) * evening).

(** The end of the morning and of the afternoon phase: 33% and 80% of the
    wake-to-sleep duration after [wake], clipped to a whole millisecond. *)
Definition phase_end (share : Q) (wake sleep : Z) : Z :=
  Js.TimeClip (inject_Z wake + Js.Math_max 1 (inject_Z (sleep - wake)) * share).

(** The contract of a pacing schedule [f] with shares [m], [a], [e]: zero up
    to [wake]; one from [sleep] on, once past [wake]; within [0,1];
    non-decreasing; linear on each of the three phases, which end at 33% and
    at 80% of the wake-to-sleep duration (clipped to a whole millisecond) and
    at [sleep]; worth [m] and [m + a] at the two interior breakpoints. *)
Definition paced (f : Z -> Q) (m a e : Q) (wake sleep : Z) : Prop :=
  let t1 := phase_end 0.33 wake sleep in
  let t2 := phase_end 0.80 wake sleep in
  (forall t, (t <= wake)%Z -> f t == 0)
  /\ (forall t, (sleep <= t)%Z -> (wake < t)%Z -> f t == 1)
  /\ ((wake < sleep)%Z -> forall t, (sleep <= t)%Z -> f t == 1)
  /\ (forall t, 0 <= f t <= 1)
  /\ (forall x y, (x <= y)%Z -> f x <= f y)
  /\ (forall t, phase m a e wake sleep t1 t2 t (f t))
  /\ ((wake < t1 < sleep)%Z -> f t1 == m)
  /\ ((wake < t2 < sleep)%Z -> (t1 < t2)%Z -> f t2 == m + a)
  /\ ((0 <= wake < sleep)%Z ->
      inject_Z t1 <= inject_Z wake + inject_Z (sleep - wake) * 0.33 < inject_Z t1 + 1
      /\ inject_Z t2 <= inject_Z wake + inject_Z (sleep - wake) * 0.80 < inject_Z t2 + 1).

(** The morning and afternoon shares by activity level. *)
Definition morning_share (level : string) : Q :=
  if String.eqb level "Heavy" then 0.25
  else if String.eqb level "Moderate" then 0.30 else 0.35.

Definition afternoon_share (level : string) : Q :=
  if String.eqb level "Heavy" then 0.55
  else if String.eqb level "Moderate" then 0.50 else 0.45.

(** The goal formula in the words of the specification (section 4.2), as a
    function of the number of activity blocks. *)
Definition per_block (a : Activity) : Q :=
  match a with
  | Sedentary => 0
  | Light => 200
  | Moderate => 400
  | Heavy => 600
  end.

Definition hot_or_humid (temp_c humidity_pct : option Q) : bool :=
  match temp_c with Some t => Qle_bool 30 t | None => false end
  || match humidity_pct with Some h => Qle_bool 70 h | None => false end.

Definition flagged (conditions : list string) : bool :=
  existsb (fun c => String.eqb c "ckd" || String.eqb c "hf") conditions.

Definition goal_formula (blocks : Q) (weight_kg : Q) (a : Activity)
    (temp_c humidity_pct : option Q) (conditions : list string)
    (clinician_limit_ml : option Q) : Q :=
  let total := Js.Math_round (35 * weight_kg) + blocks * per_block a in
  let total := if hot_or_humid temp_c humidity_pct then total + 300 else total in
  let total :=
    match clinician_limit_ml with
    | Some limit => Js.Math_min total limit
    | None => if flagged conditions then Js.Math_min total 2000 else total
    end in
  Js.clamp total 1200 4000.




(** The decision in the words of the specification (section 4.4). *)
Definition should_notify (goal_ml target_ml_now ml pct : Q) : Prop :=
  (ml + 50 < target_ml_now \/ pct < 40) /\ 0 < Js.Math_max 0 (goal_ml - ml).

(** The quiet window (section 4.5) at local hour [h]. *)
Definition quiet (quiet_start quiet_end : Q) (h : Z) : Prop :=
  quiet_start <= inject_Z h \/ inject_Z h < quiet_end.

(** One of the four enum spellings. *)
Definition is_level (s : string) : Prop :=
  exists a : Activity, s = activity_name a.

(** A request that the validation steps let through: a POST whose body parses
    and holds [pct] and [ml], with both credentials configured. *)
Definition V1_well_formed (env : V1.Env) (req : V1.Request) (b : V1.Body)
    (pct ml : Q) : Prop :=
  V1.method req = "POST" /\ V1.body req = Some b
  /\ V1.pct b = Some pct /\ V1.ml b = Some ml
  /\ Js.falsy (V1.CHAT_ID env) = false /\ Js.falsy (V1.BOT_TOKEN env) = false.

Definition V2_well_formed (env : V2.Env) (req : V2.Request) (b : V2.Body)
    (pct ml : Q) : Prop :=
  V2.method req = "POST" /\ V2.body req = Some b
  /\ V2.pct b = Some pct /\ V2.ml b = Some ml
  /\ Js.falsy (V2.env_CHAT_ID env) = false
  /\ Js.falsy (V2.env_BOT_TOKEN env) = false.

Definition V3_well_formed (env : V3.Env) (req : V3.Request) (b : V3.Body)
    (pct ml : Q) : Prop :=
  V3.method req = "POST" /\ V3.body req = Some b
  /\ V3.pct b = Some pct /\ V3.ml b = Some ml
  /\ Js.falsy (V3.env_CHAT_ID env) = false
  /\ Js.falsy (V3.env_BOT_TOKEN env) = false.

(** *** The first handler, outcome by outcome

    What lines 31-35 compute for a body [b]: the context with the final value
    of the [now] object, the goal and the target. *)
Definition V1_context (tz : Z) (w : V1.World) (b : V1.Body) : V1.Context * Z :=
  V1.computeContext tz (default V1.empty_profile (V1.profile b))
    (V1.clk_now w) (V1.clk_sleep_default w).

Definition V1_goal (tz : Z) (w : V1.World) (b : V1.Body) : Q :=
  V1.computeGoalMl (fst (V1_context tz w b)).

Definition V1_target (tz : Z) (w : V1.World) (b : V1.Body) : Q :=
  Js.Math_round
    (V1_goal tz w b
     * V1.fractionAt (V1.computeSchedule (fst (V1_context tz w b)))
         (snd (V1_context tz w b))).

(** Lines 52-57. *)
Definition V1_sip (tz : Z) (w : V1.World) (b : V1.Body) (ml : Q) : Q :=
  let act := V1.activity_level (fst (V1_context tz w b)) in
  Js.clamp (Js.Math_round (Js.Math_max 0 (V1_target tz w b - ml) / 3))
           (V1.baseMin act) (V1.baseMax act).

Definition V1_text (tz : Z) (w : V1.World) (b : V1.Body) (ml : Q)
    : V1.RuleMessage :=
  V1.buildRuleMessage (fst (V1_context tz w b)) (V1_goal tz w b) ml
    (Js.Math_max 0 (V1_goal tz w b - ml)) (V1_target tz w b) (V1_sip tz w b ml).

(** The recipient, and the test of line 39 on the map [st]. *)
Definition V1_chat (env : V1.Env) : string := default "" (V1.CHAT_ID env).
Definition V1_token (env : V1.Env) : string := default "" (V1.BOT_TOKEN env).

Definition V1_cooling (w : V1.World) (env : V1.Env) (st : gmap string Z) : Prop :=
  (V1.clk_rate w - default 0%Z (st !! V1_chat env)
   < V1.MIN_INTERVAL_MIN * 60 * 1000)%Z.

Inductive V1_run (tz : Z) (w : V1.World) (env : V1.Env) (st : gmap string Z)
    (req : V1.Request) : V1.Result -> Prop :=
| V1_not_post :
    V1.method req <> "POST" ->
    V1_run tz w env st req (V1.reply V1.Error405 st)
| V1_bad_body :
    V1.method req = "POST" -> V1.body req = None ->
    V1_run tz w env st req (V1.reply V1.Error500_server_error st)
| V1_no_reading b :
    V1.method req = "POST" -> V1.body req = Some b ->
    V1.pct b = None \/ V1.ml b = None ->
    V1_run tz w env st req (V1.reply V1.Error400 st)
| V1_no_credentials b :
    V1.method req = "POST" -> V1.body req = Some b ->
    is_Some (V1.pct b) -> is_Some (V1.ml b) ->
    Js.falsy (V1.CHAT_ID env) = true \/ Js.falsy (V1.BOT_TOKEN env) = true ->
    V1_run tz w env st req (V1.reply V1.Error500_missing_env st)
| V1_in_quiet_hours b pct ml :
    V1_well_formed env req b pct ml ->
    quiet 23 7 (Js.getHours tz (V1.clk_now w)) ->
    V1_run tz w env st req (V1.reply (V1.Skipped quiet_hours) st)
| V1_in_cooldown b pct ml :
    V1_well_formed env req b pct ml ->
    ~ quiet 23 7 (Js.getHours tz (V1.clk_now w)) ->
    V1_cooling w env st ->
    V1_run tz w env st req (V1.reply (V1.Skipped interval) st)
| V1_on_track b pct ml :
    V1_well_formed env req b pct ml ->
    ~ quiet 23 7 (Js.getHours tz (V1.clk_now w)) ->
    ~ V1_cooling w env st ->
    ~ should_notify (V1_goal tz w b) (V1_target tz w b) ml pct ->
    V1_run tz w env st req (V1.reply (V1.Skipped on_track_or_done) st)
| V1_sent b pct ml :
    V1_well_formed env req b pct ml ->
    ~ quiet 23 7 (Js.getHours tz (V1.clk_now w)) ->
    ~ V1_cooling w env st ->
    should_notify (V1_goal tz w b) (V1_target tz w b) ml pct ->
    V1.send_resolves w = true ->
    V1_run tz w env st req
      {| V1.response :=
           V1.Notified (V1_goal tz w b) (V1_sip tz w b ml) (V1_target tz w b);
         V1.lastNotified_after := <[V1_chat env := V1.clk_set w]> st;
         V1.events := [TelegramSend (V1_token env) (V1_chat env)
                         (V1_text tz w b ml);
                       LastNotifiedSet (V1_chat env) (V1.clk_set w)] |}
| V1_send_failed b pct ml :
    V1_well_formed env req b pct ml ->
    ~ quiet 23 7 (Js.getHours tz (V1.clk_now w)) ->
    ~ V1_cooling w env st ->
    should_notify (V1_goal tz w b) (V1_target tz w b) ml pct ->
    V1.send_resolves w = false ->
    V1_run tz w env st req
      {| V1.response := V1.Error500_server_error;
         V1.lastNotified_after := st;
         V1.events := [TelegramSend (V1_token env) (V1_chat env)
                         (V1_text tz w b ml)] |}.

(** *** The second handler, outcome by outcome *)

Definition V2_goal (env : V2.Env) : Q :=
  let cfg := V2.getConfig env in
  V2.computeGoalMl (V2.WEIGHT_KG cfg) (V2.ACTIVITY_LEVEL cfg)
    (V2.DAILY_ACTIVITY_MINUTES cfg).

Definition V2_schedule (tz : Z) (w : V2.World) (env : V2.Env) : V2.Schedule :=
  let cfg := V2.getConfig env in
  V2.makeSchedule tz (V2.clk_wake w) (V2.clk_sleep w) (V2.ACTIVITY_LEVEL cfg)
    (V2.WAKE_TIME cfg) (V2.SLEEP_TIME cfg).

Definition V2_target (tz : Z) (w : V2.World) (env : V2.Env) : Q :=
  Js.Math_round
    (V2_goal env * V2.fractionAt (V2_schedule tz w env) (V2.clk_now w)).

Definition V2_sip (tz : Z) (w : V2.World) (env : V2.Env) (ml : Q) : Q :=
  let act := V2.ACTIVITY_LEVEL (V2.getConfig env) in
  Js.clamp (Js.Math_round (Js.Math_max 0 (V2_target tz w env - ml) / 3))
           (V2.baseMin act) (V2.baseMax act).

Definition V2_chat (env : V2.Env) : string := default "" (V2.env_CHAT_ID env).
Definition V2_token (env : V2.Env) : string := default "" (V2.env_BOT_TOKEN env).

Definition V2_quiet (tz : Z) (w : V2.World) (env : V2.Env) : Prop :=
  quiet (V2.QUIET_START (V2.getConfig env)) (V2.QUIET_END (V2.getConfig env))
    (Js.getHours tz (V2.clk_now w)).

Definition V2_cooling (w : V2.World) (env : V2.Env) (st : gmap string Z) : Prop :=
  inject_Z (V2.clk_rate w - default 0%Z (st !! V2_chat env))
  < V2.MIN_INTERVAL_MIN (V2.getConfig env) * 60 * 1000.

(** The requests made to the text-generation service: none, or one. *)
Definition only_asks {T} (evs : list (Event T)) : Prop :=
  evs = [] \/ exists key, evs = [OpenAiRequest key].

Inductive V2_run (tz : Z) (w : V2.World) (env : V2.Env) (st : gmap string Z)
    (req : V2.Request) : V2.Result -> Prop :=
| V2_not_post :
    V2.method req <> "POST" ->
    V2_run tz w env st req (V2.reply V2.Error405 st)
| V2_no_credentials :
    V2.method req = "POST" ->
    Js.falsy (V2.env_BOT_TOKEN env) = true \/ Js.falsy (V2.env_CHAT_ID env) = true ->
    V2_run tz w env st req (V2.reply V2.Error500_missing_env st)
| V2_bad_body :
    V2.method req = "POST" ->
    Js.falsy (V2.env_BOT_TOKEN env) = false ->
    Js.falsy (V2.env_CHAT_ID env) = false ->
    V2.body req = None ->
    V2_run tz w env st req (V2.reply V2.Error500_server_error st)
| V2_no_reading b :
    V2.method req = "POST" ->
    Js.falsy (V2.env_BOT_TOKEN env) = false ->
    Js.falsy (V2.env_CHAT_ID env) = false ->
    V2.body req = Some b ->
    V2.ml b = None \/ V2.pct b = None ->
    V2_run tz w env st req (V2.reply V2.Error400 st)
| V2_in_quiet_hours b pct ml :
    V2_well_formed env req b pct ml ->
    V2_quiet tz w env ->
    V2_run tz w env st req (V2.reply (V2.Skipped quiet_hours None) st)
| V2_in_cooldown b pct ml :
    V2_well_formed env req b pct ml ->
    ~ V2_quiet tz w env ->
    V2_cooling w env st ->
    V2_run tz w env st req (V2.reply (V2.Skipped interval None) st)
| V2_on_track b pct ml :
    V2_well_formed env req b pct ml ->
    ~ V2_quiet tz w env ->
    ~ V2_cooling w env st ->
    ~ should_notify (V2_goal env) (V2_target tz w env) ml pct ->
    V2_run tz w env st req
      (V2.reply (V2.Skipped on_track_or_done
                   (Some (V2_goal env, V2_target tz w env))) st)
| V2_sent b pct ml asked text :
    V2_well_formed env req b pct ml ->
    ~ V2_quiet tz w env ->
    ~ V2_cooling w env st ->
    should_notify (V2_goal env) (V2_target tz w env) ml pct ->
    V2.send_resolves w = true ->
    only_asks asked ->
    V2_run tz w env st req
      {| V2.response :=
           V2.Notified (V2_goal env) (V2_target tz w env) (V2_sip tz w env ml);
         V2.lastNotified_after := <[V2_chat env := V2.clk_set w]> st;
         V2.events := asked ++ [TelegramSend (V2_token env) (V2_chat env) text;
                                LastNotifiedSet (V2_chat env) (V2.clk_set w)] |}
| V2_send_failed b pct ml asked text :
    V2_well_formed env req b pct ml ->
    ~ V2_quiet tz w env ->
    ~ V2_cooling w env st ->
    should_notify (V2_goal env) (V2_target tz w env) ml pct ->
    V2.send_resolves w = false ->
    only_asks asked ->
    V2_run tz w env st req
      {| V2.response := V2.Error500_server_error;
         V2.lastNotified_after := st;
         V2.events := asked ++ [TelegramSend (V2_token env) (V2_chat env) text] |}.





(** *** The planner, for a well-formed request

    What lines 544-573 compute: today's activity, the profile object handed
    to the service, the fallback plan and the plan retained. *)
Definition V3_today (tz : Z) (w : V3.World) (env : V3.Env) : string :=
  V3.dayActivity (V3.getConfig env) (Js.getDay tz (V3.clk_dow w)).

Definition V3_ai_context (tz : Z) (w : V3.World) (env : V3.Env) : V3.AiContext :=
  let cfg := V3.getConfig env in
  {| V3.ctx_name := V3.NAME cfg; V3.ctx_age := V3.AGE cfg;
     V3.ctx_weight_kg := V3.WEIGHT_KG cfg; V3.ctx_height_cm := V3.HEIGHT_CM cfg;
     V3.ctx_wake_time := V3.WAKE_TIME cfg; V3.ctx_sleep_time := V3.SLEEP_TIME cfg;
     V3.ctx_today_activity := V3_today tz w env;
     V3.ctx_clinician_limit_ml := V3.CLINICIAN_LIMIT_ML cfg |}.

Definition V3_fallback (tz : Z) (w : V3.World) (env : V3.Env) (ml pct : Q)
    : V3.Plan :=
  V3.fallbackPlan tz (V3.clk_wake w) (V3.clk_sleep w)
    {| V3.weight_kg := V3.WEIGHT_KG (V3.getConfig env);
       V3.activity := V3.normalizeActivity (V3_today tz w env) |}
    ml pct (V3.clk_now w).

Definition V3_plan (tz : Z) (w : V3.World) (env : V3.Env) (b : V3.Body)
    (ml pct : Q) : V3.Plan :=
  fst (V3.choosePlan tz w env (V3.getConfig env) (V3_ai_context tz w env)
         (V3_today tz w env) ml pct (V3.cm b) (V3.clk_now w)).

Definition V3_quiet (tz : Z) (w : V3.World) (env : V3.Env) : Prop :=
  quiet (V3.QUIET_START (V3.getConfig env)) (V3.QUIET_END (V3.getConfig env))
    (Js.getHours tz (V3.clk_now w)).

Definition V3_chat (env : V3.Env) : string := default "" (V3.env_CHAT_ID env).

Definition V3_cooling (w : V3.World) (env : V3.Env) (st : gmap string Z) : Prop :=
  inject_Z (V3.clk_rate w - default 0%Z (st !! V3_chat env))
  < V3.MIN_INTERVAL_MIN (V3.getConfig env) * 60 * 1000.

(** The test of line 577 lets the plan through. *)
Definition V3_goes (plan : V3.Plan) (ml : Q) : Prop :=
  V3.should_notify plan = true /\ 0 < Js.Math_max 0 (V3.goal_ml plan - ml).


(** Observers of a response. *)
Definition V1_notified (r : V1.Response) : bool :=
  match r with V1.Notified _ _ _ => true | _ => false end.

Definition V2_notified (r : V2.Response) : bool :=
  match r with V2.Notified _ _ _ => true | _ => false end.

Definition V3_notified (r : V3.Response) : bool :=
  match r with V3.Notified _ => true | _ => false end.

Definition V2_skipped (r : V2.Response) : option SkipReason :=
  match r with V2.Skipped reason _ => Some reason | _ => None end.

Definition V3_skipped (r : V3.Response) : option SkipReason :=
  match r with V3.Skipped reason _ => Some reason | _ => None end.

(** The send was issued; the map was written. *)
Definition sent {T} (evs : list (Event T)) : bool := existsb is_send evs.
Definition stored {T} (evs : list (Event T)) : bool := existsb is_set evs.

(** Every write to the map comes after a send in the same invocation. *)
Fixpoint set_after_send {T} (seen_send : bool) (evs : list (Event T)) : bool :=
  match evs with
  | [] => true
  | e :: rest =>
      (if is_set e then seen_send else true)
      && set_after_send (seen_send || is_send e) rest
  end.

(** A plan that can be used as it is: goal within the rails, target between
    zero and the goal, sip within the safe range. *)
Definition valid_plan (p : V3.Plan) : Prop :=
  1200 <= V3.goal_ml p <= 4000
  /\ 0 <= V3.target_ml_now p <= V3.goal_ml p
  /\ 120 <= V3.next_sip_ml p <= 300.


End Props.

(** ** Concrete inputs *)

Module Samples.

(** Monday 2024-01-01, 12:00:00.000 UTC, and the same day at other hours. *)
Definition noon : Z := 1704110400000.
Definition at_hour (h : Z) : Z := (noon + (h - 12) * Js.msPerHour)%Z.

(** A profile with every property absent but the two times. *)
Definition with_times (wake_time sleep_time : option string) : V1.Profile :=
  {| V1.p_name := None; V1.p_age := None; V1.p_weight_kg := None;
     V1.p_activity_level := None; V1.p_daily_activity_minutes := None;
     V1.p_medical_conditions := None; V1.p_clinician_limit_ml := None;
     V1.p_temp_c := None; V1.p_humidity_pct := None;
     V1.p_wake_time := wake_time; V1.p_sleep_time := sleep_time |}.

(** Someone who gets up at nine and goes to bed at one in the morning. *)
Definition night_owl : V1.Profile := with_times (Some "09:00") (Some "01:00").

(** The context that [V1.computeContext] builds from it at noon, UTC. *)
Definition night_owl_ctx : V1.Context :=
  fst (V1.computeContext 0 night_owl noon noon).

(** The context built at noon, UTC, from a profile that gives the two times
    as 07:00 and 23:00 and nothing else. *)
Definition day_ctx : V1.Context :=
  fst (V1.computeContext 0 (with_times (Some "07:00") (Some "23:00")) noon noon).

(** 70 kg, Moderate, with a negative number of activity minutes. *)
Definition negative_minutes : V1.Profile :=
  {| V1.p_name := None; V1.p_age := None; V1.p_weight_kg := Some 70;
     V1.p_activity_level := Some "Moderate";
     V1.p_daily_activity_minutes := Some (-60);
     V1.p_medical_conditions := None; V1.p_clinician_limit_ml := None;
     V1.p_temp_c := None; V1.p_humidity_pct := None;
     V1.p_wake_time := None; V1.p_sleep_time := None |}.


(** Credentials, a reading posted without a profile, and an invocation that
    reads the same instant at every look at the clock. *)
Definition V1_env : V1.Env :=
  {| V1.CHAT_ID := Some "1001"; V1.BOT_TOKEN := Some "token" |}.

Definition V1_body (pct ml : Q) (p : option V1.Profile) : V1.Body :=
  {| V1.pct := Some pct; V1.ml := Some ml; V1.cm := None; V1.ts := None;
     V1.profile := p |}.

Definition V1_post (pct ml : Q) (p : option V1.Profile) : V1.Request :=
  {| V1.method := "POST"; V1.body := Some (V1_body pct ml p) |}.

Definition V1_at (t : Z) : V1.World :=
  {| V1.clk_now := t; V1.clk_sleep_default := t; V1.clk_rate := t;
     V1.clk_set := t; V1.send_resolves := true |}.

(** The same for the handler configured from the environment, with every
    optional variable unset. *)
Definition V2_env : V2.Env :=
  {| V2.env_BOT_TOKEN := Some "token"; V2.env_CHAT_ID := Some "1001";
     V2.env_NAME := None; V2.env_WEIGHT_KG := None;
     V2.env_ACTIVITY_LEVEL := None; V2.env_DAILY_ACTIVITY_MINUTES := None;
     V2.env_WAKE_TIME := None; V2.env_SLEEP_TIME := None;
     V2.env_QUIET_START_HOUR := None; V2.env_QUIET_END_HOUR := None;
     V2.env_MIN_INTERVAL_MIN := None; V2.env_OPENAI_API_KEY := None |}.

Definition V2_body (pct ml : Q) : V2.Body :=
  {| V2.ml := Some ml; V2.pct := Some pct; V2.cm := None |}.

Definition V2_post (pct ml : Q) : V2.Request :=
  {| V2.method := "POST"; V2.body := Some (V2_body pct ml) |}.

Definition V2_at (t : Z) : V2.World :=
  {| V2.clk_now := t; V2.clk_wake := t; V2.clk_sleep := t; V2.clk_rate := t;
     V2.clk_set := t; V2.rephrasing := None; V2.send_resolves := true |}.

(** The planner's environment: Monday's activity and the key of the
    text-generation service are given, every other optional variable is
    unset. *)
Definition V3_env (monday key : option string) : V3.Env :=
  {| V3.env_BOT_TOKEN := Some "token"; V3.env_CHAT_ID := Some "1001";
     V3.env_NAME := None; V3.env_AGE := None; V3.env_WEIGHT_KG := None;
     V3.env_HEIGHT_CM := None;
     V3.env_ACTIVITY_MON := monday; V3.env_ACTIVITY_TUE := None;
     V3.env_ACTIVITY_WED := None; V3.env_ACTIVITY_THU := None;
     V3.env_ACTIVITY_FRI := None; V3.env_ACTIVITY_SAT := None;
     V3.env_ACTIVITY_SUN := None;
     V3.env_WAKE_TIME := None; V3.env_SLEEP_TIME := None;
     V3.env_QUIET_START_HOUR := None; V3.env_QUIET_END_HOUR := None;
     V3.env_MIN_INTERVAL_MIN := None; V3.env_CLINICIAN_LIMIT_ML := None;
     V3.env_OPENAI_API_KEY := key |}.

Definition V3_body (pct ml : Q) : V3.Body :=
  {| V3.ml := Some ml; V3.pct := Some pct; V3.cm := None |}.

Definition V3_post (pct ml : Q) : V3.Request :=
  {| V3.method := "POST"; V3.body := Some (V3_body pct ml) |}.

Definition V3_at (t : Z) (reply : V3.AiReply) : V3.World :=
  {| V3.clk_now := t; V3.clk_rate := t; V3.clk_dow := t; V3.clk_wake := t;
     V3.clk_sleep := t; V3.clk_set := t; V3.ai_reply := reply;
     V3.send_resolves := true |}.




End Samples.

(** ** Vocabulary of the further properties *)

Module Extra.

(** The local calendar day of an instant (days since the epoch) and the
    milliseconds elapsed in that day. *)
Definition local_day (tz t : Z) : Z := ((t + tz) / Js.msPerDay)%Z.
Definition local_ms (tz t : Z) : Z := ((t + tz) mod Js.msPerDay)%Z.




(** The step from 0 to 1 at [wake]. *)
Definition step_at (wake now : Z) : Q := if (now <=? wake)%Z then 0 else 1.



(** The request to the text-generation service was made. *)
Definition is_ask {T} (e : Event T) : bool :=
  match e with OpenAiRequest _ => true | _ => false end.

Definition asked {T} (evs : list (Event T)) : bool := existsb is_ask evs.

(** The texts handed to the messaging service, in order. *)
Definition texts {T} (evs : list (Event T)) : list T :=
  flat_map (fun e => match e with TelegramSend _ _ t => [t] | _ => [] end) evs.

(** An invocation of the second handler with another outcome of the
    rephrasing call, and its environment with another key. *)
Definition V2_with_rephrasing (w : V2.World) (r : option string) : V2.World :=
  {| V2.clk_now := V2.clk_now w; V2.clk_wake := V2.clk_wake w;
     V2.clk_sleep := V2.clk_sleep w; V2.clk_rate := V2.clk_rate w;
     V2.clk_set := V2.clk_set w; V2.rephrasing := r;
     V2.send_resolves := V2.send_resolves w |}.

Definition V2_with_key (env : V2.Env) (key : option string) : V2.Env :=
  {| V2.env_BOT_TOKEN := V2.env_BOT_TOKEN env;
     V2.env_CHAT_ID := V2.env_CHAT_ID env;
     V2.env_NAME := V2.env_NAME env;
     V2.env_WEIGHT_KG := V2.env_WEIGHT_KG env;
     V2.env_ACTIVITY_LEVEL := V2.env_ACTIVITY_LEVEL env;
     V2.env_DAILY_ACTIVITY_MINUTES := V2.env_DAILY_ACTIVITY_MINUTES env;
     V2.env_WAKE_TIME := V2.env_WAKE_TIME env;
     V2.env_SLEEP_TIME := V2.env_SLEEP_TIME env;
     V2.env_QUIET_START_HOUR := V2.env_QUIET_START_HOUR env;
     V2.env_QUIET_END_HOUR := V2.env_QUIET_END_HOUR env;
     V2.env_MIN_INTERVAL_MIN := V2.env_MIN_INTERVAL_MIN env;
     V2.env_OPENAI_API_KEY := key |}.

(** The second handler's environment with the two quiet-hours bounds set. *)
Definition V2_quiet_env (quiet_start quiet_end : option Q) : V2.Env :=
  {| V2.env_BOT_TOKEN := Some "token"; V2.env_CHAT_ID := Some "1001";
     V2.env_NAME := None; V2.env_WEIGHT_KG := None;
     V2.env_ACTIVITY_LEVEL := None; V2.env_DAILY_ACTIVITY_MINUTES := None;
     V2.env_WAKE_TIME := None; V2.env_SLEEP_TIME := None;
     V2.env_QUIET_START_HOUR := quiet_start; V2.env_QUIET_END_HOUR := quiet_end;
     V2.env_MIN_INTERVAL_MIN := None; V2.env_OPENAI_API_KEY := None |}.

(** No credentials at all, and a body without a reading. *)
Definition V1_no_credentials : V1.Env :=
  {| V1.CHAT_ID := None; V1.BOT_TOKEN := None |}.

Definition V1_empty_post : V1.Request :=
  {| V1.method := "POST";
     V1.body := Some {| V1.pct := None; V1.ml := None; V1.cm := None;
                        V1.ts := None; V1.profile := None |} |}.

Definition V2_no_credentials : V2.Env :=
  {| V2.env_BOT_TOKEN := None; V2.env_CHAT_ID := None;
     V2.env_NAME := None; V2.env_WEIGHT_KG := None;
     V2.env_ACTIVITY_LEVEL := None; V2.env_DAILY_ACTIVITY_MINUTES := None;
     V2.env_WAKE_TIME := None; V2.env_SLEEP_TIME := None;
     V2.env_QUIET_START_HOUR := None; V2.env_QUIET_END_HOUR := None;
     V2.env_MIN_INTERVAL_MIN := None; V2.env_OPENAI_API_KEY := None |}.

Definition V2_empty_post : V2.Request :=
  {| V2.method := "POST";
     V2.body := Some {| V2.ml := None; V2.pct := None; V2.cm := None |} |}.

(** The table of lines 545-547 and 780-782 as a list, Sunday first. *)
Definition week (cfg : V3.Config) : list string :=
  [V3.ACT_SUN cfg; V3.ACT_MON cfg; V3.ACT_TUE cfg; V3.ACT_WED cfg;
   V3.ACT_THU cfg; V3.ACT_FRI cfg; V3.ACT_SAT cfg].

(** The flat add-on of the fallback plan, by level. *)
Definition flat_by_level (a : Activity) : Q :=
  match a with
  | Sedentary => 0
  | Light => 400
  | Moderate => 800
  | Heavy => 1200
  end.

(** The message of lines 582-583 and 808-809; [check] is the text used when
    the plan has no reason. *)
Definition plan_message (name check : string) (plan : V3.Plan) (ml : Q)
    : V3.PlanMessage :=
  {| V3.msg_name := name;
     V3.msg_reason := if String.eqb (V3.reason plan) "" then check
                      else V3.reason plan;
     V3.msg_behind := Js.Math_max 0 (V3.target_ml_now plan - ml);
     V3.msg_current_ml := ml;
     V3.msg_goal_ml := V3.goal_ml plan;
     V3.msg_next_sip_ml := V3.next_sip_ml plan;
     V3.msg_remaining_ml := Js.Math_max 0 (V3.goal_ml plan - ml) |}.

(** The bot token, and the request that the planner makes to the
    text-generation service at lines 564-566 and 793-794. *)
Definition V3_token (env : V3.Env) : string := default "" (V3.env_BOT_TOKEN env).

Definition planner_asks (env : V3.Env) : list (Event V3.PlanMessage) :=
  if Js.falsy (V3.env_OPENAI_API_KEY env) then []
  else [OpenAiRequest (default "" (V3.env_OPENAI_API_KEY env))].

(** What lines 779-801 compute for a well-formed request. *)
Definition V4_today (tz : Z) (w : V4.World) (env : V3.Env) : string :=
  V3.dayActivity (V4.getConfig env) (Js.getDay tz (V4.clk_dow w)).

Definition V4_ai_context (tz : Z) (w : V4.World) (env : V3.Env) : V3.AiContext :=
  let cfg := V4.getConfig env in
  {| V3.ctx_name := V3.NAME cfg; V3.ctx_age := V3.AGE cfg;
     V3.ctx_weight_kg := V3.WEIGHT_KG cfg; V3.ctx_height_cm := V3.HEIGHT_CM cfg;
     V3.ctx_wake_time := V3.WAKE_TIME cfg; V3.ctx_sleep_time := V3.SLEEP_TIME cfg;
     V3.ctx_today_activity := V4_today tz w env;
     V3.ctx_clinician_limit_ml := V3.CLINICIAN_LIMIT_ML cfg |}.

Definition V4_fallback (tz : Z) (w : V4.World) (env : V3.Env) (ml pct : Q)
    : V3.Plan :=
  V4.fallbackPlan tz (V4.clk_wake w) (V4.clk_sleep w)
    {| V4.weight_kg := V3.WEIGHT_KG (V4.getConfig env);
       V4.activity := V4.normalizeActivity (V4_today tz w env);
       V4.wakeStr := Some (V3.WAKE_TIME (V4.getConfig env));
       V4.sleepStr := Some (V3.SLEEP_TIME (V4.getConfig env)) |}
    ml pct (V4.clk_now w).

Definition V4_plan (tz : Z) (w : V4.World) (env : V3.Env) (b : V3.Body)
    (ml pct : Q) : V3.Plan :=
  fst (V4.choosePlan tz w env (V4.getConfig env) (V4_ai_context tz w env)
         (V4_today tz w env) ml pct (V3.cm b) (V4.clk_now w)).

Definition V4_quiet (tz : Z) (w : V4.World) (env : V3.Env) : Prop :=
  Props.quiet (V3.QUIET_START (V4.getConfig env)) (V3.QUIET_END (V4.getConfig env))
    (Js.getHours tz (V4.clk_now w)).

Definition V4_cooling (w : V4.World) (env : V3.Env) (st : gmap string Z) : Prop :=
  inject_Z (V4.clk_rate w - default 0%Z (st !! Props.V3_chat env))
  < V3.MIN_INTERVAL_MIN (V4.getConfig env) * 60 * 1000.

(** An invocation with another reply of the messaging service. *)
Definition V4_with_reply (w : V4.World) (r : option V4.TgReply) : V4.World :=
  {| V4.clk_now := V4.clk_now w; V4.clk_rate := V4.clk_rate w;
     V4.clk_dow := V4.clk_dow w; V4.clk_wake := V4.clk_wake w;
     V4.clk_sleep := V4.clk_sleep w; V4.clk_set := V4.clk_set w;
     V4.ai_reply := V4.ai_reply w; V4.tg_reply := r |}.

(** An invocation that reads the same instant at every look at the clock,
    with the messaging service answering 401. *)
Definition V4_at (t : Z) (reply : V3.AiReply) : V4.World :=
  {| V4.clk_now := t; V4.clk_rate := t; V4.clk_dow := t; V4.clk_wake := t;
     V4.clk_sleep := t; V4.clk_set := t; V4.ai_reply := reply;
     V4.tg_reply := Some {| V4.tg_status := 401; V4.tg_text := "Unauthorized" |} |}.

(** The planner's environment with the two times and the quiet-hours bounds
    set and no key for the text-generation service. *)
Definition V3_env_with (wake_time sleep_time : option string)
    (quiet_start quiet_end : option Q) : V3.Env :=
  {| V3.env_BOT_TOKEN := Some "token"; V3.env_CHAT_ID := Some "1001";
     V3.env_NAME := None; V3.env_AGE := None; V3.env_WEIGHT_KG := None;
     V3.env_HEIGHT_CM := None;
     V3.env_ACTIVITY_MON := None; V3.env_ACTIVITY_TUE := None;
     V3.env_ACTIVITY_WED := None; V3.env_ACTIVITY_THU := None;
     V3.env_ACTIVITY_FRI := None; V3.env_ACTIVITY_SAT := None;
     V3.env_ACTIVITY_SUN := None;
     V3.env_WAKE_TIME := wake_time; V3.env_SLEEP_TIME := sleep_time;
     V3.env_QUIET_START_HOUR := quiet_start; V3.env_QUIET_END_HOUR := quiet_end;
     V3.env_MIN_INTERVAL_MIN := None; V3.env_CLINICIAN_LIMIT_ML := None;
     V3.env_OPENAI_API_KEY := None |}.

(** The first argument of the re-edited [fallbackPlan] with its sleep
    string replaced. *)
Definition V4_with_sleepStr (p : V4.FallbackProfile) (s : option string)
    : V4.FallbackProfile :=
  {| V4.weight_kg := V4.weight_kg p; V4.activity := V4.activity p;
     V4.wakeStr := V4.wakeStr p; V4.sleepStr := s |}.



(** Division as JavaScript has it on time differences: a zero divisor yields
    Infinity or NaN, here [None]. *)
Definition div_checked (n d : Z) : option Q :=
  if (d =? 0)%Z then None else Some (inject_Z n / inject_Z d).

(** The pacing curve of lines 138-151, 246-259, 429-435 and 692-698 with its
    three divisions checked. *)
Definition pacing_checked (morning afternoon evening : Q)
    (wake sleep t1 t2 : Z) (now : Z) : option Q :=
  if (now <=? wake)%Z then Some 0
  else if (sleep <=? now)%Z then Some 1
  else if (now <=? t1)%Z then
    match div_checked (now - wake) (t1 - wake) with
    | Some f => Some (f * morning)
    | None => None
    end
  else if (now <=? t2)%Z then
    match div_checked (now - t1) (t2 - t1) with
    | Some f => Some (morning + f * afternoon)
    | None => None
    end
  else
    match div_checked (now - t2) (sleep - t2) with
    | Some f => Some (morning + afternoon + f * evening)
    | None => None
    end.


End Extra.

(** * Properties *)

(** ** Arithmetic of the primitives *)

Section JsFacts.

Lemma Math_max_cases (a b : Q) :
  (a <= b /\ Js.Math_max a b = b) \/ (b < a /\ Js.Math_max a b = a).
Proof.
  unfold Js.Math_max. destruct (Qle_bool a b) eqn:E.
  - left. split; [now apply Qle_bool_iff | reflexivity].
  - right. split; [| reflexivity].
    apply Qnot_le_lt. intro H. apply Qle_bool_iff in H. congruence.
Qed.

Lemma Math_min_cases (a b : Q) :
  (a <= b /\ Js.Math_min a b = a) \/ (b < a /\ Js.Math_min a b = b).
Proof.
  unfold Js.Math_min. destruct (Qle_bool a b) eqn:E.
  - left. split; [now apply Qle_bool_iff | reflexivity].
  - right. split; [| reflexivity].
    apply Qnot_le_lt. intro H. apply Qle_bool_iff in H. congruence.
Qed.

Lemma clamp_range (v lo hi : Q) :
  lo <= hi -> lo <= Js.clamp v lo hi <= hi.
Proof.
  intros Hlh. unfold Js.clamp.
  destruct (Math_min_cases v hi) as [[H1 ->] | [H1 ->]];
    destruct (Math_max_cases lo v) as [[H2 E2] | [H2 E2]];
    destruct (Math_max_cases lo hi) as [[H3 E3] | [H3 E3]];
    rewrite ?E2, ?E3; split; lra.
Qed.

Lemma clamp_id (v lo hi : Q) :
  lo <= v <= hi -> Js.clamp v lo hi == v.
Proof.
  intros [Hl Hh]. unfold Js.clamp.
  destruct (Math_min_cases v hi) as [[H1 ->] | [H1 ->]];
    [destruct (Math_max_cases lo v) as [[H2 ->] | [H2 ->]]
    | destruct (Math_max_cases lo hi) as [[H2 ->] | [H2 ->]]]; lra.
Qed.

Lemma clamp_low (v lo hi : Q) :
  lo <= hi -> v <= lo -> Js.clamp v lo hi == lo.
Proof.
  intros Hlh Hv. unfold Js.clamp.
  destruct (Math_min_cases v hi) as [[H1 ->] | [H1 ->]];
    [destruct (Math_max_cases lo v) as [[H2 ->] | [H2 ->]]
    | destruct (Math_max_cases lo hi) as [[H2 ->] | [H2 ->]]]; lra.
Qed.

Lemma clamp_high (v lo hi : Q) :
  lo <= hi -> hi <= v -> Js.clamp v lo hi == hi.
Proof.
  intros Hlh Hv. unfold Js.clamp.
  destruct (Math_min_cases v hi) as [[H1 ->] | [H1 ->]];
    [destruct (Math_max_cases lo v) as [[H2 ->] | [H2 ->]]
    | destruct (Math_max_cases lo hi) as [[H2 ->] | [H2 ->]]]; lra.
Qed.

Lemma ltb_lt (x y : Q) : Js.ltb x y = true <-> x < y.
Proof.
  unfold Js.ltb. rewrite negb_true_iff. split.
  - intros E. apply Qnot_le_lt. intro H. apply Qle_bool_iff in H. congruence.
  - intros H. destruct (Qle_bool y x) eqn:E; [| reflexivity].
    apply Qle_bool_iff in E. lra.
Qed.


Lemma leb_le (x y : Q) : Js.leb x y = true <-> x <= y.
Proof. apply Qle_bool_iff. Qed.

Lemma leb_gt (x y : Q) : Js.leb x y = false <-> y < x.
Proof.
  unfold Js.leb. split.
  - intros E. apply Qnot_le_lt. intro H. apply Qle_bool_iff in H. congruence.
  - intros H. destruct (Qle_bool x y) eqn:E; [| reflexivity].
    apply Qle_bool_iff in E. lra.
Qed.

Lemma geb_ge (x y : Q) : Js.geb x y = true <-> y <= x.
Proof. apply Qle_bool_iff. Qed.

Lemma Math_round_near (x : Q) :
  x - (1 # 2) < Js.Math_round x /\ Js.Math_round x <= x + (1 # 2).
Proof.
  unfold Js.Math_round. split.
  - pose proof (Qlt_floor (x + (1 # 2))) as H.
    rewrite inject_Z_plus in H. change (inject_Z 1) with 1 in H. lra.
  - apply Qfloor_le.
Qed.

Lemma Math_round_integer (z : Z) : Js.Math_round (inject_Z z) = inject_Z z.
Proof.
  unfold Js.Math_round. f_equal.
  pose proof (Qfloor_le (inject_Z z + (1 # 2))) as Hl.
  pose proof (Qlt_floor (inject_Z z + (1 # 2))) as Hu.
  set (k := Qfloor (inject_Z z + (1 # 2))) in *.
  assert (inject_Z k < inject_Z (z + 1)) as H1
    by (rewrite inject_Z_plus; change (inject_Z 1) with 1; lra).
  assert (inject_Z z < inject_Z (k + 1)) as H2 by lra.
  rewrite <- Zlt_Qlt in H1, H2. lia.
Qed.

Lemma Math_round_mono (x y : Q) :
  x <= y -> Js.Math_round x <= Js.Math_round y.
Proof.
  intros H. unfold Js.Math_round. rewrite <- Zle_Qle.
  apply Qfloor_resp_le. lra.
Qed.

Lemma Math_round_comp (x y : Q) :
  x == y -> Js.Math_round x = Js.Math_round y.
Proof.
  intros H. unfold Js.Math_round. f_equal. apply Qfloor_comp. now rewrite H.
Qed.

(** A rounded product of an integer goal by a fraction of it stays within
    the goal. *)
Lemma Math_round_share (g : Z) (f : Q) :
  (0 <= g)%Z -> 0 <= f <= 1 ->
  0 <= Js.Math_round (inject_Z g * f) <= inject_Z g.
Proof.
  intros Hg [Hf0 Hf1].
  assert (0 <= inject_Z g) as Hg' by (rewrite Zle_Qle in Hg; exact Hg).
  split.
  - change 0 with (inject_Z 0). rewrite <- (Math_round_integer 0).
    apply Math_round_mono. change (inject_Z 0) with 0. nra.
  - rewrite <- (Math_round_integer g) at 2.
    apply Math_round_mono. nra.
Qed.

End JsFacts.

(** ** The pacing curve *)

Section PacingCurve.

Variables morning afternoon evening : Q.
Hypothesis morning_nonneg : 0 <= morning.
Hypothesis afternoon_nonneg : 0 <= afternoon.
Hypothesis evening_nonneg : 0 <= evening.
Hypothesis shares_sum : morning + afternoon + evening == 1.

Variables wake sleep t1 t2 : Z.

Local Abbreviation curve := (Props.pacing morning afternoon evening wake sleep t1 t2).
Local Abbreviation phase := (Props.phase morning afternoon evening wake sleep t1 t2).

Lemma ratio_unit (n d : Z) :
  (0 <= n <= d)%Z -> (0 < d)%Z -> 0 <= inject_Z n / inject_Z d <= 1.
Proof.
  intros [Hn Hd] Hpos.
  assert (0 < inject_Z d) as Hd' by (change 0 with (inject_Z 0); now rewrite <- Zlt_Qlt).
  assert (0 <= inject_Z n) as Hn' by (change 0 with (inject_Z 0); now rewrite <- Zle_Qle).
  assert (inject_Z n <= inject_Z d) as Hnd by now rewrite <- Zle_Qle.
  split.
  - apply Qle_shift_div_l; [exact Hd' | lra].
  - apply Qle_shift_div_r; [exact Hd' | lra].
Qed.

Lemma ratio_mono (n1 n2 d : Z) :
  (n1 <= n2)%Z -> (0 < d)%Z ->
  inject_Z n1 / inject_Z d <= inject_Z n2 / inject_Z d.
Proof.
  intros Hn Hpos.
  assert (0 < inject_Z d) as Hd' by (change 0 with (inject_Z 0); now rewrite <- Zlt_Qlt).
  assert (inject_Z n1 <= inject_Z n2) as Hn' by now rewrite <- Zle_Qle.
  apply Qle_shift_div_l; [exact Hd' |].
  unfold Qdiv. rewrite <- Qmult_assoc, (Qmult_comm (/ inject_Z d)).
  rewrite Qmult_inv_r by lra. lra.
Qed.

Lemma ratio_one (d : Z) : (0 < d)%Z -> inject_Z d / inject_Z d == 1.
Proof.
  intros Hpos.
  assert (0 < inject_Z d) as Hd' by (change 0 with (inject_Z 0); now rewrite <- Zlt_Qlt).
  unfold Qdiv. apply Qmult_inv_r. lra.
Qed.

Lemma pacing_phase (now : Z) : phase now (curve now).
Proof.
  unfold Props.pacing.
  destruct (Z.leb_spec now wake); [now constructor |].
  destruct (Z.leb_spec sleep now); [now constructor |].
  destruct (Z.leb_spec now t1); [constructor; lia |].
  destruct (Z.leb_spec now t2); constructor; lia.
Qed.

Lemma pacing_before_wake (now : Z) : (now <= wake)%Z -> curve now = 0.
Proof.
  intros H. unfold Props.pacing.
  destruct (Z.leb_spec now wake); [reflexivity | lia].
Qed.

Lemma pacing_after_sleep (now : Z) :
  (wake < now)%Z -> (sleep <= now)%Z -> curve now = 1.
Proof.
  intros H1 H2. unfold Props.pacing.
  destruct (Z.leb_spec now wake); [lia |].
  destruct (Z.leb_spec sleep now); [reflexivity | lia].
Qed.

Lemma pacing_range (now : Z) : 0 <= curve now <= 1.
Proof.
  destruct (pacing_phase now) as [H | H1 H2 | H1 H2 | H1 H2 | H1 H2 H3].
  - lra.
  - lra.
  - pose proof (ratio_unit (now - wake) (t1 - wake)) as R.
    destruct R as [R0 R1]; [lia | lia |]. split; nra.
  - pose proof (ratio_unit (now - t1) (t2 - t1)) as R.
    destruct R as [R0 R1]; [lia | lia |]. split; nra.
  - pose proof (ratio_unit (now - t2) (sleep - t2)) as R.
    destruct R as [R0 R1]; [lia | lia |]. split; nra.
Qed.

Lemma pacing_mono (x y : Z) : (x <= y)%Z -> curve x <= curve y.
Proof.
  intros Hxy.
  pose proof (pacing_range x) as Rx. pose proof (pacing_range y) as Ry.
  destruct (pacing_phase x) as [X | X1 X2 | X1 X2 | X1 X2 | X1 X2 X3];
    destruct (pacing_phase y) as [Y | Y1 Y2 | Y1 Y2 | Y1 Y2 | Y1 Y2 Y3];
    try lia; try lra.
  - (* both in the morning *)
    pose proof (ratio_mono (x - wake) (y - wake) (t1 - wake)) as M.
    specialize (M ltac:(lia) ltac:(lia)). nra.
  - (* morning, then afternoon *)
    destruct (ratio_unit (x - wake) (t1 - wake)) as [A0 A1]; [lia | lia |].
    destruct (ratio_unit (y - t1) (t2 - t1)) as [B0 B1]; [lia | lia |]. nra.
  - (* morning, then evening *)
    destruct (ratio_unit (x - wake) (t1 - wake)) as [A0 A1]; [lia | lia |].
    destruct (ratio_unit (y - t2) (sleep - t2)) as [B0 B1]; [lia | lia |]. nra.
  - (* both in the afternoon *)
    pose proof (ratio_mono (x - t1) (y - t1) (t2 - t1)) as M.
    specialize (M ltac:(lia) ltac:(lia)). nra.
  - (* afternoon, then evening *)
    destruct (ratio_unit (x - t1) (t2 - t1)) as [A0 A1]; [lia | lia |].
    destruct (ratio_unit (y - t2) (sleep - t2)) as [B0 B1]; [lia | lia |]. nra.
  - (* both in the evening *)
    pose proof (ratio_mono (x - t2) (y - t2) (sleep - t2)) as M.
    specialize (M ltac:(lia) ltac:(lia)). nra.
Qed.

(** The value at the two interior breakpoints. *)
Lemma pacing_at_t1 : (wake < t1 < sleep)%Z -> curve t1 == morning.
Proof.
  intros H. unfold Props.pacing.
  destruct (Z.leb_spec t1 wake); [lia |].
  destruct (Z.leb_spec sleep t1); [lia |].
  destruct (Z.leb_spec t1 t1); [| lia].
  rewrite ratio_one by lia. lra.
Qed.

Lemma pacing_at_t2 :
  (wake < t2 < sleep)%Z -> (t1 < t2)%Z -> curve t2 == morning + afternoon.
Proof.
  intros H H'. unfold Props.pacing.
  destruct (Z.leb_spec t2 wake); [lia |].
  destruct (Z.leb_spec sleep t2); [lia |].
  destruct (Z.leb_spec t2 t1); [lia |].
  destruct (Z.leb_spec t2 t2); [| lia].
  rewrite ratio_one by lia. lra.
Qed.

End PacingCurve.

(** ** The three pacing schedules of the source *)

Section Schedules.

Lemma shares_of_level (level : string) :
  let m := Props.morning_share level in
  let a := Props.afternoon_share level in
  0 <= m /\ 0 <= a /\ 0 <= 1 - (m + a) /\ m + a + (1 - (m + a)) == 1.
Proof.
  unfold Props.morning_share, Props.afternoon_share.
  destruct (String.eqb level "Heavy"); [| destruct (String.eqb level "Moderate")];
    cbv zeta; repeat split; lra.
Qed.

Lemma V1_schedule_shape (ctx : V1.Context) (now : Z) :
  V1.fractionAt (V1.computeSchedule ctx) now
  = Props.pacing (Props.morning_share (V1.activity_level ctx))
      (Props.afternoon_share (V1.activity_level ctx))
      (1 - (Props.morning_share (V1.activity_level ctx)
            + Props.afternoon_share (V1.activity_level ctx)))
      (V1.wake ctx) (V1.sleep ctx)
      (Props.phase_end 0.33 (V1.wake ctx) (V1.sleep ctx))
      (Props.phase_end 0.80 (V1.wake ctx) (V1.sleep ctx)) now.
Proof. reflexivity. Qed.

Lemma V2_schedule_shape (tz fresh_wake fresh_sleep : Z)
    (level wakeStr sleepStr : string) (now : Z) :
  let wake := V2.parseHM tz fresh_wake wakeStr 7 0 in
  let sleep := V2.parseHM tz fresh_sleep sleepStr 23 0 in
  V2.fractionAt (V2.makeSchedule tz fresh_wake fresh_sleep level wakeStr sleepStr) now
  = Props.pacing (Props.morning_share level) (Props.afternoon_share level)
      (1 - (Props.morning_share level + Props.afternoon_share level))
      wake sleep (Props.phase_end 0.33 wake sleep)
      (Props.phase_end 0.80 wake sleep) now.
Proof. reflexivity. Qed.

Lemma V3_frac_shape (wake sleep now : Z) :
  V3.frac wake sleep now
  = Props.pacing 0.35 0.45 0.20 wake sleep
      (Props.phase_end 0.33 wake sleep) (Props.phase_end 0.80 wake sleep) now.
Proof. reflexivity. Qed.

(** What holds of every curve of the common shape whose shares are
    non-negative and sum to one. *)
Lemma pacing_contract (m a e : Q) (wake sleep t1 t2 : Z) :
  0 <= m -> 0 <= a -> 0 <= e -> m + a + e == 1 ->
  let f := Props.pacing m a e wake sleep t1 t2 in
  (forall t, (t <= wake)%Z -> f t == 0)
  /\ (forall t, (wake < t)%Z -> (sleep <= t)%Z -> f t == 1)
  /\ (forall t, 0 <= f t <= 1)
  /\ (forall x y, (x <= y)%Z -> f x <= f y)
  /\ (forall t, Props.phase m a e wake sleep t1 t2 t (f t))
  /\ ((wake < t1 < sleep)%Z -> f t1 == m)
  /\ ((wake < t2 < sleep)%Z -> (t1 < t2)%Z -> f t2 == m + a).
Proof.
  intros Hm Ha He Hs f. subst f. repeat split.
  - intros t H. now rewrite pacing_before_wake.
  - intros t H1 H2. now rewrite pacing_after_sleep.
  - now apply pacing_range.
  - now apply pacing_range.
  - intros x y H. now apply pacing_mono.
  - intros t. apply pacing_phase.
  - intros H. now apply pacing_at_t1.
  - intros H H'. now apply pacing_at_t2.
Qed.

Lemma TimeClip_floor (x : Q) : 0 <= x -> Js.TimeClip x = Qfloor x.
Proof.
  destruct x as [n d]. unfold Qle; simpl. intros H.
  unfold Js.TimeClip; simpl. apply Z.quot_div_nonneg; lia.
Qed.

(** After the epoch and with [wake] before [sleep], a phase ends on the
    last whole millisecond within its share of the day. *)
Lemma phase_end_floor (share : Q) (wake sleep : Z) :
  0 <= share -> (0 <= wake < sleep)%Z ->
  let x := inject_Z wake + inject_Z (sleep - wake) * share in
  inject_Z (Props.phase_end share wake sleep) <= x
  /\ x < inject_Z (Props.phase_end share wake sleep) + 1.
Proof.
  intros Hs [Hw Hws] x. unfold Props.phase_end.
  assert (1 <= inject_Z (sleep - wake)) as Hd
    by (change 1 with (inject_Z 1); rewrite <- Zle_Qle; lia).
  assert (0 <= inject_Z wake) as Hw'
    by (change 0 with (inject_Z 0); rewrite <- Zle_Qle; lia).
  destruct (Math_max_cases 1 (inject_Z (sleep - wake))) as [[_ ->] | [H _]];
    [| lra].
  fold x. rewrite TimeClip_floor by (subst x; nra).
  split; [apply Qfloor_le |].
  pose proof (Qlt_floor x) as H. rewrite inject_Z_plus in H. exact H.
Qed.

End Schedules.

(** ** C3: the contract of the pacing scheduler *)

Lemma paced_of_shape (f : Z -> Q) (m a e : Q) (wake sleep : Z) :
  0 <= m -> 0 <= a -> 0 <= e -> m + a + e == 1 ->
  (forall t, f t = Props.pacing m a e wake sleep
                     (Props.phase_end 0.33 wake sleep)
                     (Props.phase_end 0.80 wake sleep) t) ->
  Props.paced f m a e wake sleep.
Proof.
  intros Hm Ha He Hs Hf.
  destruct (pacing_contract m a e wake sleep
              (Props.phase_end 0.33 wake sleep)
              (Props.phase_end 0.80 wake sleep) Hm Ha He Hs)
    as (P0 & P1 & PR & PM & PP & PB1 & PB2).
  unfold Props.paced. cbv zeta.
  repeat match goal with |- _ /\ _ => split end.
  - intros t H. rewrite Hf. now apply P0.
  - intros t H1 H2. rewrite Hf. now apply P1.
  - intros H t H1. rewrite Hf. apply P1; lia.
  - intros t. rewrite Hf. apply PR.
  - intros x y H. rewrite !Hf. now apply PM.
  - intros t. rewrite Hf. apply PP.
  - intros H. rewrite Hf. now apply PB1.
  - intros H H'. rewrite Hf. now apply PB2.
  - intros H. split; apply phase_end_floor; (lra || lia).
Qed.

(** C3 (as amended).  For every context of the first handler, for every
    configuration of the second and for every wake and sleep instant of the
    fallback plan, [fractionAt] is 0 at every t <= wake, is 1 at every
    t >= sleep that lies after wake (so at every t >= sleep when wake is
    before sleep), stays within [0,1], is non-decreasing over all ordered
    timestamps, and is piecewise linear with breakpoints at 33% and 80% of
    the wake-to-sleep duration. *)
Theorem fractionAt_contract :
  (forall ctx : V1.Context,
     Props.paced (V1.fractionAt (V1.computeSchedule ctx))
       (Props.morning_share (V1.activity_level ctx))
       (Props.afternoon_share (V1.activity_level ctx))
       (1 - (Props.morning_share (V1.activity_level ctx)
             + Props.afternoon_share (V1.activity_level ctx)))
       (V1.wake ctx) (V1.sleep ctx))
  /\ (forall (tz fresh_wake fresh_sleep : Z) (level wakeStr sleepStr : string),
        Props.paced
          (V2.fractionAt
             (V2.makeSchedule tz fresh_wake fresh_sleep level wakeStr sleepStr))
          (Props.morning_share level) (Props.afternoon_share level)
          (1 - (Props.morning_share level + Props.afternoon_share level))
          (V2.parseHM tz fresh_wake wakeStr 7 0)
          (V2.parseHM tz fresh_sleep sleepStr 23 0))
  /\ (forall wake sleep : Z,
        Props.paced (V3.frac wake sleep) 0.35 0.45 0.20 wake sleep).
Proof.
  split; [| split].
  - intros ctx.
    destruct (shares_of_level (V1.activity_level ctx)) as (Hm & Ha & He & Hs).
    apply paced_of_shape; try assumption.
    intros t. apply V1_schedule_shape.
  - intros tz fw fs level ws ss.
    destruct (shares_of_level level) as (Hm & Ha & He & Hs).
    apply paced_of_shape; try assumption.
    intros t. apply V2_schedule_shape.
  - intros wake sleep.
    apply paced_of_shape; try lra.
    intros t. apply V3_frac_shape.
Qed.

(** The contract at 07:00-23:00: zero at wake, one at sleep, and 0.35 and
    0.80 at the two breakpoints. *)
Lemma fractionAt_contract_witness :
  let f := V1.fractionAt (V1.computeSchedule Samples.day_ctx) in
  f (V1.wake Samples.day_ctx) == 0
  /\ f (V1.sleep Samples.day_ctx) == 1
  /\ f (Props.phase_end 0.33 (V1.wake Samples.day_ctx) (V1.sleep Samples.day_ctx))
     == 0.35
  /\ f Samples.noon <= f (Samples.at_hour 13).
Proof.
  destruct fractionAt_contract as [H _].
  destruct (H Samples.day_ctx) as (P0 & _ & P1 & _ & PM & _ & PB & _).
  cbv zeta. split; [| split; [| split]].
  - apply P0. apply Z.le_refl.
  - apply P1; [reflexivity | apply Z.le_refl].
  - exact (PB (conj eq_refl eq_refl)).
  - apply PM. discriminate.
Defined.

(** C3, counterexample.  With wake at 09:00 and sleep at 01:00 of the same
    calendar day, [fractionAt(sleep)] is 0, not 1. *)
Lemma fractionAt_at_sleep_before_wake :
  let f := V1.fractionAt (V1.computeSchedule Samples.night_owl_ctx) in
  let t := V1.sleep Samples.night_owl_ctx in
  (V1.sleep Samples.night_owl_ctx <= t)%Z /\ f t == 0 /\ ~ f t == 1.
Proof.
  cbv zeta. split; [apply Z.le_refl |]. split; [reflexivity |].
  intros H. vm_compute in H. discriminate H.
Qed.

(** ** C2: the goal calculator *)

Section GoalCalculator.







Lemma goal_formula_range (blocks weight_kg : Q) (a : Activity)
    (temp_c humidity_pct : option Q) (conditions : list string)
    (limit : option Q) :
  1200 <= Props.goal_formula blocks weight_kg a temp_c humidity_pct conditions limit
  <= 4000.
Proof. unfold Props.goal_formula. apply clamp_range. lra. Qed.



End GoalCalculator.




(** ** The handlers, case by case *)

(** Split on every test that the goal still shows. *)
Ltac split_tests :=
  repeat match goal with
         | |- context [if ?c then _ else _] => destruct c eqn:?
         | |- context [match ?x with _ => _ end] => destruct x eqn:?
         end.

(** Enter a handler with a request known to be well formed. *)
Ltac enter_V1 WF :=
  let Hm := fresh "Hmethod" in
  let Hb := fresh "Hbody" in
  let Hp := fresh "Hpct" in
  let Hl := fresh "Hml" in
  let Hc := fresh "Hchat" in
  let Ht := fresh "Htoken" in
  destruct WF as (Hm & Hb & Hp & Hl & Hc & Ht);
  unfold V1.handler; rewrite Hm, Hb, Hp, Hl, Hc, Ht;
  cbn [String.eqb Ascii.eqb Bool.eqb negb orb]; cbv zeta.

Ltac enter_V2 WF :=
  let Hm := fresh "Hmethod" in
  let Hb := fresh "Hbody" in
  let Hp := fresh "Hpct" in
  let Hl := fresh "Hml" in
  let Hc := fresh "Hchat" in
  let Ht := fresh "Htoken" in
  destruct WF as (Hm & Hb & Hp & Hl & Hc & Ht);
  unfold V2.handler; cbv zeta;
  change (V2.BOT_TOKEN (V2.getConfig ?e)) with (V2.env_BOT_TOKEN e);
  change (V2.CHAT_ID (V2.getConfig ?e)) with (V2.env_CHAT_ID e);
  rewrite Hm, Hb, Hp, Hl, Hc, Ht;
  cbn [String.eqb Ascii.eqb Bool.eqb negb orb].

Section QuietHours.

Lemma quiet_test_V1 (h : Z) :
  (V1.QUIET_START <=? h)%Z || (h <? V1.QUIET_END)%Z = true <-> Props.quiet 23 7 h.
Proof.
  unfold Props.quiet, V1.QUIET_START, V1.QUIET_END.
  rewrite orb_true_iff, Z.leb_le, Z.ltb_lt.
  change 23 with (inject_Z 23). change 7 with (inject_Z 7).
  now rewrite <- Zle_Qle, <- Zlt_Qlt.
Qed.

Lemma quiet_test_Q (qs qe : Q) (h : Z) :
  Js.geb (inject_Z h) qs || Js.ltb (inject_Z h) qe = true <-> Props.quiet qs qe h.
Proof.
  unfold Props.quiet. now rewrite orb_true_iff, geb_ge, ltb_lt.
Qed.

Lemma V1_quiet_only_in_window (tz : Z) (w : V1.World) (env : V1.Env)
    (st : gmap string Z) (req : V1.Request) :
  V1.response (V1.handler tz w env st req) = V1.Skipped quiet_hours ->
  Props.quiet 23 7 (Js.getHours tz (V1.clk_now w)).
Proof.
  unfold V1.handler. cbv zeta.
  destruct ((V1.QUIET_START <=? Js.getHours tz (V1.clk_now w))%Z
            || (Js.getHours tz (V1.clk_now w) <? V1.QUIET_END)%Z) eqn:Q.
  - intros _. now apply quiet_test_V1.
  - split_tests; cbn; congruence.
Qed.

Lemma V1_quiet_gate (tz : Z) (w : V1.World) (env : V1.Env)
    (st : gmap string Z) (req : V1.Request) (b : V1.Body) (pct ml : Q) :
  Props.V1_well_formed env req b pct ml ->
  Props.quiet 23 7 (Js.getHours tz (V1.clk_now w)) ->
  V1.handler tz w env st req = V1.reply (V1.Skipped quiet_hours) st.
Proof.
  intros WF Hq. apply quiet_test_V1 in Hq. enter_V1 WF. now rewrite Hq.
Qed.

Lemma V2_quiet_only_in_window (tz : Z) (w : V2.World) (env : V2.Env)
    (st : gmap string Z) (req : V2.Request) :
  Props.V2_skipped (V2.response (V2.handler tz w env st req)) = Some quiet_hours ->
  Props.quiet (V2.QUIET_START (V2.getConfig env)) (V2.QUIET_END (V2.getConfig env))
    (Js.getHours tz (V2.clk_now w)).
Proof.
  unfold V2.handler. cbv zeta.
  destruct (Js.geb (inject_Z (Js.getHours tz (V2.clk_now w)))
              (V2.QUIET_START (V2.getConfig env))
            || Js.ltb (inject_Z (Js.getHours tz (V2.clk_now w)))
                 (V2.QUIET_END (V2.getConfig env))) eqn:Q.
  - intros _. now apply quiet_test_Q.
  - split_tests; cbn; congruence.
Qed.

Lemma V2_quiet_gate (tz : Z) (w : V2.World) (env : V2.Env)
    (st : gmap string Z) (req : V2.Request) (b : V2.Body) (pct ml : Q) :
  Props.V2_well_formed env req b pct ml ->
  Props.quiet (V2.QUIET_START (V2.getConfig env)) (V2.QUIET_END (V2.getConfig env))
    (Js.getHours tz (V2.clk_now w)) ->
  V2.handler tz w env st req = V2.reply (V2.Skipped quiet_hours None) st.
Proof.
  intros WF Hq. apply quiet_test_Q in Hq. enter_V2 WF. now rewrite Hq.
Qed.

End QuietHours.

(** ** C4: the quiet-hours gate *)

(** C4.  A handler answers skipped "quiet_hours" only when the local hour h
    has h >= quiet_start_hour or h < quiet_end_hour; for every well-formed
    request (a POST whose body holds pct and ml, with the credentials
    configured) it does so if and only if that holds, whatever the
    NotificationState, which it leaves untouched; the bounds default to 23
    and 7, so that hours 23 and 6 skip and hours 7 and 22 proceed. *)
Theorem quiet_hours_gate :
  (forall tz w env st req,
     V1.response (V1.handler tz w env st req) = V1.Skipped quiet_hours ->
     Props.quiet 23 7 (Js.getHours tz (V1.clk_now w)))
  /\ (forall tz w env st req b pct ml,
        Props.V1_well_formed env req b pct ml ->
        (V1.response (V1.handler tz w env st req) = V1.Skipped quiet_hours
         <-> Props.quiet 23 7 (Js.getHours tz (V1.clk_now w)))
        /\ (Props.quiet 23 7 (Js.getHours tz (V1.clk_now w)) ->
            V1.handler tz w env st req = V1.reply (V1.Skipped quiet_hours) st))
  /\ (forall tz w env st req,
        Props.V2_skipped (V2.response (V2.handler tz w env st req))
        = Some quiet_hours ->
        Props.quiet (V2.QUIET_START (V2.getConfig env))
          (V2.QUIET_END (V2.getConfig env)) (Js.getHours tz (V2.clk_now w)))
  /\ (forall tz w env st req b pct ml,
        Props.V2_well_formed env req b pct ml ->
        (Props.V2_skipped (V2.response (V2.handler tz w env st req))
         = Some quiet_hours
         <-> Props.quiet (V2.QUIET_START (V2.getConfig env))
               (V2.QUIET_END (V2.getConfig env)) (Js.getHours tz (V2.clk_now w)))
        /\ (Props.quiet (V2.QUIET_START (V2.getConfig env))
              (V2.QUIET_END (V2.getConfig env)) (Js.getHours tz (V2.clk_now w)) ->
            V2.handler tz w env st req
            = V2.reply (V2.Skipped quiet_hours None) st))
  /\ (forall env,
        V2.env_QUIET_START_HOUR env = None -> V2.env_QUIET_END_HOUR env = None ->
        V2.QUIET_START (V2.getConfig env) = 23
        /\ V2.QUIET_END (V2.getConfig env) = 7)
  /\ (Props.quiet 23 7 23 /\ Props.quiet 23 7 6
      /\ ~ Props.quiet 23 7 7 /\ ~ Props.quiet 23 7 22).
Proof.
  split; [exact V1_quiet_only_in_window |].
  split.
  { intros tz w env st req b pct ml WF. split; [split |].
    - apply V1_quiet_only_in_window.
    - intros Hq. now rewrite (V1_quiet_gate tz w env st req b pct ml WF Hq).
    - now apply V1_quiet_gate with (b := b) (pct := pct) (ml := ml). }
  split; [exact V2_quiet_only_in_window |].
  split.
  { intros tz w env st req b pct ml WF. split; [split |].
    - apply V2_quiet_only_in_window.
    - intros Hq. now rewrite (V2_quiet_gate tz w env st req b pct ml WF Hq).
    - now apply V2_quiet_gate with (b := b) (pct := pct) (ml := ml). }
  split.
  { intros env Hs He. unfold V2.getConfig; cbn. now rewrite Hs, He. }
  unfold Props.quiet. repeat split.
  - left. discriminate.
  - right. reflexivity.
  - intros [H | H]; vm_compute in H; [now apply H | discriminate H].
  - intros [H | H]; vm_compute in H; [now apply H | discriminate H].
Qed.

(** A reading posted at 23:00 is skipped for quiet hours, also right after a
    notification; the same reading posted at 07:00 is not. *)
Lemma quiet_hours_gate_witness :
  V1.handler 0 (Samples.V1_at (Samples.at_hour 23)) Samples.V1_env
    (<["1001" := Samples.at_hour 23]> ∅) (Samples.V1_post 30 0 None)
  = V1.reply (V1.Skipped quiet_hours) (<["1001" := Samples.at_hour 23]> ∅)
  /\ V1.response
       (V1.handler 0 (Samples.V1_at (Samples.at_hour 7)) Samples.V1_env ∅
          (Samples.V1_post 30 0 None))
     <> V1.Skipped quiet_hours.
Proof.
  destruct quiet_hours_gate as (_ & H & _).
  assert (Props.V1_well_formed Samples.V1_env (Samples.V1_post 30 0 None)
            (Samples.V1_body 30 0 None) 30 0) as WF by (repeat split).
  split.
  - apply (proj2 (H 0%Z (Samples.V1_at (Samples.at_hour 23)) Samples.V1_env
                    (<["1001" := Samples.at_hour 23]> ∅)
                    (Samples.V1_post 30 0 None) (Samples.V1_body 30 0 None)
                    30 0 WF)).
    left. discriminate.
  - intros E.
    apply (proj1 (H 0%Z (Samples.V1_at (Samples.at_hour 7)) Samples.V1_env ∅
                    (Samples.V1_post 30 0 None) (Samples.V1_body 30 0 None)
                    30 0 WF)) in E.
    destruct E as [E | E]; vm_compute in E; [now apply E | discriminate E].
Defined.

(** ** Every invocation ends in one of the listed outcomes *)

Section Outcomes.

Lemma decision_test (goal target ml pct : Q) :
  negb (Js.ltb (ml + 50) target || Js.ltb pct 40)
  || Js.leb (Js.Math_max 0 (goal - ml)) 0 = false
  <-> Props.should_notify goal target ml pct.
Proof.
  unfold Props.should_notify.
  rewrite orb_false_iff, negb_false_iff, orb_true_iff, !ltb_lt, leb_gt.
  reflexivity.
Qed.

Lemma decision_test_neg (goal target ml pct : Q) :
  negb (Js.ltb (ml + 50) target || Js.ltb pct 40)
  || Js.leb (Js.Math_max 0 (goal - ml)) 0 = true
  <-> ~ Props.should_notify goal target ml pct.
Proof.
  rewrite <- decision_test.
  destruct (negb _ || _); split; intros; congruence.
Qed.

Lemma V1_handler_run (tz : Z) (w : V1.World) (env : V1.Env)
    (st : gmap string Z) (req : V1.Request) :
  Props.V1_run tz w env st req (V1.handler tz w env st req).
Proof.
  unfold V1.handler.
  destruct (String.eqb (V1.method req) "POST") eqn:Hm; cbn [negb].
  2: { apply Props.V1_not_post. now apply String.eqb_neq. }
  apply String.eqb_eq in Hm.
  destruct (V1.body req) as [b |] eqn:Hb.
  2: { now apply Props.V1_bad_body. }
  destruct (V1.pct b) as [pct |] eqn:Hp.
  2: { apply Props.V1_no_reading with (b := b); auto. }
  destruct (V1.ml b) as [ml |] eqn:Hl.
  2: { apply Props.V1_no_reading with (b := b); auto. }
  destruct (Js.falsy (V1.CHAT_ID env)) eqn:Hc; cbn [orb].
  { apply Props.V1_no_credentials with (b := b); auto; rewrite ?Hp, ?Hl; eauto. }
  destruct (Js.falsy (V1.BOT_TOKEN env)) eqn:Ht.
  { apply Props.V1_no_credentials with (b := b); auto; rewrite ?Hp, ?Hl; eauto. }
  assert (Props.V1_well_formed env req b pct ml) as WF by (repeat split; assumption).
  cbv zeta.
  destruct ((V1.QUIET_START <=? Js.getHours tz (V1.clk_now w))%Z
            || (Js.getHours tz (V1.clk_now w) <? V1.QUIET_END)%Z) eqn:Hq.
  { apply quiet_test_V1 in Hq. now apply Props.V1_in_quiet_hours with b pct ml. }
  assert (~ Props.quiet 23 7 (Js.getHours tz (V1.clk_now w))) as NQ
    by (rewrite <- quiet_test_V1; congruence).
  change (V1.computeContext tz (default V1.empty_profile (V1.profile b))
            (V1.clk_now w) (V1.clk_sleep_default w))
    with (Props.V1_context tz w b).
  rewrite (surjective_pairing (Props.V1_context tz w b)).
  change (default "" (V1.CHAT_ID env)) with (Props.V1_chat env).
  change (default "" (V1.BOT_TOKEN env)) with (Props.V1_token env).
  destruct (Z.ltb_spec (V1.clk_rate w - default 0%Z (st !! Props.V1_chat env))
              (V1.MIN_INTERVAL_MIN * 60 * 1000)) as [Hr | Hr].
  { now apply Props.V1_in_cooldown with b pct ml. }
  assert (~ Props.V1_cooling w env st) as NC by (unfold Props.V1_cooling; lia).
  fold (Props.V1_goal tz w b). fold (Props.V1_target tz w b).
  destruct (negb (Js.ltb (ml + 50) (Props.V1_target tz w b) || Js.ltb pct 40)
            || Js.leb (Js.Math_max 0 (Props.V1_goal tz w b - ml)) 0) eqn:Hd.
  { apply decision_test_neg in Hd. now apply Props.V1_on_track with b pct ml. }
  apply decision_test in Hd.
  destruct (V1.send_resolves w) eqn:Hs.
  - now apply Props.V1_sent with (pct := pct).
  - now apply Props.V1_send_failed with (pct := pct).
Qed.

Lemma V2_handler_run (tz : Z) (w : V2.World) (env : V2.Env)
    (st : gmap string Z) (req : V2.Request) :
  Props.V2_run tz w env st req (V2.handler tz w env st req).
Proof.
  unfold V2.handler.
  destruct (String.eqb (V2.method req) "POST") eqn:Hm; cbn [negb].
  2: { apply Props.V2_not_post. now apply String.eqb_neq. }
  apply String.eqb_eq in Hm. cbv zeta.
  change (V2.BOT_TOKEN (V2.getConfig env)) with (V2.env_BOT_TOKEN env).
  change (V2.CHAT_ID (V2.getConfig env)) with (V2.env_CHAT_ID env).
  destruct (Js.falsy (V2.env_BOT_TOKEN env)) eqn:Ht; cbn [orb].
  { apply Props.V2_no_credentials; auto. }
  destruct (Js.falsy (V2.env_CHAT_ID env)) eqn:Hc.
  { apply Props.V2_no_credentials; auto. }
  destruct (V2.body req) as [b |] eqn:Hb.
  2: { now apply Props.V2_bad_body. }
  destruct (V2.ml b) as [ml |] eqn:Hl.
  2: { apply Props.V2_no_reading with (b := b); auto. }
  destruct (V2.pct b) as [pct |] eqn:Hp.
  2: { apply Props.V2_no_reading with (b := b); auto. }
  assert (Props.V2_well_formed env req b pct ml) as WF by (repeat split; assumption).
  destruct (Js.geb (inject_Z (Js.getHours tz (V2.clk_now w)))
              (V2.QUIET_START (V2.getConfig env))
            || Js.ltb (inject_Z (Js.getHours tz (V2.clk_now w)))
                 (V2.QUIET_END (V2.getConfig env))) eqn:Hq.
  { apply quiet_test_Q in Hq. now apply Props.V2_in_quiet_hours with b pct ml. }
  assert (~ Props.V2_quiet tz w env) as NQ
    by (unfold Props.V2_quiet; rewrite <- quiet_test_Q; congruence).
  change (default "" (V2.env_CHAT_ID env)) with (Props.V2_chat env).
  change (default "" (V2.env_BOT_TOKEN env)) with (Props.V2_token env).
  destruct (Js.ltb (inject_Z (V2.clk_rate w - default 0%Z (st !! Props.V2_chat env)))
              (V2.MIN_INTERVAL_MIN (V2.getConfig env) * 60 * 1000)) eqn:Hr.
  { apply ltb_lt in Hr. now apply Props.V2_in_cooldown with b pct ml. }
  assert (~ Props.V2_cooling w env st) as NC
    by (unfold Props.V2_cooling; rewrite <- ltb_lt; congruence).
  fold (Props.V2_goal env). fold (Props.V2_schedule tz w env).
  fold (Props.V2_target tz w env).
  destruct (negb (Js.ltb (ml + 50) (Props.V2_target tz w env) || Js.ltb pct 40)
            || Js.leb (Js.Math_max 0 (Props.V2_goal env - ml)) 0) eqn:Hd.
  { apply decision_test_neg in Hd. now apply Props.V2_on_track with b pct ml. }
  apply decision_test in Hd.
  fold (Props.V2_sip tz w env ml).
  destruct (Js.falsy (V2.env_OPENAI_API_KEY env));
    destruct (V2.send_resolves w) eqn:Hs.
  - apply (Props.V2_sent tz w env st req b pct ml []); auto. now left.
  - apply (Props.V2_send_failed tz w env st req b pct ml []); auto. now left.
  - apply (Props.V2_sent tz w env st req b pct ml [OpenAiRequest _]); auto.
    right. eauto.
  - apply (Props.V2_send_failed tz w env st req b pct ml [OpenAiRequest _]); auto.
    right. eauto.
Qed.

End Outcomes.

(** ** Well-formed requests: the five outcomes *)

Section WellFormed.

Lemma V1_same_reading (env : V1.Env) (req : V1.Request) (b b' : V1.Body)
    (pct ml pct' ml' : Q) :
  Props.V1_well_formed env req b pct ml ->
  Props.V1_well_formed env req b' pct' ml' ->
  b' = b /\ pct' = pct /\ ml' = ml.
Proof.
  intros (_ & Hb & Hp & Hl & _) (_ & Hb' & Hp' & Hl' & _).
  assert (b' = b) as -> by congruence.
  repeat split; congruence.
Qed.

Lemma V2_same_reading (env : V2.Env) (req : V2.Request) (b b' : V2.Body)
    (pct ml pct' ml' : Q) :
  Props.V2_well_formed env req b pct ml ->
  Props.V2_well_formed env req b' pct' ml' ->
  b' = b /\ pct' = pct /\ ml' = ml.
Proof.
  intros (_ & Hb & Hp & Hl & _) (_ & Hb' & Hp' & Hl' & _).
  assert (b' = b) as -> by congruence.
  repeat split; congruence.
Qed.

Lemma V1_well_formed_run (tz : Z) (w : V1.World) (env : V1.Env)
    (st : gmap string Z) (req : V1.Request) (b : V1.Body) (pct ml : Q) :
  Props.V1_well_formed env req b pct ml ->
  let quiet := Props.quiet 23 7 (Js.getHours tz (V1.clk_now w)) in
  let cooling := Props.V1_cooling w env st in
  let notify :=
    Props.should_notify (Props.V1_goal tz w b) (Props.V1_target tz w b) ml pct in
  let r := V1.handler tz w env st req in
  (quiet /\ r = V1.reply (V1.Skipped quiet_hours) st)
  \/ (~ quiet /\ cooling /\ r = V1.reply (V1.Skipped interval) st)
  \/ (~ quiet /\ ~ cooling /\ ~ notify
      /\ r = V1.reply (V1.Skipped on_track_or_done) st)
  \/ (~ quiet /\ ~ cooling /\ notify /\ V1.send_resolves w = true
      /\ r = {| V1.response :=
                  V1.Notified (Props.V1_goal tz w b) (Props.V1_sip tz w b ml)
                    (Props.V1_target tz w b);
                V1.lastNotified_after := <[Props.V1_chat env := V1.clk_set w]> st;
                V1.events := [TelegramSend (Props.V1_token env) (Props.V1_chat env)
                                (Props.V1_text tz w b ml);
                              LastNotifiedSet (Props.V1_chat env) (V1.clk_set w)] |})
  \/ (~ quiet /\ ~ cooling /\ notify /\ V1.send_resolves w = false
      /\ r = {| V1.response := V1.Error500_server_error;
                V1.lastNotified_after := st;
                V1.events := [TelegramSend (Props.V1_token env) (Props.V1_chat env)
                                (Props.V1_text tz w b ml)] |}).
Proof.
  intros WF quiet cooling notify r. subst quiet cooling notify r.
  pose proof WF as (Hm & Hb & Hp & Hl & Hc & Ht).
  destruct (V1_handler_run tz w env st req)
    as [ H | H1 H2 | b' H1 H2 H3 | b' H1 H2 H3 H4 H5
       | b' pct' ml' WF' Q | b' pct' ml' WF' Q C | b' pct' ml' WF' Q C N
       | b' pct' ml' WF' Q C N S | b' pct' ml' WF' Q C N S ].
  - congruence.
  - congruence.
  - assert (b' = b) as -> by congruence. destruct H3; congruence.
  - destruct H5; congruence.
  - left. auto.
  - right; left. auto.
  - destruct (V1_same_reading _ _ _ _ _ _ _ _ WF WF') as (-> & -> & ->).
    right; right; left. auto.
  - destruct (V1_same_reading _ _ _ _ _ _ _ _ WF WF') as (-> & -> & ->).
    right; right; right; left. auto.
  - destruct (V1_same_reading _ _ _ _ _ _ _ _ WF WF') as (-> & -> & ->).
    right; right; right; right. auto.
Qed.

Lemma V2_well_formed_run (tz : Z) (w : V2.World) (env : V2.Env)
    (st : gmap string Z) (req : V2.Request) (b : V2.Body) (pct ml : Q) :
  Props.V2_well_formed env req b pct ml ->
  let quiet := Props.V2_quiet tz w env in
  let cooling := Props.V2_cooling w env st in
  let notify :=
    Props.should_notify (Props.V2_goal env) (Props.V2_target tz w env) ml pct in
  let r := V2.handler tz w env st req in
  (quiet /\ r = V2.reply (V2.Skipped quiet_hours None) st)
  \/ (~ quiet /\ cooling /\ r = V2.reply (V2.Skipped interval None) st)
  \/ (~ quiet /\ ~ cooling /\ ~ notify
      /\ r = V2.reply (V2.Skipped on_track_or_done
                         (Some (Props.V2_goal env, Props.V2_target tz w env))) st)
  \/ (~ quiet /\ ~ cooling /\ notify /\ V2.send_resolves w = true
      /\ exists asked text,
           Props.only_asks asked
           /\ r = {| V2.response :=
                       V2.Notified (Props.V2_goal env) (Props.V2_target tz w env)
                         (Props.V2_sip tz w env ml);
                     V2.lastNotified_after :=
                       <[Props.V2_chat env := V2.clk_set w]> st;
                     V2.events :=
                       asked ++ [TelegramSend (Props.V2_token env)
                                   (Props.V2_chat env) text;
                                 LastNotifiedSet (Props.V2_chat env)
                                   (V2.clk_set w)] |})
  \/ (~ quiet /\ ~ cooling /\ notify /\ V2.send_resolves w = false
      /\ exists asked text,
           Props.only_asks asked
           /\ r = {| V2.response := V2.Error500_server_error;
                     V2.lastNotified_after := st;
                     V2.events :=
                       asked ++ [TelegramSend (Props.V2_token env)
                                   (Props.V2_chat env) text] |}).
Proof.
  intros WF quiet cooling notify r. subst quiet cooling notify r.
  pose proof WF as (Hm & Hb & Hp & Hl & Hc & Ht).
  destruct (V2_handler_run tz w env st req)
    as [ H | H1 H2 | H1 H2 H3 H4 | b' H1 H2 H3 H4 H5
       | b' pct' ml' WF' Q | b' pct' ml' WF' Q C | b' pct' ml' WF' Q C N
       | b' pct' ml' asked text WF' Q C N S A
       | b' pct' ml' asked text WF' Q C N S A ].
  - congruence.
  - destruct H2; congruence.
  - congruence.
  - assert (b' = b) as -> by congruence. destruct H5; congruence.
  - left. auto.
  - right; left. auto.
  - destruct (V2_same_reading _ _ _ _ _ _ _ _ WF WF') as (-> & -> & ->).
    right; right; left. auto.
  - destruct (V2_same_reading _ _ _ _ _ _ _ _ WF WF') as (-> & -> & ->).
    right; right; right; left. do 4 (split; [assumption |]).
    exists asked, text. auto.
  - destruct (V2_same_reading _ _ _ _ _ _ _ _ WF WF') as (-> & -> & ->).
    right; right; right; right. do 4 (split; [assumption |]).
    exists asked, text. auto.
Qed.

End WellFormed.

(** ** C1: the notify decision *)


Lemma sent_after_asking {T} (asked : list (Event T)) (rest : list (Event T)) :
  Props.only_asks asked -> Props.sent (asked ++ rest) = Props.sent rest.
Proof.
  intros [-> | [key ->]]; reflexivity.
Qed.



(** ** C9: when the NotificationState is written *)

Section StoreDiscipline.

Lemma V1_run_store (tz : Z) (w : V1.World) (env : V1.Env) (st : gmap string Z)
    (req : V1.Request) (r : V1.Result) :
  Props.V1_run tz w env st req r ->
  Props.set_after_send false (V1.events r) = true
  /\ (Props.V1_notified (V1.response r) = true ->
      Props.sent (V1.events r) = true
      /\ Props.stored (V1.events r) = true
      /\ V1.lastNotified_after r = <[Props.V1_chat env := V1.clk_set w]> st)
  /\ (Props.V1_notified (V1.response r) = false ->
      Props.stored (V1.events r) = false /\ V1.lastNotified_after r = st).
Proof.
  intros R. destruct R; cbn; repeat split; congruence.
Qed.

Lemma V2_run_store (tz : Z) (w : V2.World) (env : V2.Env) (st : gmap string Z)
    (req : V2.Request) (r : V2.Result) :
  Props.V2_run tz w env st req r ->
  Props.set_after_send false (V2.events r) = true
  /\ (Props.V2_notified (V2.response r) = true ->
      Props.sent (V2.events r) = true
      /\ Props.stored (V2.events r) = true
      /\ V2.lastNotified_after r = <[Props.V2_chat env := V2.clk_set w]> st)
  /\ (Props.V2_notified (V2.response r) = false ->
      Props.stored (V2.events r) = false /\ V2.lastNotified_after r = st).
Proof.
  intros R. destruct R; cbn;
    try match goal with
        | A : Props.only_asks _ |- _ => destruct A as [-> | [key ->]]; cbn
        end;
    repeat split; congruence.
Qed.

End StoreDiscipline.

(** C9.  In every invocation of the rule-based handlers every write to the
    NotificationState comes after the outbound send of the same invocation;
    an invocation that answers notified has issued the send and has written
    the recipient's entry (and nothing else); every other answer (405, 400,
    500, any skip) comes with no write and the map as it was. *)
Theorem lastNotified_written_after_send :
  (forall tz w env st req,
     let r := V1.handler tz w env st req in
     Props.set_after_send false (V1.events r) = true
     /\ (Props.V1_notified (V1.response r) = true ->
         Props.sent (V1.events r) = true
         /\ Props.stored (V1.events r) = true
         /\ V1.lastNotified_after r = <[Props.V1_chat env := V1.clk_set w]> st)
     /\ (Props.V1_notified (V1.response r) = false ->
         Props.stored (V1.events r) = false /\ V1.lastNotified_after r = st))
  /\ (forall tz w env st req,
        let r := V2.handler tz w env st req in
        Props.set_after_send false (V2.events r) = true
        /\ (Props.V2_notified (V2.response r) = true ->
            Props.sent (V2.events r) = true
            /\ Props.stored (V2.events r) = true
            /\ V2.lastNotified_after r = <[Props.V2_chat env := V2.clk_set w]> st)
        /\ (Props.V2_notified (V2.response r) = false ->
            Props.stored (V2.events r) = false /\ V2.lastNotified_after r = st)).
Proof.
  split; intros tz w env st req r.
  - apply (V1_run_store tz w env st req). apply V1_handler_run.
  - apply (V2_run_store tz w env st req). apply V2_handler_run.
Qed.

(** A notified reading at noon writes the entry; a GET does not. *)
Lemma lastNotified_written_after_send_witness :
  V1.lastNotified_after
    (V1.handler 0 (Samples.V1_at Samples.noon) Samples.V1_env ∅
       (Samples.V1_post 30 0 None))
  = <["1001" := Samples.noon]> ∅
  /\ V1.lastNotified_after
       (V1.handler 0 (Samples.V1_at Samples.noon) Samples.V1_env
          (<["1001" := 0%Z]> ∅)
          {| V1.method := "GET"; V1.body := None |})
     = <["1001" := 0%Z]> ∅.
Proof.
  destruct lastNotified_written_after_send as [H _].
  split.
  - apply (H 0%Z (Samples.V1_at Samples.noon) Samples.V1_env ∅
             (Samples.V1_post 30 0 None)).
    reflexivity.
  - apply (H 0%Z (Samples.V1_at Samples.noon) Samples.V1_env
             (<["1001" := 0%Z]> ∅) {| V1.method := "GET"; V1.body := None |}).
    reflexivity.
Defined.

(** ** C6: the size of the recommended sip *)

Section SipSizing.






End SipSizing.




(** ** C10: the [now] object after [computeContext] *)

Section SharedNow.





End SharedNow.



(** ** C5: the cooldown *)

Section Cooldown.

Lemma V1_cooling_after (w1 w2 : V1.World) (env : V1.Env) (st : gmap string Z) :
  Props.V1_cooling w2 env (<[Props.V1_chat env := V1.clk_set w1]> st)
  <-> (V1.clk_rate w2 - V1.clk_set w1 < 30 * 60 * 1000)%Z.
Proof.
  unfold Props.V1_cooling. rewrite lookup_insert_eq. reflexivity.
Qed.

Lemma V2_cooling_after (w1 w2 : V2.World) (env : V2.Env) (st : gmap string Z) :
  Props.V2_cooling w2 env (<[Props.V2_chat env := V2.clk_set w1]> st)
  <-> inject_Z (V2.clk_rate w2 - V2.clk_set w1)
      < V2.MIN_INTERVAL_MIN (V2.getConfig env) * 60 * 1000.
Proof.
  unfold Props.V2_cooling. rewrite lookup_insert_eq. reflexivity.
Qed.

Lemma V1_interval_iff (tz : Z) (w : V1.World) (env : V1.Env)
    (st : gmap string Z) (req : V1.Request) (b : V1.Body) (pct ml : Q) :
  Props.V1_well_formed env req b pct ml ->
  ~ Props.quiet 23 7 (Js.getHours tz (V1.clk_now w)) ->
  (Props.V1_cooling w env st ->
   V1.handler tz w env st req = V1.reply (V1.Skipped interval) st)
  /\ (~ Props.V1_cooling w env st ->
      V1.response (V1.handler tz w env st req) <> V1.Skipped interval).
Proof.
  intros WF NQ.
  destruct (V1_well_formed_run tz w env st req b pct ml WF)
    as [(Q & _) | [(_ & C & R) | [(_ & NC & _ & R)
       | [(_ & NC & _ & _ & R) | (_ & NC & _ & _ & R)]]]];
    try contradiction; split; intros H; try contradiction;
    rewrite R; (reflexivity || discriminate).
Qed.

Lemma V2_interval_iff (tz : Z) (w : V2.World) (env : V2.Env)
    (st : gmap string Z) (req : V2.Request) (b : V2.Body) (pct ml : Q) :
  Props.V2_well_formed env req b pct ml ->
  ~ Props.V2_quiet tz w env ->
  (Props.V2_cooling w env st ->
   V2.handler tz w env st req = V2.reply (V2.Skipped interval None) st)
  /\ (~ Props.V2_cooling w env st ->
      Props.V2_skipped (V2.response (V2.handler tz w env st req))
      <> Some interval).
Proof.
  intros WF NQ.
  destruct (V2_well_formed_run tz w env st req b pct ml WF)
    as [(Q & _) | [(_ & C & R) | [(_ & NC & _ & R)
       | [(_ & NC & _ & _ & asked & text & _ & R)
         | (_ & NC & _ & _ & asked & text & _ & R)]]]];
    try contradiction; split; intros H; try contradiction;
    rewrite R; (reflexivity || discriminate).
Qed.

End Cooldown.

(** C5 (as amended).  After a call that answered notified, every well-formed
    call for the same recipient made outside quiet hours less than
    min_interval_minutes (default 30) after the write of the first is
    answered skipped "interval", whatever the reading, and the map stays as
    it was; from min_interval_minutes on it is not.  With no entry for the
    recipient the cooldown counts as elapsed, the clock being at least one
    interval past the epoch.  The entry is written only by a call that
    answers notified. *)
Theorem cooldown_after_notification :
  (forall tz w1 w2 env st req1 req2 b pct ml,
     let r1 := V1.handler tz w1 env st req1 in
     Props.V1_notified (V1.response r1) = true ->
     Props.V1_well_formed env req2 b pct ml ->
     ~ Props.quiet 23 7 (Js.getHours tz (V1.clk_now w2)) ->
     ((V1.clk_rate w2 - V1.clk_set w1 < 30 * 60 * 1000)%Z ->
      V1.handler tz w2 env (V1.lastNotified_after r1) req2
      = V1.reply (V1.Skipped interval) (V1.lastNotified_after r1))
     /\ ((30 * 60 * 1000 <= V1.clk_rate w2 - V1.clk_set w1)%Z ->
         V1.response (V1.handler tz w2 env (V1.lastNotified_after r1) req2)
         <> V1.Skipped interval))
  /\ (forall tz w env st req b pct ml,
        Props.V1_well_formed env req b pct ml ->
        ~ Props.quiet 23 7 (Js.getHours tz (V1.clk_now w)) ->
        st !! Props.V1_chat env = None ->
        (30 * 60 * 1000 <= V1.clk_rate w)%Z ->
        V1.response (V1.handler tz w env st req) <> V1.Skipped interval)
  /\ (forall tz w env st req,
        V1.lastNotified_after (V1.handler tz w env st req) <> st ->
        Props.V1_notified (V1.response (V1.handler tz w env st req)) = true)
  /\ (forall tz w1 w2 env st req1 req2 b pct ml,
        let r1 := V2.handler tz w1 env st req1 in
        Props.V2_notified (V2.response r1) = true ->
        Props.V2_well_formed env req2 b pct ml ->
        ~ Props.V2_quiet tz w2 env ->
        (inject_Z (V2.clk_rate w2 - V2.clk_set w1)
         < V2.MIN_INTERVAL_MIN (V2.getConfig env) * 60 * 1000 ->
         V2.handler tz w2 env (V2.lastNotified_after r1) req2
         = V2.reply (V2.Skipped interval None) (V2.lastNotified_after r1))
        /\ (V2.MIN_INTERVAL_MIN (V2.getConfig env) * 60 * 1000
            <= inject_Z (V2.clk_rate w2 - V2.clk_set w1) ->
            Props.V2_skipped
              (V2.response (V2.handler tz w2 env (V2.lastNotified_after r1) req2))
            <> Some interval))
  /\ (forall env, V2.env_MIN_INTERVAL_MIN env = None ->
                  V2.MIN_INTERVAL_MIN (V2.getConfig env) = 30).
Proof.
  split; [| split; [| split; [| split]]].
  - intros tz w1 w2 env st req1 req2 b pct ml r1 N WF NQ.
    destruct (V1_run_store tz w1 env st req1 r1 (V1_handler_run _ _ _ _ _))
      as (_ & S & _).
    destruct (S N) as (_ & _ & ->).
    destruct (V1_interval_iff tz w2 env (<[Props.V1_chat env := V1.clk_set w1]> st)
                req2 b pct ml WF NQ) as [I1 I2].
    split; intros H.
    + apply I1. now apply V1_cooling_after.
    + apply I2. rewrite V1_cooling_after. clear - H. lia.
  - intros tz w env st req b pct ml WF NQ Hs Hc.
    apply (V1_interval_iff tz w env st req b pct ml WF NQ).
    unfold Props.V1_cooling, V1.MIN_INTERVAL_MIN. rewrite Hs. cbn.
    clear - Hc. lia.
  - intros tz w env st req H.
    destruct (V1_run_store tz w env st req _ (V1_handler_run tz w env st req))
      as (_ & _ & S).
    destruct (Props.V1_notified (V1.response (V1.handler tz w env st req)));
      [reflexivity |].
    now destruct (S eq_refl) as [_ E].
  - intros tz w1 w2 env st req1 req2 b pct ml r1 N WF NQ.
    destruct (V2_run_store tz w1 env st req1 r1 (V2_handler_run _ _ _ _ _))
      as (_ & S & _).
    destruct (S N) as (_ & _ & ->).
    destruct (V2_interval_iff tz w2 env (<[Props.V2_chat env := V2.clk_set w1]> st)
                req2 b pct ml WF NQ) as [I1 I2].
    split; intros H.
    + apply I1. now apply V2_cooling_after.
    + apply I2. rewrite V2_cooling_after. lra.
  - intros env H. unfold V2.getConfig; cbn. now rewrite H.
Qed.

(** One minute after a notified reading, a reading of 5% is rate-limited. *)
Lemma cooldown_after_notification_witness :
  let r1 :=
    V1.handler 0 (Samples.V1_at Samples.noon) Samples.V1_env ∅
      (Samples.V1_post 30 0 None) in
  V1.response
    (V1.handler 0 (Samples.V1_at (Samples.noon + 60000)) Samples.V1_env
       (V1.lastNotified_after r1) (Samples.V1_post 5 0 None))
  = V1.Skipped interval.
Proof.
  intros r1.
  destruct cooldown_after_notification as (H & _).
  destruct (H 0%Z (Samples.V1_at Samples.noon)
              (Samples.V1_at (Samples.noon + 60000)) Samples.V1_env ∅
              (Samples.V1_post 30 0 None) (Samples.V1_post 5 0 None)
              (Samples.V1_body 5 0 None) 5 0) as [H1 _].
  - reflexivity.
  - repeat split.
  - intros [E | E]; vm_compute in E; [now apply E | discriminate E].
  - fold r1 in H1. rewrite H1; reflexivity.
Defined.

(** C5, counterexample.  Two calls one minute apart, both outside quiet
    hours: the first reading is on track and is skipped, the second is not
    answered "interval" but notified. *)
Lemma second_call_within_interval_notified :
  let r1 :=
    V1.handler 0 (Samples.V1_at Samples.noon) Samples.V1_env ∅
      (Samples.V1_post 100 2300 None) in
  let r2 :=
    V1.handler 0 (Samples.V1_at (Samples.noon + 60000)) Samples.V1_env
      (V1.lastNotified_after r1) (Samples.V1_post 30 0 None) in
  (Samples.noon + 60000 - Samples.noon < 30 * 60 * 1000)%Z
  /\ Js.getHours 0 Samples.noon = 12%Z
  /\ Js.getHours 0 (Samples.noon + 60000) = 12%Z
  /\ V1.response r1 = V1.Skipped on_track_or_done
  /\ Props.V1_notified (V1.response r2) = true
  /\ V1.response r2 <> V1.Skipped interval.
Proof.
  cbv zeta. repeat split. vm_compute. discriminate.
Qed.

(** ** C7: the activity level *)

Section ActivityLevel.



Lemma normalizeActivity_level (s : string) : Props.is_level (V3.normalizeActivity s).
Proof.
  unfold V3.normalizeActivity, Props.is_level. cbv zeta.
  destruct (Js.includes _ "heavy"); [now exists Heavy |].
  destruct (Js.includes _ "moderate"); [now exists Moderate |].
  destruct (Js.includes _ "sedentary"); [now exists Sedentary |].
  destruct (Js.includes _ "light"); [now exists Light |].
  destruct (_ || _ || _ || _ || _); [now exists Heavy |].
  destruct (_ || _ || _ || _); [now exists Moderate | now exists Light].
Qed.




End ActivityLevel.

(** ** The planner, case by case *)

Section Planner.


End Planner.






(** ** C8: the sanitised plan and the fallback *)

Section Sanitizing.





Lemma clamp_integer (z lo hi : Z) :
  Js.clamp (inject_Z z) (inject_Z lo) (inject_Z hi)
  = inject_Z (Z.max lo (Z.min z hi)).
Proof.
  unfold Js.clamp.
  destruct (Math_min_cases (inject_Z z) (inject_Z hi)) as [[H1 ->] | [H1 ->]].
  - rewrite <- Zle_Qle in H1. rewrite Z.min_l by exact H1.
    destruct (Math_max_cases (inject_Z lo) (inject_Z z)) as [[H2 ->] | [H2 ->]].
    + rewrite <- Zle_Qle in H2. now rewrite Z.max_r.
    + rewrite <- Zlt_Qlt in H2. rewrite Z.max_l by lia. reflexivity.
  - rewrite <- Zlt_Qlt in H1. rewrite Z.min_r by lia.
    destruct (Math_max_cases (inject_Z lo) (inject_Z hi)) as [[H2 ->] | [H2 ->]].
    + rewrite <- Zle_Qle in H2. now rewrite Z.max_r.
    + rewrite <- Zlt_Qlt in H2. rewrite Z.max_l by lia. reflexivity.
Qed.

Lemma flatAdd_integer (activity : string) :
  exists k : Z, V3.flatAdd activity = inject_Z k.
Proof.
  unfold V3.flatAdd.
  destruct (String.eqb activity "Sedentary"); [now exists 0%Z |].
  destruct (String.eqb activity "Light"); [now exists 400%Z |].
  destruct (String.eqb activity "Moderate"); [now exists 800%Z |].
  destruct (String.eqb activity "Heavy"); [now exists 1200%Z | now exists 400%Z].
Qed.


End Sanitizing.




(** * Further properties of the code *)

(** ** [clamp] *)

Section Clamp.

Lemma Math_min_mono (a a' b : Q) : a <= a' -> Js.Math_min a b <= Js.Math_min a' b.
Proof.
  intros H.
  destruct (Math_min_cases a b) as [[H1 ->] | [H1 ->]];
    destruct (Math_min_cases a' b) as [[H2 ->] | [H2 ->]]; lra.
Qed.

Lemma Math_max_mono (a b b' : Q) : b <= b' -> Js.Math_max a b <= Js.Math_max a b'.
Proof.
  intros H.
  destruct (Math_max_cases a b) as [[H1 ->] | [H1 ->]];
    destruct (Math_max_cases a b') as [[H2 ->] | [H2 ->]]; lra.
Qed.

Lemma clamp_mono (v v' lo hi : Q) :
  v <= v' -> Js.clamp v lo hi <= Js.clamp v' lo hi.
Proof.
  intros H. unfold Js.clamp. apply Math_max_mono. now apply Math_min_mono.
Qed.

Lemma clamp_inverted (v lo hi : Q) : hi < lo -> Js.clamp v lo hi = lo.
Proof.
  intros H. unfold Js.clamp.
  destruct (Math_min_cases v hi) as [[H1 E1] | [H1 E1]]; rewrite E1;
    [destruct (Math_max_cases lo v) as [[H2 E2] | [H2 E2]]
    | destruct (Math_max_cases lo hi) as [[H2 E2] | [H2 E2]]];
    rewrite E2; try reflexivity; lra.
Qed.

End Clamp.

(** X1.  [clamp(v, lo, hi)] with lo <= hi lies within [lo, hi], is v itself
    when v lies there, lo below and hi above, and clamping twice is clamping
    once; it is non-decreasing in v; with the bounds inverted (hi < lo) it is
    lo whatever v. *)
Theorem clamp_contract :
  forall v lo hi : Q,
    (lo <= hi ->
     lo <= Js.clamp v lo hi <= hi
     /\ (lo <= v <= hi -> Js.clamp v lo hi == v)
     /\ (v <= lo -> Js.clamp v lo hi == lo)
     /\ (hi <= v -> Js.clamp v lo hi == hi)
     /\ Js.clamp (Js.clamp v lo hi) lo hi == Js.clamp v lo hi)
    /\ (forall v', v <= v' -> Js.clamp v lo hi <= Js.clamp v' lo hi)
    /\ (hi < lo -> Js.clamp v lo hi = lo).
Proof.
  intros v lo hi. split; [| split].
  - intros H. pose proof (clamp_range v lo hi H) as R.
    split; [exact R |].
    split; [now apply clamp_id |].
    split; [now apply clamp_low |].
    split; [now apply clamp_high |].
    now apply clamp_id.
  - intros v'. apply clamp_mono.
  - apply clamp_inverted.
Qed.

Lemma clamp_contract_witness :
  Js.clamp 5000 1200 4000 == 4000 /\ Js.clamp 350 1200 4000 == 1200
  /\ Js.clamp 7 10 0 = 10.
Proof.
  destruct (clamp_contract 5000 1200 4000) as [H _].
  destruct (H ltac:(discriminate)) as (_ & _ & _ & Hhi & _).
  destruct (clamp_contract 350 1200 4000) as [H' _].
  destruct (H' ltac:(discriminate)) as (_ & _ & Hlo & _).
  destruct (clamp_contract 7 10 0) as (_ & _ & Hinv).
  split; [apply Hhi; discriminate |].
  split; [apply Hlo; discriminate |].
  apply Hinv. reflexivity.
Defined.

(** ** Parsing "HH:MM" *)

Section ParseHM.

Lemma digit_range (c : ascii) :
  Js.is_digit c = true -> (0 <= Js.digit_val c <= 9)%Z.
Proof.
  unfold Js.is_digit, Js.digit_val. cbv zeta.
  rewrite andb_true_iff, !Nat.leb_le. lia.
Qed.


Lemma V2_matchHM_range (s : string) (h m : Z) :
  V2.matchHM s = Some (h, m) -> (0 <= h <= 99)%Z /\ (0 <= m <= 99)%Z.
Proof.
  unfold V2.matchHM.
  destruct s as [| a [| b [| c [| d [| e [| x r]]]]]]; try discriminate;
    repeat (match goal with
            | |- context [match ?c with Ascii _ _ _ _ _ _ _ _ => _ end] =>
                is_var c; destruct c as [? ? ? ? ? ? ? ?]
            | |- context [if ?b then _ else _] => is_var b; destruct b
            end; cbv beta iota);
    try discriminate;
    match goal with
    | |- (if ?c then _ else _) = _ -> _ =>
        destruct c eqn:D; [| discriminate];
        rewrite !andb_true_iff in D;
        intros E; injection E as <- <-;
        repeat match goal with
               | H : _ /\ _ |- _ => destruct H
               | H : Js.is_digit _ = true |- _ => apply digit_range in H
               end;
        lia
    end.
Qed.

Lemma setHours_anywhere (tz t h m : Z) :
  let k := (h * Js.msPerHour + m * Js.msPerMinute)%Z in
  Extra.local_day tz (Js.setHours tz t h m)
  = (Extra.local_day tz t + k / Js.msPerDay)%Z
  /\ Extra.local_ms tz (Js.setHours tz t h m) = (k mod Js.msPerDay)%Z.
Proof.
  intros k. unfold Extra.local_day, Extra.local_ms, Js.setHours.
  set (x := (t + tz)%Z).
  assert (Js.msPerDay <> 0)%Z as HM by discriminate.
  pose proof (Z.div_mod x Js.msPerDay HM) as E.
  replace (x - x mod Js.msPerDay + h * Js.msPerHour + m * Js.msPerMinute - tz + tz)%Z
    with (k + (x / Js.msPerDay) * Js.msPerDay)%Z by (subst k; lia).
  split.
  - rewrite Z.div_add by exact HM. lia.
  - now rewrite Z.mod_add by exact HM.
Qed.

Lemma setHours_in_day (tz t h m : Z) :
  (0 <= h <= 23)%Z -> (0 <= m <= 59)%Z ->
  Extra.local_day tz (Js.setHours tz t h m) = Extra.local_day tz t
  /\ Extra.local_ms tz (Js.setHours tz t h m)
     = (h * Js.msPerHour + m * Js.msPerMinute)%Z
  /\ Js.getHours tz (Js.setHours tz t h m) = h.
Proof.
  intros Hh Hm.
  destruct (setHours_anywhere tz t h m) as [D M]. cbv zeta in D, M.
  assert (0 <= h * Js.msPerHour + m * Js.msPerMinute < Js.msPerDay)%Z as K
    by (unfold Js.msPerHour, Js.msPerMinute, Js.msPerDay; lia).
  rewrite Z.div_small in D by exact K. rewrite Z.mod_small in M by exact K.
  split; [lia |]. split; [exact M |].
  unfold Js.getHours. fold (Extra.local_ms tz (Js.setHours tz t h m)).
  rewrite M. unfold Js.msPerHour, Js.msPerMinute.
  symmetry. apply (Z.div_unique _ _ h (m * 60000)); lia.
Qed.

End ParseHM.



(** X3.  The [parseHM] of the environment-configured handlers always
    returns an instant of the local day of its clock reading, whatever the
    string: a string "H:MM" or "HH:MM" gives hour min(h, 23) and minute
    min(m, 59), any other string the default hour and minute. *)
Theorem parseHM_clamped :
  forall tz fresh s defH defM,
    (0 <= defH <= 23)%Z -> (0 <= defM <= 59)%Z ->
    let d := V2.parseHM tz fresh s defH defM in
    V3.parseHM tz fresh s defH defM = d
    /\ Extra.local_day tz d = Extra.local_day tz fresh
    /\ (0 <= Js.getHours tz d <= 23)%Z
    /\ (forall h m,
          V2.matchHM s = Some (h, m) ->
          Js.getHours tz d = Z.min h 23
          /\ Extra.local_ms tz d
             = (Z.min h 23 * Js.msPerHour + Z.min m 59 * Js.msPerMinute)%Z)
    /\ (V2.matchHM s = None ->
        Js.getHours tz d = defH
        /\ Extra.local_ms tz d = (defH * Js.msPerHour + defM * Js.msPerMinute)%Z).
Proof.
  intros tz fresh s defH defM HH HM d. subst d.
  split; [reflexivity |].
  unfold V2.parseHM.
  destruct (V2.matchHM s) as [[h m] |] eqn:E.
  - destruct (V2_matchHM_range s h m E) as [Hh Hm].
    assert (V2.clampZ h 0 23 = Z.min h 23) as -> by (unfold V2.clampZ; lia).
    assert (V2.clampZ m 0 59 = Z.min m 59) as -> by (unfold V2.clampZ; lia).
    destruct (setHours_in_day tz fresh (Z.min h 23) (Z.min m 59))
      as (D & M & G); [lia | lia |].
    split; [exact D |]. split; [rewrite G; lia |].
    split; [| discriminate].
    intros h' m' E'. injection E' as <- <-. auto.
  - destruct (setHours_in_day tz fresh defH defM HH HM) as (D & M & G).
    split; [exact D |]. split; [rewrite G; lia |].
    split; [discriminate | auto].
Qed.

Lemma parseHM_clamped_witness :
  Js.getHours 0 (V2.parseHM 0 Samples.noon "24:75" 7 0) = 23%Z
  /\ Js.getHours 0 (V2.parseHM 0 Samples.noon "seven" 7 0) = 7%Z.
Proof.
  destruct (parseHM_clamped 0%Z Samples.noon "24:75" 7%Z 0%Z)
    as (_ & _ & _ & H & _); [lia | lia |].
  destruct (parseHM_clamped 0%Z Samples.noon "seven" 7%Z 0%Z)
    as (_ & _ & _ & _ & H'); [lia | lia |].
  split.
  - exact (proj1 (H 24%Z 75%Z eq_refl)).
  - exact (proj1 (H' eq_refl)).
Defined.

(** ** [computeContext] *)

(** X4.  For a profile with neither a valid wake_time nor a valid sleep_time,
    and a clock that does not run backwards between the two readings, wake
    is 07:00 of the day of [now], sleep is 23:00 of the day of the second
    reading, and sleep comes sixteen hours after wake plus one day for each
    midnight between the readings: the default day is never degenerate. *)
Theorem default_day_is_sixteen_hours :
  forall tz p now fresh,
    V1.matchHM (V1.p_wake_time p) = None ->
    V1.matchHM (V1.p_sleep_time p) = None ->
    (now <= fresh)%Z ->
    let ctx := fst (V1.computeContext tz p now fresh) in
    Js.getHours tz (V1.wake ctx) = 7%Z
    /\ Js.getHours tz (V1.sleep ctx) = 23%Z
    /\ Extra.local_day tz (V1.wake ctx) = Extra.local_day tz now
    /\ Extra.local_day tz (V1.sleep ctx) = Extra.local_day tz fresh
    /\ (V1.sleep ctx - V1.wake ctx
        = 16 * Js.msPerHour
          + (Extra.local_day tz fresh - Extra.local_day tz now) * Js.msPerDay)%Z
    /\ (V1.wake ctx + 16 * Js.msPerHour <= V1.sleep ctx)%Z.
Proof.
  intros tz p now fresh Hw Hs Hle ctx. subst ctx.
  unfold V1.computeContext, V1.parseHM. rewrite Hw, Hs. cbn [fst V1.wake V1.sleep].
  destruct (setHours_in_day tz now 7 0) as (D1 & M1 & G1); [lia | lia |].
  destruct (setHours_in_day tz fresh 23 0) as (D2 & M2 & G2); [lia | lia |].
  assert (Extra.local_day tz now <= Extra.local_day tz fresh)%Z as Hd
    by (unfold Extra.local_day; apply Z.div_le_mono; [reflexivity | lia]).
  assert (forall t, t + tz = Extra.local_day tz t * Js.msPerDay + Extra.local_ms tz t)%Z
    as Split.
  { intros t. unfold Extra.local_day, Extra.local_ms.
    rewrite (Z.div_mod (t + tz) Js.msPerDay) at 1 by discriminate. lia. }
  pose proof (Split (Js.setHours tz now 7 0)) as S1.
  pose proof (Split (Js.setHours tz fresh 23 0)) as S2.
  rewrite D1, M1 in S1. rewrite D2, M2 in S2.
  unfold Js.msPerHour, Js.msPerMinute, Js.msPerDay in *.
  repeat split; auto; lia.
Qed.

Lemma default_day_is_sixteen_hours_witness :
  (V1.sleep (fst (V1.computeContext 0 V1.empty_profile Samples.noon (Samples.noon + 5)))
   - V1.wake (fst (V1.computeContext 0 V1.empty_profile Samples.noon (Samples.noon + 5)))
   = 16 * Js.msPerHour
     + (Extra.local_day 0 (Samples.noon + 5) - Extra.local_day 0 Samples.noon)
       * Js.msPerDay)%Z.
Proof.
  apply (default_day_is_sixteen_hours 0%Z V1.empty_profile Samples.noon
           (Samples.noon + 5)%Z); [reflexivity | reflexivity | lia].
Defined.

(** X5.  [computeContext] fills every gap: the name and the activity level
    are never empty, the weight and the activity minutes are never zero (a
    missing value and 0 both give the default 60 and 30, any other number,
    also a negative one, is kept), and the age is never 0. *)
Theorem computeContext_fills_gaps :
  forall tz p now fresh,
    let ctx := fst (V1.computeContext tz p now fresh) in
    V1.name ctx <> ""
    /\ V1.activity_level ctx <> ""
    /\ ~ V1.weight_kg ctx == 0
    /\ ~ V1.daily_activity_minutes ctx == 0
    /\ (forall a, V1.age ctx = Some a -> ~ a == 0)
    /\ (forall w, V1.p_weight_kg p = Some w -> ~ w == 0 -> V1.weight_kg ctx = w)
    /\ (forall w, V1.p_weight_kg p = Some w -> w == 0 -> V1.weight_kg ctx = 60)
    /\ (V1.p_weight_kg p = None -> V1.weight_kg ctx = 60)
    /\ (forall n, V1.p_daily_activity_minutes p = Some n -> ~ n == 0 ->
                  V1.daily_activity_minutes ctx = n)
    /\ (V1.p_daily_activity_minutes p = None -> V1.daily_activity_minutes ctx = 30).
Proof.
  intros tz p now fresh ctx. subst ctx. unfold V1.computeContext.
  destruct (V1.parseHM tz now (V1.p_wake_time p));
    cbn [fst V1.name V1.activity_level V1.weight_kg V1.daily_activity_minutes V1.age].
  all: assert (forall x d, d <> "" -> Js.string_or x d <> "") as Hs
      by (intros [x |] d Hd; cbn; [destruct (String.eqb_spec x "") |]; auto).
  all: assert (forall x d, ~ d == 0 -> ~ Js.number_or x d == 0) as Hn
      by (intros [x |] d Hd; cbn; [destruct (Qeq_bool x 0) eqn:E |]; auto;
          now apply Qeq_bool_neq).
  all: repeat split;
    try (apply Hs; discriminate);
    try (apply Hn; intros E; discriminate E).
  all: try (intros a H; destruct (V1.p_age p) as [q |]; [| discriminate];
            destruct (Qeq_bool q 0) eqn:E; [discriminate |];
            injection H as <-; now apply Qeq_bool_neq).
  all: try (intros w -> H; cbn;
            first [ now rewrite (Qeq_eq_bool _ _ H)
                  | destruct (Qeq_bool w 0) eqn:E; [| reflexivity];
                    apply Qeq_bool_eq in E; contradiction ]).
  all: intros ->; reflexivity.
Qed.

Lemma computeContext_fills_gaps_witness :
  V1.weight_kg
    (fst (V1.computeContext 0 Samples.negative_minutes Samples.noon Samples.noon))
  = 70
  /\ V1.daily_activity_minutes
       (fst (V1.computeContext 0 Samples.negative_minutes Samples.noon Samples.noon))
     = -60.
Proof.
  destruct (computeContext_fills_gaps 0%Z Samples.negative_minutes Samples.noon
              Samples.noon) as (_ & _ & _ & _ & _ & Hw & _ & _ & Hn & _).
  split.
  - apply Hw; [reflexivity | intros E; discriminate E].
  - apply Hn; [reflexivity | intros E; discriminate E].
Defined.

(** ** The goal calculator *)

Section GoalBounds.






End GoalBounds.






(** ** The schedule over the day *)

Section OverTheDay.

Lemma pacing_step (m a e : Q) (wake sleep t1 t2 now : Z) :
  (sleep <= wake)%Z ->
  Props.pacing m a e wake sleep t1 t2 now = Extra.step_at wake now.
Proof.
  intros H. unfold Props.pacing, Extra.step_at.
  destruct (Z.leb_spec now wake); [reflexivity |].
  destruct (Z.leb_spec sleep now); [reflexivity | lia].
Qed.





End OverTheDay.

(** X9.  When sleep is not after wake the schedule is a step: the fraction
    is 0 up to wake and 1 after it, in all three copies of the curve. *)
Theorem degenerate_day_is_a_step :
  (forall ctx,
     (V1.sleep ctx <= V1.wake ctx)%Z ->
     forall t,
       V1.fractionAt (V1.computeSchedule ctx) t = Extra.step_at (V1.wake ctx) t)
  /\ (forall tz fw fs level ws ss,
        (V2.parseHM tz fs ss 23 0 <= V2.parseHM tz fw ws 7 0)%Z ->
        forall t,
          V2.fractionAt (V2.makeSchedule tz fw fs level ws ss) t
          = Extra.step_at (V2.parseHM tz fw ws 7 0) t)
  /\ (forall wake sleep,
        (sleep <= wake)%Z ->
        forall t, V3.frac wake sleep t = Extra.step_at wake t).
Proof.
  split; [| split].
  - intros ctx H t. rewrite V1_schedule_shape. now apply pacing_step.
  - intros tz fw fs level ws ss H t. rewrite V2_schedule_shape. cbv zeta.
    now apply pacing_step.
  - intros wake sleep H t. rewrite V3_frac_shape. now apply pacing_step.
Qed.

Lemma degenerate_day_is_a_step_witness :
  V1.fractionAt (V1.computeSchedule Samples.night_owl_ctx) Samples.noon = 1.
Proof.
  destruct degenerate_day_is_a_step as [H _].
  apply (H Samples.night_owl_ctx). discriminate.
Defined.



(** ** The planner handlers, case by case *)

Section PlannerRuns.

Lemma V3_choosePlan_asks (tz : Z) (w : V3.World) (env : V3.Env) (cfg : V3.Config)
    (ctx : V3.AiContext) (today : string) (ml pct : Q) (cm : option Q) (now : Z) :
  snd (V3.choosePlan tz w env cfg ctx today ml pct cm now) = Extra.planner_asks env.
Proof.
  unfold V3.choosePlan, Extra.planner_asks.
  now destruct (Js.falsy (V3.env_OPENAI_API_KEY env)).
Qed.

Lemma V4_choosePlan_asks (tz : Z) (w : V4.World) (env : V3.Env) (cfg : V3.Config)
    (ctx : V3.AiContext) (today : string) (ml pct : Q) (cm : option Q) (now : Z) :
  snd (V4.choosePlan tz w env cfg ctx today ml pct cm now) = Extra.planner_asks env.
Proof.
  unfold V4.choosePlan, Extra.planner_asks.
  now destruct (Js.falsy (V3.env_OPENAI_API_KEY env)).
Qed.

Lemma planner_only_asks (env : V3.Env) : Props.only_asks (Extra.planner_asks env).
Proof.
  unfold Extra.planner_asks.
  destruct (Js.falsy (V3.env_OPENAI_API_KEY env)); [now left | right; eauto].
Qed.

Lemma goes_test (plan : V3.Plan) (ml : Q) :
  negb (V3.should_notify plan) || Js.leb (Js.Math_max 0 (V3.goal_ml plan - ml)) 0
  = false <-> Props.V3_goes plan ml.
Proof.
  unfold Props.V3_goes.
  rewrite orb_false_iff, negb_false_iff, leb_gt. reflexivity.
Qed.

Lemma V3_exact_run (tz : Z) (w : V3.World) (env : V3.Env)
    (st : gmap string Z) (req : V3.Request) (b : V3.Body) (pct ml : Q) :
  Props.V3_well_formed env req b pct ml ->
  let quiet := Props.V3_quiet tz w env in
  let cooling := Props.V3_cooling w env st in
  let plan := Props.V3_plan tz w env b ml pct in
  let text :=
    Extra.plan_message (V3.NAME (V3.getConfig env)) "Hydration check" plan ml in
  let r := V3.handler tz w env st req in
  (quiet /\ r = V3.reply (V3.Skipped quiet_hours None) st)
  \/ (~ quiet /\ cooling /\ r = V3.reply (V3.Skipped interval None) st)
  \/ (~ quiet /\ ~ cooling /\ ~ Props.V3_goes plan ml
      /\ r = {| V3.response := V3.Skipped on_track_or_done (Some plan);
                V3.lastNotified_after := st;
                V3.events := Extra.planner_asks env |})
  \/ (~ quiet /\ ~ cooling /\ Props.V3_goes plan ml
      /\ V3.send_resolves w = true
      /\ r = {| V3.response := V3.Notified plan;
                V3.lastNotified_after := <[Props.V3_chat env := V3.clk_set w]> st;
                V3.events :=
                  Extra.planner_asks env
                  ++ [TelegramSend (Extra.V3_token env) (Props.V3_chat env) text;
                      LastNotifiedSet (Props.V3_chat env) (V3.clk_set w)] |})
  \/ (~ quiet /\ ~ cooling /\ Props.V3_goes plan ml
      /\ V3.send_resolves w = false
      /\ r = {| V3.response := V3.Error500_server_error;
                V3.lastNotified_after := st;
                V3.events :=
                  Extra.planner_asks env
                  ++ [TelegramSend (Extra.V3_token env) (Props.V3_chat env) text] |}).
Proof.
  intros (Hm & Hb & Hp & Hl & Hc & Ht) quiet cooling plan text r.
  subst quiet cooling plan text r.
  unfold V3.handler. cbv zeta.
  change (V3.BOT_TOKEN (V3.getConfig env)) with (V3.env_BOT_TOKEN env).
  change (V3.CHAT_ID (V3.getConfig env)) with (V3.env_CHAT_ID env).
  rewrite Hm, Hb, Hp, Hl, Hc, Ht.
  cbn [String.eqb Ascii.eqb Bool.eqb negb orb].
  destruct (Js.geb (inject_Z (Js.getHours tz (V3.clk_now w)))
              (V3.QUIET_START (V3.getConfig env))
            || Js.ltb (inject_Z (Js.getHours tz (V3.clk_now w)))
                 (V3.QUIET_END (V3.getConfig env))) eqn:Hq.
  { apply quiet_test_Q in Hq. left. auto. }
  assert (~ Props.V3_quiet tz w env) as NQ
    by (unfold Props.V3_quiet; rewrite <- quiet_test_Q; congruence).
  right.
  change (default "" (V3.env_CHAT_ID env)) with (Props.V3_chat env).
  change (default "" (V3.env_BOT_TOKEN env)) with (Extra.V3_token env).
  destruct (Js.ltb (inject_Z (V3.clk_rate w - default 0%Z (st !! Props.V3_chat env)))
              (V3.MIN_INTERVAL_MIN (V3.getConfig env) * 60 * 1000)) eqn:Hr.
  { apply ltb_lt in Hr. left. auto. }
  assert (~ Props.V3_cooling w env st) as NC
    by (unfold Props.V3_cooling; rewrite <- ltb_lt; congruence).
  right.
  fold (Props.V3_today tz w env).
  change {| V3.ctx_name := V3.NAME (V3.getConfig env);
            V3.ctx_age := V3.AGE (V3.getConfig env);
            V3.ctx_weight_kg := V3.WEIGHT_KG (V3.getConfig env);
            V3.ctx_height_cm := V3.HEIGHT_CM (V3.getConfig env);
            V3.ctx_wake_time := V3.WAKE_TIME (V3.getConfig env);
            V3.ctx_sleep_time := V3.SLEEP_TIME (V3.getConfig env);
            V3.ctx_today_activity := Props.V3_today tz w env;
            V3.ctx_clinician_limit_ml := V3.CLINICIAN_LIMIT_ML (V3.getConfig env) |}
    with (Props.V3_ai_context tz w env).
  unfold Props.V3_plan.
  rewrite <- (V3_choosePlan_asks tz w env (V3.getConfig env)
                (Props.V3_ai_context tz w env) (Props.V3_today tz w env)
                ml pct (V3.cm b) (V3.clk_now w)).
  destruct (V3.choosePlan tz w env (V3.getConfig env) (Props.V3_ai_context tz w env)
              (Props.V3_today tz w env) ml pct (V3.cm b) (V3.clk_now w))
    as [plan asked].
  cbn [fst snd].
  destruct (negb (V3.should_notify plan)
            || Js.leb (Js.Math_max 0 (V3.goal_ml plan - ml)) 0) eqn:Hd.
  { left. split; [exact NQ |]. split; [exact NC |].
    split; [rewrite <- goes_test; congruence | reflexivity]. }
  apply goes_test in Hd. right.
  destruct (V3.send_resolves w); [left | right];
    (split; [exact NQ |]; split; [exact NC |]; split; [exact Hd |]);
    split; reflexivity.
Qed.

Lemma V4_exact_run (tz : Z) (w : V4.World) (env : V3.Env)
    (st : gmap string Z) (req : V3.Request) (b : V3.Body) (pct ml : Q) :
  Props.V3_well_formed env req b pct ml ->
  let quiet := Extra.V4_quiet tz w env in
  let cooling := Extra.V4_cooling w env st in
  let plan := Extra.V4_plan tz w env b ml pct in
  let text :=
    Extra.plan_message (V3.NAME (V4.getConfig env)) "Hydration check." plan ml in
  let r := V4.handler tz w env st req in
  (quiet /\ r = V3.reply (V3.Skipped quiet_hours None) st)
  \/ (~ quiet /\ cooling /\ r = V3.reply (V3.Skipped interval None) st)
  \/ (~ quiet /\ ~ cooling /\ ~ Props.V3_goes plan ml
      /\ r = {| V3.response := V3.Skipped on_track_or_done (Some plan);
                V3.lastNotified_after := st;
                V3.events := Extra.planner_asks env |})
  \/ (~ quiet /\ ~ cooling /\ Props.V3_goes plan ml
      /\ is_Some (V4.tg_reply w)
      /\ r = {| V3.response := V3.Notified plan;
                V3.lastNotified_after := <[Props.V3_chat env := V4.clk_set w]> st;
                V3.events :=
                  Extra.planner_asks env
                  ++ [TelegramSend (Extra.V3_token env) (Props.V3_chat env) text;
                      LastNotifiedSet (Props.V3_chat env) (V4.clk_set w)] |})
  \/ (~ quiet /\ ~ cooling /\ Props.V3_goes plan ml
      /\ V4.tg_reply w = None
      /\ r = {| V3.response := V3.Error500_server_error;
                V3.lastNotified_after := st;
                V3.events :=
                  Extra.planner_asks env
                  ++ [TelegramSend (Extra.V3_token env) (Props.V3_chat env) text] |}).
Proof.
  intros (Hm & Hb & Hp & Hl & Hc & Ht) quiet cooling plan text r.
  subst quiet cooling plan text r.
  unfold V4.handler. cbv zeta.
  change (V3.BOT_TOKEN (V4.getConfig env)) with (V3.env_BOT_TOKEN env).
  change (V3.CHAT_ID (V4.getConfig env)) with (V3.env_CHAT_ID env).
  rewrite Hm, Hb, Hp, Hl, Hc, Ht.
  cbn [String.eqb Ascii.eqb Bool.eqb negb orb].
  destruct (Js.geb (inject_Z (Js.getHours tz (V4.clk_now w)))
              (V3.QUIET_START (V4.getConfig env))
            || Js.ltb (inject_Z (Js.getHours tz (V4.clk_now w)))
                 (V3.QUIET_END (V4.getConfig env))) eqn:Hq.
  { apply quiet_test_Q in Hq. left. auto. }
  assert (~ Extra.V4_quiet tz w env) as NQ
    by (unfold Extra.V4_quiet; rewrite <- quiet_test_Q; congruence).
  right.
  change (default "" (V3.env_CHAT_ID env)) with (Props.V3_chat env).
  change (default "" (V3.env_BOT_TOKEN env)) with (Extra.V3_token env).
  destruct (Js.ltb (inject_Z (V4.clk_rate w - default 0%Z (st !! Props.V3_chat env)))
              (V3.MIN_INTERVAL_MIN (V4.getConfig env) * 60 * 1000)) eqn:Hr.
  { apply ltb_lt in Hr. left. auto. }
  assert (~ Extra.V4_cooling w env st) as NC
    by (unfold Extra.V4_cooling; rewrite <- ltb_lt; congruence).
  right.
  fold (Extra.V4_today tz w env).
  change {| V3.ctx_name := V3.NAME (V4.getConfig env);
            V3.ctx_age := V3.AGE (V4.getConfig env);
            V3.ctx_weight_kg := V3.WEIGHT_KG (V4.getConfig env);
            V3.ctx_height_cm := V3.HEIGHT_CM (V4.getConfig env);
            V3.ctx_wake_time := V3.WAKE_TIME (V4.getConfig env);
            V3.ctx_sleep_time := V3.SLEEP_TIME (V4.getConfig env);
            V3.ctx_today_activity := Extra.V4_today tz w env;
            V3.ctx_clinician_limit_ml := V3.CLINICIAN_LIMIT_ML (V4.getConfig env) |}
    with (Extra.V4_ai_context tz w env).
  unfold Extra.V4_plan.
  rewrite <- (V4_choosePlan_asks tz w env (V4.getConfig env)
                (Extra.V4_ai_context tz w env) (Extra.V4_today tz w env)
                ml pct (V3.cm b) (V4.clk_now w)).
  destruct (V4.choosePlan tz w env (V4.getConfig env) (Extra.V4_ai_context tz w env)
              (Extra.V4_today tz w env) ml pct (V3.cm b) (V4.clk_now w))
    as [plan asked].
  cbn [fst snd].
  destruct (negb (V3.should_notify plan)
            || Js.leb (Js.Math_max 0 (V3.goal_ml plan - ml)) 0) eqn:Hd.
  { left. split; [exact NQ |]. split; [exact NC |].
    split; [rewrite <- goes_test; congruence | reflexivity]. }
  apply goes_test in Hd. right.
  destruct (V4.tg_reply w); [left | right];
    (split; [exact NQ |]; split; [exact NC |]; split; [exact Hd |]);
    (split; [eauto | reflexivity]).
Qed.

(** A request that is not well formed is answered at once. *)
Lemma V3_ill_formed (tz : Z) (w : V3.World) (env : V3.Env)
    (st : gmap string Z) (req : V3.Request) :
  (forall b pct ml, ~ Props.V3_well_formed env req b pct ml) ->
  exists e, V3.handler tz w env st req = V3.reply e st
            /\ Props.V3_notified e = false.
Proof.
  intros NW. unfold V3.handler. cbv zeta.
  change (V3.BOT_TOKEN (V3.getConfig env)) with (V3.env_BOT_TOKEN env).
  change (V3.CHAT_ID (V3.getConfig env)) with (V3.env_CHAT_ID env).
  destruct (String.eqb (V3.method req) "POST") eqn:Hm; cbn [negb].
  2: { eexists; split; reflexivity. }
  apply String.eqb_eq in Hm.
  destruct (Js.falsy (V3.env_BOT_TOKEN env)) eqn:Ht; cbn [orb].
  { eexists; split; reflexivity. }
  destruct (Js.falsy (V3.env_CHAT_ID env)) eqn:Hc.
  { eexists; split; reflexivity. }
  destruct (V3.body req) as [b |] eqn:Hb.
  2: { eexists; split; reflexivity. }
  destruct (V3.ml b) as [ml |] eqn:Hl.
  2: { eexists; split; reflexivity. }
  destruct (V3.pct b) as [pct |] eqn:Hp.
  2: { eexists; split; reflexivity. }
  exfalso. apply (NW b pct ml). repeat split; assumption.
Qed.

Lemma V4_ill_formed (tz : Z) (w : V4.World) (env : V3.Env)
    (st : gmap string Z) (req : V3.Request) :
  (forall b pct ml, ~ Props.V3_well_formed env req b pct ml) ->
  exists e, V4.handler tz w env st req = V3.reply e st
            /\ Props.V3_notified e = false.
Proof.
  intros NW. unfold V4.handler. cbv zeta.
  change (V3.BOT_TOKEN (V4.getConfig env)) with (V3.env_BOT_TOKEN env).
  change (V3.CHAT_ID (V4.getConfig env)) with (V3.env_CHAT_ID env).
  destruct (String.eqb (V3.method req) "POST") eqn:Hm; cbn [negb].
  2: { eexists; split; reflexivity. }
  apply String.eqb_eq in Hm.
  destruct (Js.falsy (V3.env_BOT_TOKEN env)) eqn:Ht; cbn [orb].
  { eexists; split; reflexivity. }
  destruct (Js.falsy (V3.env_CHAT_ID env)) eqn:Hc.
  { eexists; split; reflexivity. }
  destruct (V3.body req) as [b |] eqn:Hb.
  2: { eexists; split; reflexivity. }
  destruct (V3.ml b) as [ml |] eqn:Hl.
  2: { eexists; split; reflexivity. }
  destruct (V3.pct b) as [pct |] eqn:Hp.
  2: { eexists; split; reflexivity. }
  exfalso. apply (NW b pct ml). repeat split; assumption.
Qed.

Lemma V3_well_formed_dec (env : V3.Env) (req : V3.Request) :
  (exists b pct ml, Props.V3_well_formed env req b pct ml)
  \/ (forall b pct ml, ~ Props.V3_well_formed env req b pct ml).
Proof.
  unfold Props.V3_well_formed.
  destruct (String.eqb (V3.method req) "POST") eqn:Hm.
  2: { right. intros b pct ml (H & _). apply String.eqb_neq in Hm. contradiction. }
  apply String.eqb_eq in Hm.
  destruct (V3.body req) as [b |] eqn:Hb.
  2: { right. intros b pct ml (_ & H & _). discriminate. }
  destruct (V3.pct b) as [pct |] eqn:Hp.
  2: { right. intros b' pct ml (_ & H & H' & _). congruence. }
  destruct (V3.ml b) as [ml |] eqn:Hl.
  2: { right. intros b' pct' ml (_ & H & _ & H' & _). congruence. }
  destruct (Js.falsy (V3.env_CHAT_ID env)) eqn:Hc.
  { right. intros b' pct' ml' (_ & _ & _ & _ & H & _). congruence. }
  destruct (Js.falsy (V3.env_BOT_TOKEN env)) eqn:Ht.
  { right. intros b' pct' ml' (_ & _ & _ & _ & _ & H). congruence. }
  left. exists b, pct, ml. repeat split; assumption.
Qed.


End PlannerRuns.

(** ** A quiet window that does not wrap around midnight *)

Lemma quiet_all_day (qs qe : Q) (h : Z) : qs <= qe -> Props.quiet qs qe h.
Proof.
  intros H. unfold Props.quiet.
  destruct (Qlt_le_dec (inject_Z h) qe); [right | left]; lra.
Qed.

(** X11.  The quiet-hours test of the environment-configured handlers is
    hour >= QUIET_START || hour < QUIET_END.  When QUIET_START <= QUIET_END
    (a window meant to lie within one day, such as 13 to 15) the test holds
    at every hour: every well-formed request is answered skipped
    "quiet_hours", with the map untouched and nothing sent. *)
Theorem same_day_quiet_window_never_opens :
  (forall tz w env st req b pct ml,
     Props.V2_well_formed env req b pct ml ->
     V2.QUIET_START (V2.getConfig env) <= V2.QUIET_END (V2.getConfig env) ->
     V2.handler tz w env st req = V2.reply (V2.Skipped quiet_hours None) st)
  /\ (forall tz w env st req b pct ml,
        Props.V3_well_formed env req b pct ml ->
        V3.QUIET_START (V3.getConfig env) <= V3.QUIET_END (V3.getConfig env) ->
        V3.handler tz w env st req = V3.reply (V3.Skipped quiet_hours None) st)
  /\ (forall tz w env st req b pct ml,
        Props.V3_well_formed env req b pct ml ->
        V3.QUIET_START (V4.getConfig env) <= V3.QUIET_END (V4.getConfig env) ->
        V4.handler tz w env st req = V3.reply (V3.Skipped quiet_hours None) st).
Proof.
  split; [| split].
  - intros tz w env st req b pct ml WF H.
    apply (V2_quiet_gate tz w env st req b pct ml WF).
    now apply quiet_all_day.
  - intros tz w env st req b pct ml WF H.
    pose proof (quiet_all_day _ _ (Js.getHours tz (V3.clk_now w)) H) as Q.
    destruct (V3_exact_run tz w env st req b pct ml WF)
      as [(_ & R) | [(N & _) | [(N & _) | [(N & _) | (N & _)]]]];
      [exact R | now destruct N ..].
  - intros tz w env st req b pct ml WF H.
    pose proof (quiet_all_day _ _ (Js.getHours tz (V4.clk_now w)) H) as Q.
    destruct (V4_exact_run tz w env st req b pct ml WF)
      as [(_ & R) | [(N & _) | [(N & _) | [(N & _) | (N & _)]]]];
      [exact R | now destruct N ..].
Qed.

(** With QUIET_START_HOUR=13 and QUIET_END_HOUR=15 a reading posted at noon
    is skipped for quiet hours. *)
Lemma same_day_quiet_window_never_opens_witness :
  V2.handler 0 (Samples.V2_at Samples.noon)
    (Extra.V2_quiet_env (Some 13) (Some 15)) ∅ (Samples.V2_post 30 0)
  = V2.reply (V2.Skipped quiet_hours None) ∅.
Proof.
  destruct same_day_quiet_window_never_opens as (H & _).
  apply (H 0%Z (Samples.V2_at Samples.noon) (Extra.V2_quiet_env (Some 13) (Some 15))
           ∅ (Samples.V2_post 30 0) (Samples.V2_body 30 0) 30 0).
  - repeat split.
  - discriminate.
Defined.

(** ** When the text-generation service is consulted *)




(** ** The store and the messaging service, in the planner *)

Lemma planner_set_after_send (env : V3.Env) (tok chat : string)
    (text : V3.PlanMessage) (t : Z) :
  Props.set_after_send false (Extra.planner_asks env) = true
  /\ Props.stored (Extra.planner_asks env) = false
  /\ Props.set_after_send false
       (Extra.planner_asks env ++ [TelegramSend tok chat text; LastNotifiedSet chat t])
     = true
  /\ Props.stored
       (Extra.planner_asks env ++ [TelegramSend tok chat text; LastNotifiedSet chat t])
     = true
  /\ Props.set_after_send false (Extra.planner_asks env ++ [TelegramSend tok chat text])
     = true
  /\ Props.stored (Extra.planner_asks env ++ [TelegramSend tok chat text]) = false.
Proof.
  unfold Extra.planner_asks.
  destruct (Js.falsy (V3.env_OPENAI_API_KEY env)); repeat split; reflexivity.
Qed.

Lemma V3_store (tz : Z) (w : V3.World) (env : V3.Env) (st : gmap string Z)
    (req : V3.Request) :
  let r := V3.handler tz w env st req in
  Props.set_after_send false (V3.events r) = true
  /\ (Props.V3_notified (V3.response r) = true ->
      V3.send_resolves w = true
      /\ Props.sent (V3.events r) = true
      /\ Props.stored (V3.events r) = true
      /\ V3.lastNotified_after r = <[Props.V3_chat env := V3.clk_set w]> st)
  /\ (Props.V3_notified (V3.response r) = false ->
      Props.stored (V3.events r) = false /\ V3.lastNotified_after r = st).
Proof.
  intros r. subst r.
  destruct (V3_well_formed_dec env req) as [(b & pct & ml & WF) | NW].
  2: { destruct (V3_ill_formed tz w env st req NW) as (e & -> & E).
       cbn. rewrite E. repeat split; congruence. }
  set (text := Extra.plan_message (V3.NAME (V3.getConfig env)) "Hydration check"
                 (Props.V3_plan tz w env b ml pct) ml).
  destruct (planner_set_after_send env (Extra.V3_token env) (Props.V3_chat env)
              text (V3.clk_set w)) as (A1 & A2 & A3 & A4 & A5 & A6).
  destruct (V3_exact_run tz w env st req b pct ml WF)
    as [(Q & R) | [(NQ & C & R) | [(NQ & NC & _ & R)
       | [(NQ & NC & _ & S & R) | (NQ & NC & _ & S & R)]]]];
    rewrite R; cbn [V3.events V3.reply V3.response V3.lastNotified_after
                    Props.V3_notified];
    fold text;
    rewrite ?(sent_after_asking _ _ (planner_only_asks env));
    repeat split; try congruence; try reflexivity.
Qed.

Lemma V4_store (tz : Z) (w : V4.World) (env : V3.Env) (st : gmap string Z)
    (req : V3.Request) :
  let r := V4.handler tz w env st req in
  Props.set_after_send false (V3.events r) = true
  /\ (Props.V3_notified (V3.response r) = true ->
      is_Some (V4.tg_reply w)
      /\ Props.sent (V3.events r) = true
      /\ Props.stored (V3.events r) = true
      /\ V3.lastNotified_after r = <[Props.V3_chat env := V4.clk_set w]> st)
  /\ (Props.V3_notified (V3.response r) = false ->
      Props.stored (V3.events r) = false /\ V3.lastNotified_after r = st).
Proof.
  intros r. subst r.
  destruct (V3_well_formed_dec env req) as [(b & pct & ml & WF) | NW].
  2: { destruct (V4_ill_formed tz w env st req NW) as (e & -> & E).
       cbn. rewrite E. repeat split; congruence. }
  set (text := Extra.plan_message (V3.NAME (V4.getConfig env)) "Hydration check."
                 (Extra.V4_plan tz w env b ml pct) ml).
  destruct (planner_set_after_send env (Extra.V3_token env) (Props.V3_chat env)
              text (V4.clk_set w)) as (A1 & A2 & A3 & A4 & A5 & A6).
  destruct (V4_exact_run tz w env st req b pct ml WF)
    as [(Q & R) | [(NQ & C & R) | [(NQ & NC & _ & R)
       | [(NQ & NC & _ & S & R) | (NQ & NC & _ & S & R)]]]];
    rewrite R; cbn [V3.events V3.reply V3.response V3.lastNotified_after
                    Props.V3_notified];
    fold text;
    rewrite ?(sent_after_asking _ _ (planner_only_asks env));
    repeat split; try congruence; try reflexivity.
Qed.

(** X13.  In every invocation of the planner every write to the map comes
    after the send of the same invocation; an answer notified comes with the
    send issued and the recipient's entry set to the clock reading taken
    after the send; every other answer leaves the map as it was.  The
    re-edited planner reads the status and the text of the messaging
    service's reply only to log them: whatever they are (a 401 included) the
    reading is answered notified and the entry is written. *)
Theorem planner_store_discipline :
  (forall tz w env st req,
     let r := V3.handler tz w env st req in
     Props.set_after_send false (V3.events r) = true
     /\ (Props.V3_notified (V3.response r) = true ->
         V3.send_resolves w = true
         /\ Props.sent (V3.events r) = true
         /\ Props.stored (V3.events r) = true
         /\ V3.lastNotified_after r = <[Props.V3_chat env := V3.clk_set w]> st)
     /\ (Props.V3_notified (V3.response r) = false ->
         Props.stored (V3.events r) = false /\ V3.lastNotified_after r = st))
  /\ (forall tz w env st req,
        let r := V4.handler tz w env st req in
        Props.set_after_send false (V3.events r) = true
        /\ (Props.V3_notified (V3.response r) = true ->
            is_Some (V4.tg_reply w)
            /\ Props.sent (V3.events r) = true
            /\ Props.stored (V3.events r) = true
            /\ V3.lastNotified_after r = <[Props.V3_chat env := V4.clk_set w]> st)
        /\ (Props.V3_notified (V3.response r) = false ->
            Props.stored (V3.events r) = false /\ V3.lastNotified_after r = st))
  /\ (forall tz w env st req reply reply',
        V4.handler tz (Extra.V4_with_reply w (Some reply)) env st req
        = V4.handler tz (Extra.V4_with_reply w (Some reply')) env st req).
Proof.
  split; [exact V3_store |]. split; [exact V4_store |].
  intros tz w env st req reply reply'. reflexivity.
Qed.

(** The messaging service answers 401 Unauthorized: the reading is answered
    notified all the same and the recipient's entry is written. *)
Lemma planner_store_discipline_witness :
  V3.lastNotified_after
    (V4.handler 0 (Extra.V4_at Samples.noon V3.NoContent)
       (Samples.V3_env None None) ∅ (Samples.V3_post 30 0))
  = <["1001" := Samples.noon]> ∅.
Proof.
  destruct planner_store_discipline as (_ & H & _).
  apply (H 0%Z (Extra.V4_at Samples.noon V3.NoContent) (Samples.V3_env None None)
           ∅ (Samples.V3_post 30 0)).
  reflexivity.
Defined.

(** ** The text sent by the planner *)

Section PlannerMessage.

Lemma V4_fallbackPlan_fields (tz fresh_wake fresh_sleep : Z)
    (p : V4.FallbackProfile) (ml pct : Q) (now : Z) :
  let wake := V4.parseHM tz fresh_wake (default "07:00" (V4.wakeStr p)) 7 0 in
  let sleep := V4.parseHM tz fresh_sleep (default "23:00" (V4.sleepStr p)) 7 0 in
  let goal :=
    Js.clamp (Js.Math_round (35 * V4.weight_kg p) + V3.flatAdd (V4.activity p))
      1200 4000 in
  let target := Js.Math_round (goal * V3.frac wake sleep now) in
  V4.fallbackPlan tz fresh_wake fresh_sleep p ml pct now
  = {| V3.goal_ml := goal; V3.target_ml_now := target;
       V3.remaining_ml := Some (Js.Math_max 0 (goal - ml));
       V3.next_sip_ml :=
         Js.clamp (Js.Math_round (Js.Math_max 0 (target - ml) / 3)) 150 250;
       V3.should_notify :=
         (Js.ltb (ml + 50) target || Js.ltb pct 40)
         && Js.ltb 0 (Js.Math_max 0 (goal - ml));
       V3.reason := "fallback schedule" |}.
Proof.
  reflexivity.
Qed.

Lemma fallback_goal_integer (weight_kg : Q) (activity : string) :
  exists g : Z,
    Js.clamp (Js.Math_round (35 * weight_kg) + V3.flatAdd activity) 1200 4000
    = inject_Z g
    /\ (1200 <= g <= 4000)%Z.
Proof.
  destruct (flatAdd_integer activity) as [k ->].
  assert (Js.Math_round (35 * weight_kg) + inject_Z k
          = inject_Z (Qfloor (35 * weight_kg + (1 # 2)) + k)) as ->
    by (unfold Js.Math_round; now rewrite inject_Z_plus).
  change 1200 with (inject_Z 1200). change 4000 with (inject_Z 4000).
  rewrite clamp_integer. eexists. split; [reflexivity | lia].
Qed.

Lemma V4_fallbackPlan_valid (tz fresh_wake fresh_sleep : Z)
    (p : V4.FallbackProfile) (ml pct : Q) (now : Z) :
  let plan := V4.fallbackPlan tz fresh_wake fresh_sleep p ml pct now in
  Props.valid_plan plan
  /\ 150 <= V3.next_sip_ml plan <= 250
  /\ V3.reason plan = "fallback schedule"
  /\ (V3.should_notify plan = true
      <-> Props.should_notify (V3.goal_ml plan) (V3.target_ml_now plan) ml pct).
Proof.
  intros plan. subst plan. rewrite V4_fallbackPlan_fields. cbv zeta.
  unfold Props.valid_plan.
  cbn [V3.goal_ml V3.target_ml_now V3.next_sip_ml V3.reason V3.should_notify].
  destruct (fallback_goal_integer (V4.weight_kg p) (V4.activity p))
    as (g & -> & G).
  set (f := V3.frac _ _ now).
  assert (0 <= f <= 1) as F.
  { subst f. rewrite V3_frac_shape. apply pacing_range; lra. }
  pose proof (Math_round_share g f ltac:(lia) F) as T.
  assert (inject_Z 1200 <= inject_Z g <= inject_Z 4000) as G'
    by (rewrite <- !Zle_Qle; exact G).
  split; [| split; [| split]].
  - split; [exact G' |]. split; [exact T |].
    match goal with
    | |- context [Js.clamp ?x 150 250] =>
        pose proof (clamp_range x 150 250 ltac:(lra)) as S
    end.
    lra.
  - apply clamp_range. lra.
  - reflexivity.
  - unfold Props.should_notify.
    rewrite andb_true_iff, orb_true_iff, !ltb_lt. reflexivity.
Qed.





End PlannerMessage.



(** ** A sleep time that does not parse *)

(** X15.  A SLEEP_TIME that is not of the form H:MM or HH:MM (such as "11pm")
    is read as 23:00 by [makeSchedule], which passes the default hour, but as
    07:00 by the re-edited [fallbackPlan], which calls [parseHM(sleepStr)]
    without one.  The fallback plan then has its pacing end at 07:00: at
    every instant after the wake time and not before 07:00 the target is the
    whole goal. *)
Theorem unparsable_sleep_time :
  (forall tz fw fs level ws ss,
     V2.matchHM ss = None ->
     V2.makeSchedule tz fw fs level ws ss
     = V2.makeSchedule tz fw fs level ws "23:00")
  /\ (forall tz fw fs p ml pct now ss,
        V4.sleepStr p = Some ss -> V3.matchHM ss = None ->
        V4.fallbackPlan tz fw fs p ml pct now
        = V4.fallbackPlan tz fw fs (Extra.V4_with_sleepStr p (Some "07:00"))
            ml pct now)
  /\ (forall tz fw fs p ml pct now ss,
        V4.sleepStr p = Some ss -> V3.matchHM ss = None ->
        (V4.parseHM tz fw (default "07:00" (V4.wakeStr p)) 7 0 < now)%Z ->
        (Js.setHours tz fs 7 0 <= now)%Z ->
        V3.target_ml_now (V4.fallbackPlan tz fw fs p ml pct now)
        = V3.goal_ml (V4.fallbackPlan tz fw fs p ml pct now)).
Proof.
  split; [| split].
  - intros tz fw fs level ws ss E.
    unfold V2.makeSchedule, V2.parseHM. rewrite E. reflexivity.
  - intros tz fw fs p ml pct now ss Es E.
    unfold V4.fallbackPlan, V4.parseHM, V3.parseHM, Extra.V4_with_sleepStr.
    cbn [V4.sleepStr V4.wakeStr V4.weight_kg V4.activity].
    rewrite Es. cbn [from_option id]. rewrite E. reflexivity.
  - intros tz fw fs p ml pct now ss Es E Hw Hs.
    rewrite V4_fallbackPlan_fields. cbv zeta.
    cbn [V3.target_ml_now V3.goal_ml].
    destruct (fallback_goal_integer (V4.weight_kg p) (V4.activity p))
      as (g & -> & _).
    rewrite <- (Math_round_integer g) at 2.
    apply Math_round_comp.
    assert (V3.frac (V4.parseHM tz fw (default "07:00" (V4.wakeStr p)) 7 0)
              (V4.parseHM tz fs (default "23:00" (V4.sleepStr p)) 7 0) now = 1)
      as ->; [| lra].
    rewrite Es. cbn [from_option id].
    assert (V4.parseHM tz fs ss 7 0 = Js.setHours tz fs 7 0) as ->
      by (unfold V4.parseHM, V3.parseHM; now rewrite E).
    unfold V3.frac. cbv zeta.
    destruct (Z.leb_spec now
                (V4.parseHM tz fw (default "07:00" (V4.wakeStr p)) 7 0));
      [lia |].
    destruct (Z.leb_spec (Js.setHours tz fs 7 0) now); [reflexivity | lia].
Qed.

(** With SLEEP_TIME set to "11pm" the fallback plan asks, at noon, for the
    whole daily goal. *)
Lemma unparsable_sleep_time_witness :
  V3.target_ml_now
    (Extra.V4_fallback 0 (Extra.V4_at Samples.noon V3.NoContent)
       (Extra.V3_env_with None (Some "11pm") None None) 0 30)
  = V3.goal_ml
      (Extra.V4_fallback 0 (Extra.V4_at Samples.noon V3.NoContent)
         (Extra.V3_env_with None (Some "11pm") None None) 0 30).
Proof.
  destruct unparsable_sleep_time as (_ & _ & H).
  apply (H 0%Z _ _ _ 0 30 _ "11pm"%string); reflexivity || (vm_compute; congruence).
Defined.

(** ** A notification for a low reading alone *)

Section LowReading.

Lemma clamp_below (v lo hi : Q) : v < lo -> lo <= hi -> Js.clamp v lo hi = lo.
Proof.
  intros Hv Hlh. unfold Js.clamp, Js.Math_max, Js.Math_min.
  destruct (Qle_bool v hi) eqn:E1.
  - destruct (Qle_bool lo v) eqn:E2; [| reflexivity].
    apply Qle_bool_iff in E2. lra.
  - assert (~ v <= hi) by (rewrite <- Qle_bool_iff; congruence). lra.
Qed.

Lemma small_gap_sip (t ml lo hi : Q) :
  t <= ml + 50 -> 150 <= lo -> lo <= hi ->
  Js.clamp (Js.Math_round (Js.Math_max 0 (t - ml) / 3)) lo hi = lo.
Proof.
  intros Ht Hlo Hlh. apply clamp_below; [| exact Hlh].
  assert (Js.Math_round (Js.Math_max 0 (t - ml) / 3) <= Js.Math_round (50 / 3)) as M.
  { apply Math_round_mono. unfold Qdiv.
    apply Qmult_le_compat_r; [| discriminate].
    destruct (Math_max_cases 0 (t - ml)) as [[H ->] | [H ->]]; lra. }
  assert (Js.Math_round (50 / 3) == 17) as E by reflexivity.
  lra.
Qed.

Lemma baseMin_bounds (level : string) :
  150 <= V1.baseMin level <= V1.baseMax level
  /\ 150 <= V2.baseMin level <= V2.baseMax level.
Proof.
  unfold V1.baseMin, V1.baseMax, V2.baseMin, V2.baseMax.
  destruct (String.eqb level "Heavy"); [split; lra |].
  destruct (String.eqb level "Moderate"); split; lra.
Qed.

End LowReading.

(** X16.  A rule-based handler that notifies although the reading is not
    behind (target_ml_now <= ml + 50) does so because pct < 40; it then
    recommends the smallest sip of the activity level (150, 180 or 200 ml).
    The text of the first handler is the template with "behind" filled with
    target_ml_now - ml, which is at most 50 and can be negative: a reading of
    2000 ml at 30 percent yields a text that says "behind -2000 ml". *)
Theorem low_reading_alone_gives_smallest_sip :
  (forall tz w env st req b pct ml g s t,
     Props.V1_well_formed env req b pct ml ->
     V1.response (V1.handler tz w env st req) = V1.Notified g s t ->
     t <= ml + 50 ->
     pct < 40
     /\ s = V1.baseMin (V1.activity_level (fst (Props.V1_context tz w b)))
     /\ Extra.texts (V1.events (V1.handler tz w env st req))
        = [Props.V1_text tz w b ml]
     /\ V1.msg_behind (Props.V1_text tz w b ml) <= 50)
  /\ (forall tz w env st req b pct ml g s t,
        Props.V2_well_formed env req b pct ml ->
        V2.response (V2.handler tz w env st req) = V2.Notified g t s ->
        t <= ml + 50 ->
        pct < 40 /\ s = V2.baseMin (V2.ACTIVITY_LEVEL (V2.getConfig env)))
  /\ (exists m,
        In m (Extra.texts
                (V1.events
                   (V1.handler 0 (Samples.V1_at Samples.noon) Samples.V1_env ∅
                      (Samples.V1_post 30 2000 None))))
        /\ V1.msg_behind m == -2000).
Proof.
  split; [| split].
  - intros tz w env st req b pct ml g s t WF E Ht.
    destruct (V1_well_formed_run tz w env st req b pct ml WF)
      as [(_ & R) | [(_ & _ & R) | [(_ & _ & _ & R)
         | [(_ & _ & N & _ & R) | (_ & _ & _ & _ & R)]]]];
      rewrite R in E; cbn in E; try discriminate E.
    injection E as <- <- <-. rewrite R. cbn [V1.events Extra.texts flat_map app].
    destruct N as ([N | N] & _); [lra |].
    split; [exact N |]. split; [| split; [reflexivity |]].
    + unfold Props.V1_sip. cbv zeta.
      destruct (baseMin_bounds
                  (V1.activity_level (fst (Props.V1_context tz w b))))
        as ((B1 & B2) & _).
      now apply small_gap_sip.
    + unfold Props.V1_text, V1.buildRuleMessage. cbn [V1.msg_behind]. lra.
  - intros tz w env st req b pct ml g s t WF E Ht.
    destruct (V2_well_formed_run tz w env st req b pct ml WF)
      as [(_ & R) | [(_ & _ & R) | [(_ & _ & _ & R)
         | [(_ & _ & N & _ & asked & text & _ & R)
           | (_ & _ & _ & _ & asked & text & _ & R)]]]];
      rewrite R in E; cbn in E; try discriminate E.
    injection E as <- <- <-.
    destruct N as ([N | N] & _); [lra |].
    split; [exact N |].
    unfold Props.V2_sip. cbv zeta.
    destruct (baseMin_bounds (V2.ACTIVITY_LEVEL (V2.getConfig env)))
      as (_ & (B1 & B2)).
    now apply small_gap_sip.
  - eexists. split; [vm_compute; left; reflexivity |]. reflexivity.
Qed.

(** At noon, without a profile, 2000 ml at 30 percent: notified, with the
    smallest sip of the default level. *)
Lemma low_reading_alone_gives_smallest_sip_witness :
  V1.response
    (V1.handler 0 (Samples.V1_at Samples.noon) Samples.V1_env ∅
       (Samples.V1_post 30 2000 None))
  = V1.Notified 2300 150 0
  /\ 30 < 40.
Proof.
  destruct low_reading_alone_gives_smallest_sip as (H & _).
  assert (V1.response
            (V1.handler 0 (Samples.V1_at Samples.noon) Samples.V1_env ∅
               (Samples.V1_post 30 2000 None))
          = V1.Notified 2300 150 0) as E by reflexivity.
  split; [exact E |].
  apply (H 0%Z (Samples.V1_at Samples.noon) Samples.V1_env ∅
           (Samples.V1_post 30 2000 None) (Samples.V1_body 30 2000 None)
           30 2000 2300 150 0).
  - repeat split.
  - exact E.
  - discriminate.
Defined.

(** ** The order of the validation steps *)

(** X17.  Every variant answers 405 to a request that is not a POST before
    looking at anything else.  The first handler then reads the body before
    the credentials: a POST without pct or ml is answered 400, and a body
    that does not parse 500 "server_error", also when CHAT_ID and BOT_TOKEN
    are missing.  The later variants read the credentials first: a POST is
    answered 500 for the missing variables whatever its body.  None of these
    answers touches the map or sends anything. *)
Theorem validation_order :
  (forall tz w env st req,
     V1.method req <> "POST" ->
     V1.handler tz w env st req = V1.reply V1.Error405 st)
  /\ (forall tz w env st req,
        V2.method req <> "POST" ->
        V2.handler tz w env st req = V2.reply V2.Error405 st)
  /\ (forall tz w w' env st req,
        V3.method req <> "POST" ->
        V3.handler tz w env st req = V3.reply V3.Error405 st
        /\ V4.handler tz w' env st req = V3.reply V3.Error405 st)
  /\ (forall tz w env st req b,
        V1.method req = "POST" -> V1.body req = Some b ->
        V1.pct b = None \/ V1.ml b = None ->
        V1.handler tz w env st req = V1.reply V1.Error400 st)
  /\ (forall tz w env st req,
        V1.method req = "POST" -> V1.body req = None ->
        V1.handler tz w env st req = V1.reply V1.Error500_server_error st)
  /\ (forall tz w env st req,
        V2.method req = "POST" ->
        Js.falsy (V2.env_BOT_TOKEN env) = true
        \/ Js.falsy (V2.env_CHAT_ID env) = true ->
        V2.handler tz w env st req = V2.reply V2.Error500_missing_env st)
  /\ (forall tz w w' env st req,
        V3.method req = "POST" ->
        Js.falsy (V3.env_BOT_TOKEN env) = true
        \/ Js.falsy (V3.env_CHAT_ID env) = true ->
        V3.handler tz w env st req = V3.reply V3.Error500_missing_env st
        /\ V4.handler tz w' env st req = V3.reply V3.Error500_missing_env st).
Proof.
  split; [| split; [| split; [| split; [| split; [| split]]]]].
  - intros tz w env st req H. apply String.eqb_neq in H.
    unfold V1.handler. now rewrite H.
  - intros tz w env st req H. apply String.eqb_neq in H.
    unfold V2.handler. now rewrite H.
  - intros tz w w' env st req H. apply String.eqb_neq in H.
    unfold V3.handler, V4.handler. now rewrite H.
  - intros tz w env st req b Hm Hb H.
    unfold V1.handler. rewrite Hm, Hb. cbn [String.eqb Ascii.eqb Bool.eqb negb].
    destruct H as [-> | H]; [reflexivity |].
    rewrite H. now destruct (V1.pct b).
  - intros tz w env st req Hm Hb.
    unfold V1.handler. now rewrite Hm, Hb.
  - intros tz w env st req Hm H.
    unfold V2.handler. cbv zeta.
    change (V2.BOT_TOKEN (V2.getConfig env)) with (V2.env_BOT_TOKEN env).
    change (V2.CHAT_ID (V2.getConfig env)) with (V2.env_CHAT_ID env).
    rewrite Hm. cbn [String.eqb Ascii.eqb Bool.eqb negb].
    destruct H as [-> | ->]; [reflexivity |].
    now rewrite orb_true_r.
  - intros tz w w' env st req Hm H.
    unfold V3.handler, V4.handler. cbv zeta.
    change (V3.BOT_TOKEN (V4.getConfig env)) with (V3.env_BOT_TOKEN env).
    change (V3.CHAT_ID (V4.getConfig env)) with (V3.env_CHAT_ID env).
    change (V3.BOT_TOKEN (V3.getConfig env)) with (V3.env_BOT_TOKEN env).
    change (V3.CHAT_ID (V3.getConfig env)) with (V3.env_CHAT_ID env).
    rewrite Hm. cbn [String.eqb Ascii.eqb Bool.eqb negb].
    destruct H as [-> | ->]; [split; reflexivity |].
    now rewrite orb_true_r.
Qed.

(** A POST that carries no reading, to a deployment without credentials:
    400 from the first handler, 500 from the second. *)
Lemma validation_order_witness :
  V1.handler 0 (Samples.V1_at Samples.noon) Extra.V1_no_credentials ∅
    Extra.V1_empty_post
  = V1.reply V1.Error400 ∅
  /\ V2.handler 0 (Samples.V2_at Samples.noon) Extra.V2_no_credentials ∅
       Extra.V2_empty_post
     = V2.reply V2.Error500_missing_env ∅.
Proof.
  destruct validation_order as (_ & _ & _ & H1 & _ & H2 & _).
  split.
  - apply (H1 0%Z (Samples.V1_at Samples.noon) Extra.V1_no_credentials ∅
             Extra.V1_empty_post
             {| V1.pct := None; V1.ml := None; V1.cm := None; V1.ts := None;
                V1.profile := None |});
      [reflexivity | reflexivity | now left].
  - apply (H2 0%Z (Samples.V2_at Samples.noon) Extra.V2_no_credentials ∅
             Extra.V2_empty_post); [reflexivity | now left].
Defined.

(** ** The rephrasing call of the second handler *)

(** X18.  In the second handler the rephrasing call decides nothing: with
    another key, or none, and with another outcome of the call, the response
    and the map are the same, and the send and the write happen in the same
    invocations.  A rephrased text is sent only when a key is configured and
    the call returned a text that is not empty; in every other case the
    template is sent. *)
Theorem rephrasing_changes_only_the_text :
  forall tz w env st req r key,
    let a := V2.handler tz w env st req in
    let b := V2.handler tz (Extra.V2_with_rephrasing w r)
               (Extra.V2_with_key env key) st req in
    V2.response b = V2.response a
    /\ V2.lastNotified_after b = V2.lastNotified_after a
    /\ Props.sent (V2.events b) = Props.sent (V2.events a)
    /\ Props.stored (V2.events b) = Props.stored (V2.events a)
    /\ (forall s, In (V2.Rephrased s) (Extra.texts (V2.events a)) ->
          Js.falsy (V2.env_OPENAI_API_KEY env) = false
          /\ V2.rephrasing w = Some s /\ s <> "").
Proof.
  intros tz w env st req r key a b. subst a b.
  unfold V2.handler. cbv zeta.
  change (V2.getConfig (Extra.V2_with_key env key)) with (V2.getConfig env).
  cbn [Extra.V2_with_rephrasing Extra.V2_with_key V2.clk_now V2.clk_wake
       V2.clk_sleep V2.clk_rate V2.clk_set V2.rephrasing V2.send_resolves
       V2.env_OPENAI_API_KEY].
  destruct (negb (String.eqb (V2.method req) "POST"));
    [cbn; do 4 (split; [reflexivity |]); intros s [] |].
  destruct (Js.falsy (V2.BOT_TOKEN (V2.getConfig env))
            || Js.falsy (V2.CHAT_ID (V2.getConfig env)));
    [cbn; do 4 (split; [reflexivity |]); intros s [] |].
  destruct (V2.body req) as [body |]; [| cbn; do 4 (split; [reflexivity |]); intros s []].
  destruct (V2.ml body) as [ml |]; [| cbn; do 4 (split; [reflexivity |]); intros s []].
  destruct (V2.pct body) as [pct |]; [| cbn; do 4 (split; [reflexivity |]); intros s []].
  destruct (Js.geb _ _ || Js.ltb _ _); [cbn; do 4 (split; [reflexivity |]); intros s [] |].
  destruct (Js.ltb (inject_Z _) _); [cbn; do 4 (split; [reflexivity |]); intros s [] |].
  destruct (negb _ || Js.leb _ _); [cbn; do 4 (split; [reflexivity |]); intros s [] |].
  destruct (Js.falsy key); destruct (Js.falsy (V2.env_OPENAI_API_KEY env)) eqn:K;
    destruct (V2.send_resolves w);
    try (destruct r as [ai' |]; [destruct (String.eqb ai' "") |]);
    try (destruct (V2.rephrasing w) as [ai |] eqn:R;
         [destruct (String.eqb ai "") eqn:A |]);
    cbn; do 4 (split; [reflexivity |]);
    intros s [H | []]; try discriminate H;
    injection H as <-; (split; [reflexivity |]; split; [reflexivity |]);
    now apply String.eqb_neq.
Qed.

(** A notified reading at noon: the response does not depend on the key. *)
Lemma rephrasing_changes_only_the_text_witness :
  V2.response
    (V2.handler 0 (Extra.V2_with_rephrasing (Samples.V2_at Samples.noon)
                     (Some "Time for a sip!"))
       (Extra.V2_with_key Samples.V2_env (Some "key")) ∅ (Samples.V2_post 30 0))
  = V2.response
      (V2.handler 0 (Samples.V2_at Samples.noon) Samples.V2_env ∅
         (Samples.V2_post 30 0)).
Proof.
  exact (proj1 (rephrasing_changes_only_the_text 0%Z (Samples.V2_at Samples.noon)
                  Samples.V2_env ∅ (Samples.V2_post 30 0)
                  (Some "Time for a sip!"%string) (Some "key"%string))).
Defined.

(** ** Today's activity and the goal of the fallback plan *)

Section Today.

Lemma getDay_range (tz t : Z) : (0 <= Js.getDay tz t <= 6)%Z.
Proof.
  unfold Js.getDay.
  pose proof (Z.mod_pos_bound ((t + tz) / Js.msPerDay + 4) 7 ltac:(lia)). lia.
Qed.

Lemma getDay_next (tz t : Z) :
  Js.getDay tz (t + Js.msPerDay) = ((Js.getDay tz t + 1) mod 7)%Z.
Proof.
  unfold Js.getDay.
  replace (t + Js.msPerDay + tz)%Z with (t + tz + 1 * Js.msPerDay)%Z by lia.
  rewrite Z.div_add by (unfold Js.msPerDay; lia).
  rewrite Zplus_mod_idemp_l. f_equal. lia.
Qed.

Lemma string_or_nonempty (x : option string) (d : string) :
  d <> "" -> Js.string_or x d <> "".
Proof.
  intros D. unfold Js.string_or. destruct x as [s |]; [| exact D].
  destruct (String.eqb s "") eqn:E; [exact D | now apply String.eqb_neq].
Qed.

Lemma string_or_keeps (s d : string) : s <> "" -> Js.string_or (Some s) d = s.
Proof.
  intros N. apply String.eqb_neq in N. unfold Js.string_or. now rewrite N.
Qed.

Lemma week_nonempty (env : V3.Env) (s : string) :
  In s (Extra.week (V3.getConfig env)) -> s <> "".
Proof.
  unfold Extra.week, V3.getConfig.
  cbn [V3.ACT_SUN V3.ACT_MON V3.ACT_TUE V3.ACT_WED V3.ACT_THU V3.ACT_FRI
       V3.ACT_SAT In].
  intros [<- | [<- | [<- | [<- | [<- | [<- | [<- | []]]]]]]];
    apply string_or_nonempty; discriminate.
Qed.

Lemma dayActivity_table (env : V3.Env) (dow : Z) :
  (0 <= dow <= 6)%Z ->
  V3.dayActivity (V3.getConfig env) dow
  = nth (Z.to_nat dow) (Extra.week (V3.getConfig env)) "Light"
  /\ In (V3.dayActivity (V3.getConfig env) dow) (Extra.week (V3.getConfig env)).
Proof.
  intros R.
  assert (dow = 0 \/ dow = 1 \/ dow = 2 \/ dow = 3 \/ dow = 4 \/ dow = 5
          \/ dow = 6)%Z as D by lia.
  pose proof (week_nonempty env) as N.
  unfold V3.dayActivity. cbv zeta.
  destruct D as [-> | [-> | [-> | [-> | [-> | [-> | ->]]]]]];
    cbn [Z.eqb Pos.eqb Z.to_nat Pos.to_nat Pos.iter_op Init.Nat.add nth Extra.week];
    rewrite string_or_keeps by (apply N; cbn; tauto);
    (split; [reflexivity | cbn; tauto]).
Qed.

End Today.

(** X19.  The weekday table of the planner never misses: [getDay] lies in
    0..6 and advances by one, modulo 7, every 24 hours; [getConfig] leaves no
    day's activity empty; so today's activity is always the entry configured
    for the weekday and the trailing "|| 'Light'" of lines 547 and 782 never
    applies. *)
Theorem todays_activity_is_the_configured_one :
  forall tz t env,
    let cfg := V3.getConfig env in
    let dow := Js.getDay tz t in
    (0 <= dow <= 6)%Z
    /\ Js.getDay tz (t + Js.msPerDay) = ((dow + 1) mod 7)%Z
    /\ V3.dayActivity cfg dow = nth (Z.to_nat dow) (Extra.week cfg) "Light"
    /\ In (V3.dayActivity cfg dow) (Extra.week cfg)
    /\ V3.dayActivity cfg dow <> "".
Proof.
  intros tz t env cfg dow. subst cfg dow.
  pose proof (getDay_range tz t) as R.
  destruct (dayActivity_table env _ R) as (T & I).
  split; [exact R |]. split; [apply getDay_next |].
  split; [exact T |]. split; [exact I |].
  now apply (week_nonempty env).
Qed.

Section FallbackGoal.

Lemma flatAdd_of_level (a : Activity) :
  V3.flatAdd (activity_name a) = Extra.flat_by_level a.
Proof. destruct a; reflexivity. Qed.

Lemma default_week (env : V3.Env) :
  V3.env_ACTIVITY_MON env = None -> V3.env_ACTIVITY_TUE env = None ->
  V3.env_ACTIVITY_WED env = None -> V3.env_ACTIVITY_THU env = None ->
  V3.env_ACTIVITY_FRI env = None -> V3.env_ACTIVITY_SAT env = None ->
  V3.env_ACTIVITY_SUN env = None ->
  Extra.week (V3.getConfig env)
  = ["Light"; "Moderate"; "Moderate"; "Moderate"; "Moderate"; "Moderate";
     "Light"]%string.
Proof.
  intros H1 H2 H3 H4 H5 H6 H7. unfold Extra.week, V3.getConfig.
  cbn [V3.ACT_SUN V3.ACT_MON V3.ACT_TUE V3.ACT_WED V3.ACT_THU V3.ACT_FRI
       V3.ACT_SAT].
  now rewrite H1, H2, H3, H4, H5, H6, H7.
Qed.

End FallbackGoal.

(** X20.  The fallback plan of the planner always receives one of the four
    levels, so the "?? 400" of lines 421 and 685 never applies there: its
    goal is clamp(round(35 * WEIGHT_KG) + add, 1200, 4000) with add 0, 400,
    800 or 1200 for the level that today's activity resolves to.  With no
    activity and no weight configured the goal is 3250 ml from Monday to
    Friday and 2850 ml on Saturday and Sunday. *)
Theorem fallback_goal_by_level :
  (forall tz w env ml pct,
     exists a : Activity,
       V3.normalizeActivity (Props.V3_today tz w env) = activity_name a
       /\ V3.goal_ml (Props.V3_fallback tz w env ml pct)
          = Js.clamp (Js.Math_round (35 * V3.WEIGHT_KG (V3.getConfig env))
                      + Extra.flat_by_level a) 1200 4000)
  /\ (forall tz w env ml pct,
        exists a : Activity,
          V4.normalizeActivity (Extra.V4_today tz w env) = activity_name a
          /\ V3.goal_ml (Extra.V4_fallback tz w env ml pct)
             = Js.clamp (Js.Math_round (35 * V3.WEIGHT_KG (V4.getConfig env))
                         + Extra.flat_by_level a) 1200 4000)
  /\ (forall tz w env ml pct,
        V3.env_WEIGHT_KG env = None ->
        V3.env_ACTIVITY_MON env = None -> V3.env_ACTIVITY_TUE env = None ->
        V3.env_ACTIVITY_WED env = None -> V3.env_ACTIVITY_THU env = None ->
        V3.env_ACTIVITY_FRI env = None -> V3.env_ACTIVITY_SAT env = None ->
        V3.env_ACTIVITY_SUN env = None ->
        let dow := Js.getDay tz (V3.clk_dow w) in
        V3.goal_ml (Props.V3_fallback tz w env ml pct)
        = if ((dow =? 0) || (dow =? 6))%Z then 2850 else 3250).
Proof.
  split; [| split].
  - intros tz w env ml pct.
    destruct (normalizeActivity_level (Props.V3_today tz w env)) as [a E].
    exists a. split; [exact E |].
    unfold Props.V3_fallback, V3.fallbackPlan. cbv zeta.
    cbn [V3.goal_ml V3.weight_kg V3.activity].
    now rewrite E, flatAdd_of_level.
  - intros tz w env ml pct.
    destruct (normalizeActivity_level (Extra.V4_today tz w env)) as [a E].
    exists a. split; [exact E |].
    unfold Extra.V4_fallback. rewrite V4_fallbackPlan_fields. cbv zeta.
    cbn [V3.goal_ml V4.weight_kg V4.activity].
    unfold V4.normalizeActivity. now rewrite E, flatAdd_of_level.
  - intros tz w env ml pct W H1 H2 H3 H4 H5 H6 H7 dow.
    unfold Props.V3_fallback, V3.fallbackPlan. cbv zeta.
    cbn [V3.goal_ml V3.weight_kg V3.activity].
    unfold Props.V3_today. fold dow.
    pose proof (getDay_range tz (V3.clk_dow w)) as R. fold dow in R.
    rewrite (proj1 (dayActivity_table env dow R)).
    rewrite (default_week env H1 H2 H3 H4 H5 H6 H7).
    assert (V3.WEIGHT_KG (V3.getConfig env) = 70) as ->
      by (unfold V3.getConfig; cbn [V3.WEIGHT_KG]; now rewrite W).
    assert (dow = 0 \/ dow = 1 \/ dow = 2 \/ dow = 3 \/ dow = 4 \/ dow = 5
            \/ dow = 6)%Z as D by lia.
    clearbody dow.
    destruct D as [-> | [-> | [-> | [-> | [-> | [-> | ->]]]]]];
      vm_compute; reflexivity.
Qed.

(** The planner's fallback on Monday 2024-01-01, nothing configured. *)
Lemma fallback_goal_by_level_witness :
  V3.goal_ml
    (Props.V3_fallback 0 (Samples.V3_at Samples.noon V3.NoContent)
       (Samples.V3_env None None) 0 30)
  = 3250.
Proof.
  destruct fallback_goal_by_level as (_ & _ & H).
  apply (H 0%Z (Samples.V3_at Samples.noon V3.NoContent) (Samples.V3_env None None)
           0 30); reflexivity.
Defined.

(** ** Reading the request body *)

Section ReadingTheBody.





End ReadingTheBody.



(** ** The text sent by the rule-based handlers *)

Section RuleMessage.




End RuleMessage.

Section RuleMessage2.


End RuleMessage2.



(** ** The cooldown of the planner *)

Section PlannerCooldown.

Lemma V3_cooling_after (w1 w2 : V3.World) (env : V3.Env) (st : gmap string Z) :
  Props.V3_cooling w2 env (<[Props.V3_chat env := V3.clk_set w1]> st)
  <-> inject_Z (V3.clk_rate w2 - V3.clk_set w1)
      < V3.MIN_INTERVAL_MIN (V3.getConfig env) * 60 * 1000.
Proof.
  unfold Props.V3_cooling. rewrite lookup_insert_eq. reflexivity.
Qed.

Lemma V4_cooling_after (t : Z) (w2 : V4.World) (env : V3.Env) (st : gmap string Z) :
  Extra.V4_cooling w2 env (<[Props.V3_chat env := t]> st)
  <-> inject_Z (V4.clk_rate w2 - t)
      < V3.MIN_INTERVAL_MIN (V4.getConfig env) * 60 * 1000.
Proof.
  unfold Extra.V4_cooling. rewrite lookup_insert_eq. reflexivity.
Qed.

End PlannerCooldown.

(** X23.  After an invocation of the planner that answered notified, every
    well-formed request made outside quiet hours less than MIN_INTERVAL_MIN
    minutes after the write is answered skipped "interval", whatever the
    reading: the map stays as it was, no plan is computed and the
    text-generation service is not called.  From MIN_INTERVAL_MIN minutes on
    the request is not stopped by the cooldown. *)
Theorem planner_cooldown :
  (forall tz w1 w2 env st req1 req2 b pct ml,
     let r1 := V3.handler tz w1 env st req1 in
     Props.V3_notified (V3.response r1) = true ->
     Props.V3_well_formed env req2 b pct ml ->
     ~ Props.V3_quiet tz w2 env ->
     (inject_Z (V3.clk_rate w2 - V3.clk_set w1)
      < V3.MIN_INTERVAL_MIN (V3.getConfig env) * 60 * 1000 ->
      V3.handler tz w2 env (V3.lastNotified_after r1) req2
      = V3.reply (V3.Skipped interval None) (V3.lastNotified_after r1))
     /\ (V3.MIN_INTERVAL_MIN (V3.getConfig env) * 60 * 1000
         <= inject_Z (V3.clk_rate w2 - V3.clk_set w1) ->
         Props.V3_skipped
           (V3.response (V3.handler tz w2 env (V3.lastNotified_after r1) req2))
         <> Some interval))
  /\ (forall tz w1 w2 env st req1 req2 b pct ml,
        let r1 := V4.handler tz w1 env st req1 in
        Props.V3_notified (V3.response r1) = true ->
        Props.V3_well_formed env req2 b pct ml ->
        ~ Extra.V4_quiet tz w2 env ->
        (inject_Z (V4.clk_rate w2 - V4.clk_set w1)
         < V3.MIN_INTERVAL_MIN (V4.getConfig env) * 60 * 1000 ->
         V4.handler tz w2 env (V3.lastNotified_after r1) req2
         = V3.reply (V3.Skipped interval None) (V3.lastNotified_after r1))
        /\ (V3.MIN_INTERVAL_MIN (V4.getConfig env) * 60 * 1000
            <= inject_Z (V4.clk_rate w2 - V4.clk_set w1) ->
            Props.V3_skipped
              (V3.response (V4.handler tz w2 env (V3.lastNotified_after r1) req2))
            <> Some interval)).
Proof.
  split.
  - intros tz w1 w2 env st req1 req2 b pct ml r1 N WF NQ.
    destruct (V3_store tz w1 env st req1) as (_ & S & _).
    destruct (S N) as (_ & _ & _ & E). fold r1 in E. rewrite E.
    pose proof (V3_cooling_after w1 w2 env st) as CA.
    destruct (V3_exact_run tz w2 env (<[Props.V3_chat env := V3.clk_set w1]> st)
                req2 b pct ml WF)
      as [(Q & _) | [(_ & C & R) | [(_ & NC & _ & R)
         | [(_ & NC & _ & _ & R) | (_ & NC & _ & _ & R)]]]];
      [contradiction | ..]; rewrite R;
      (split; intros H;
       [try reflexivity; exfalso; apply NC, CA, H
       | try (cbn; discriminate); apply CA in C; lra]).
  - intros tz w1 w2 env st req1 req2 b pct ml r1 N WF NQ.
    destruct (V4_store tz w1 env st req1) as (_ & S & _).
    destruct (S N) as (_ & _ & _ & E). fold r1 in E. rewrite E.
    pose proof (V4_cooling_after (V4.clk_set w1) w2 env st) as CA.
    destruct (V4_exact_run tz w2 env (<[Props.V3_chat env := V4.clk_set w1]> st)
                req2 b pct ml WF)
      as [(Q & _) | [(_ & C & R) | [(_ & NC & _ & R)
         | [(_ & NC & _ & _ & R) | (_ & NC & _ & _ & R)]]]];
      [contradiction | ..]; rewrite R;
      (split; intros H;
       [try reflexivity; exfalso; apply NC, CA, H
       | try (cbn; discriminate); apply CA in C; lra]).
Qed.

(** A reading of 5 percent one minute after a notified one is rate-limited. *)
Lemma planner_cooldown_witness :
  V3.handler 0 (Samples.V3_at (Samples.noon + 60000) V3.NoContent)
    (Samples.V3_env None None)
    (V3.lastNotified_after
       (V3.handler 0 (Samples.V3_at Samples.noon V3.NoContent)
          (Samples.V3_env None None) ∅ (Samples.V3_post 30 0)))
    (Samples.V3_post 5 0)
  = V3.reply (V3.Skipped interval None)
      (V3.lastNotified_after
         (V3.handler 0 (Samples.V3_at Samples.noon V3.NoContent)
            (Samples.V3_env None None) ∅ (Samples.V3_post 30 0))).
Proof.
  destruct planner_cooldown as (H & _).
  apply (H 0%Z (Samples.V3_at Samples.noon V3.NoContent)
           (Samples.V3_at (Samples.noon + 60000) V3.NoContent)
           (Samples.V3_env None None) ∅ (Samples.V3_post 30 0)
           (Samples.V3_post 5 0) (Samples.V3_body 5 0) 5 0).
  - reflexivity.
  - repeat split.
  - intros [Q | Q]; vm_compute in Q; [now apply Q | discriminate Q].
  - reflexivity.
Defined.

(** ** The divisions of the pacing curve *)

Lemma pacing_checked_total (m a e : Q) (wake sleep t1 t2 now : Z) :
  Extra.pacing_checked m a e wake sleep t1 t2 now
  = Some (Props.pacing m a e wake sleep t1 t2 now).
Proof.
  unfold Extra.pacing_checked, Props.pacing, Extra.div_checked.
  destruct (Z.leb_spec now wake); [reflexivity |].
  destruct (Z.leb_spec sleep now); [reflexivity |].
  destruct (Z.leb_spec now t1).
  { destruct (Z.eqb_spec (t1 - wake) 0); [lia | reflexivity]. }
  destruct (Z.leb_spec now t2).
  { destruct (Z.eqb_spec (t2 - t1) 0); [lia | reflexivity]. }
  destruct (Z.eqb_spec (sleep - t2) 0); [lia | reflexivity].
Qed.

(** X24.  The three divisions of the pacing curve never divide by zero: in
    the branch that reaches it each divisor is a positive number of
    milliseconds, whatever wake, sleep and the two breakpoints are (also for
    a degenerate day).  So [fractionAt] of [computeSchedule] and of
    [makeSchedule] and the curve of the fallback plan never yield Infinity or
    NaN. *)
Theorem fractionAt_never_divides_by_zero :
  (forall m a e wake sleep t1 t2 now,
     Extra.pacing_checked m a e wake sleep t1 t2 now
     = Some (Props.pacing m a e wake sleep t1 t2 now))
  /\ (forall ctx now,
        Extra.pacing_checked (Props.morning_share (V1.activity_level ctx))
          (Props.afternoon_share (V1.activity_level ctx))
          (1 - (Props.morning_share (V1.activity_level ctx)
                + Props.afternoon_share (V1.activity_level ctx)))
          (V1.wake ctx) (V1.sleep ctx)
          (Props.phase_end 0.33 (V1.wake ctx) (V1.sleep ctx))
          (Props.phase_end 0.80 (V1.wake ctx) (V1.sleep ctx)) now
        = Some (V1.fractionAt (V1.computeSchedule ctx) now))
  /\ (forall tz fw fs level ws ss now,
        let wake := V2.parseHM tz fw ws 7 0 in
        let sleep := V2.parseHM tz fs ss 23 0 in
        Extra.pacing_checked (Props.morning_share level)
          (Props.afternoon_share level)
          (1 - (Props.morning_share level + Props.afternoon_share level))
          wake sleep (Props.phase_end 0.33 wake sleep)
          (Props.phase_end 0.80 wake sleep) now
        = Some (V2.fractionAt (V2.makeSchedule tz fw fs level ws ss) now))
  /\ (forall wake sleep now,
        Extra.pacing_checked 0.35 0.45 0.20 wake sleep
          (Props.phase_end 0.33 wake sleep) (Props.phase_end 0.80 wake sleep) now
        = Some (V3.frac wake sleep now)).
Proof.
  split; [exact pacing_checked_total |]. split; [| split].
  - intros ctx now. now rewrite pacing_checked_total, V1_schedule_shape.
  - intros tz fw fs level ws ss now wake sleep. subst wake sleep.
    now rewrite pacing_checked_total, V2_schedule_shape.
  - intros wake sleep now. now rewrite pacing_checked_total, V3_frac_shape.
Qed.

(** ** The clinician limit in the planner *)



(** ** The variants compared *)

(** X26.  The fallback plan of the re-edited planner is valid whatever the
    wake and sleep strings are, parsable or not: goal within [1200, 4000],
    target within [0, goal], sip within [150, 250], and its notify flag is
    the rule ((ml + 50 < target) or (pct < 40)) and remaining > 0.  With both
    strings absent, or given as "07:00" and "23:00", it is the fallback plan
    of the first planner but for the reason text. *)
Theorem reedited_fallback_plan :
  (forall tz fw fs p ml pct now,
     let plan := V4.fallbackPlan tz fw fs p ml pct now in
     Props.valid_plan plan
     /\ 150 <= V3.next_sip_ml plan <= 250
     /\ V3.reason plan = "fallback schedule"
     /\ (V3.should_notify plan = true
         <-> Props.should_notify (V3.goal_ml plan) (V3.target_ml_now plan) ml pct))
  /\ (forall tz fw fs p ml pct now,
        (V4.wakeStr p = None \/ V4.wakeStr p = Some "07:00") ->
        (V4.sleepStr p = None \/ V4.sleepStr p = Some "23:00") ->
        let plan3 :=
          V3.fallbackPlan tz fw fs
            {| V3.weight_kg := V4.weight_kg p; V3.activity := V4.activity p |}
            ml pct now in
        let plan4 := V4.fallbackPlan tz fw fs p ml pct now in
        V3.goal_ml plan4 = V3.goal_ml plan3
        /\ V3.target_ml_now plan4 = V3.target_ml_now plan3
        /\ V3.remaining_ml plan4 = V3.remaining_ml plan3
        /\ V3.next_sip_ml plan4 = V3.next_sip_ml plan3
        /\ V3.should_notify plan4 = V3.should_notify plan3
        /\ V3.reason plan3 = "fallback").
Proof.
  split; [exact V4_fallbackPlan_valid |].
  intros tz fw fs p ml pct now Hw Hs plan3 plan4. subst plan3 plan4.
  rewrite V4_fallbackPlan_fields. cbv zeta.
  assert (V4.parseHM tz fw (default "07:00" (V4.wakeStr p)) 7 0
          = V3.parseHM tz fw "07:00" 7 0) as ->
    by (destruct Hw as [-> | ->]; reflexivity).
  assert (V4.parseHM tz fs (default "23:00" (V4.sleepStr p)) 7 0
          = V3.parseHM tz fs "23:00" 7 0) as ->
    by (destruct Hs as [-> | ->]; reflexivity).
  unfold V3.fallbackPlan. cbv zeta.
  cbn [V3.goal_ml V3.target_ml_now V3.remaining_ml V3.next_sip_ml
       V3.should_notify V3.reason V3.weight_kg V3.activity].
  repeat split; reflexivity.
Qed.

(** The two fallback plans at noon, 70 kg and Moderate. *)
Lemma reedited_fallback_plan_witness :
  V3.target_ml_now
    (V4.fallbackPlan 0 Samples.noon Samples.noon
       {| V4.weight_kg := 70; V4.activity := "Moderate";
          V4.wakeStr := None; V4.sleepStr := None |} 0 30 Samples.noon)
  = V3.target_ml_now
      (V3.fallbackPlan 0 Samples.noon Samples.noon
         {| V3.weight_kg := 70; V3.activity := "Moderate" |} 0 30 Samples.noon).
Proof.
  destruct reedited_fallback_plan as (_ & H).
  refine (proj1 (proj2 (H 0%Z Samples.noon Samples.noon
                          {| V4.weight_kg := 70; V4.activity := "Moderate";
                             V4.wakeStr := None; V4.sleepStr := None |}
                          0 30 Samples.noon _ _))); now left.
Defined.

Section Calculators.


End Calculators.


